(** * Airport code lookup system: search engine, index construction, loader

    A shallow embedding of [smart_search.py] and [extended_data.py], together
    with the parts of Python's [difflib] and [heapq] they call, followed by
    the properties of the lookup chain, the index set and the loader.

    Conventions of the embedding.
    - Python [str] values are [string]s, a character standing for its
      code point.  The case maps and the classes of letters and of white
      space are the ASCII ones: on 7-bit characters they are Python's, and a
      character above 127 is given no case and is neither alphabetic nor
      white space.  A statement that would not hold of Python's case maps
      beyond these characters is made of ASCII strings ([Py.isascii]).  The
      digits are Python's on every character.
    - Python [float] coordinates are kept abstract: records are parametric
      in the type [F] of coordinates, which no lookup inspects.
    - A [dict] is an association list in insertion order, as the iteration
      order of a Python dictionary is part of the observable behaviour.
    - [print], exceptions and [exit] are made explicit by a small
      writer-and-error monad [M]. *)

From Stdlib Require Import List String Ascii Bool Arith NArith ZArith QArith.
From Stdlib Require Import Lia Permutation Sorted.
From Stdlib Require Import Reals Lra.
Import ListNotations.

Set Implicit Arguments.
Unset Strict Implicit.

Local Open Scope string_scope.
Local Open Scope bool_scope.
Local Open Scope nat_scope.
Local Open Scope list_scope.

(* ================================================================== *)
(** ** Python strings *)

Module Py.

Definition ord (c : ascii) : N := N_of_ascii c.

Definition in_range (lo hi : N) (c : ascii) : bool :=
  ((lo <=? ord c) && (ord c <=? hi))%N.

Definition char_isupper : ascii -> bool := in_range 65 90.
Definition char_islower : ascii -> bool := in_range 97 122.

Definition char_isalpha (c : ascii) : bool := char_isupper c || char_islower c.

(** The decimal digits 0 to 9, which [int] reads, and the characters of
    [str.isdigit()]: these and the superscript digits 178, 179 and 185. *)
Definition char_isdecimal : ascii -> bool := in_range 48 57.

Definition char_isdigit (c : ascii) : bool :=
  char_isdecimal c || (ord c =? 178)%N || (ord c =? 179)%N || (ord c =? 185)%N.

(** White space of [str.strip()]: tab, line feed, vertical tab, form feed,
    carriage return, the four separators 28 to 31, and the blank. *)
Definition char_isspace (c : ascii) : bool :=
  in_range 9 13 c || in_range 28 31 c || (ord c =? 32)%N.

Definition char_upper (c : ascii) : ascii :=
  if char_islower c then ascii_of_N (ord c - 32) else c.

Definition char_lower (c : ascii) : ascii :=
  if char_isupper c then ascii_of_N (ord c + 32) else c.

Fixpoint smap (f : ascii -> ascii) (s : string) : string :=
  match s with
  | EmptyString => EmptyString
  | String c s' => String (f c) (smap f s')
  end.

Fixpoint sall (p : ascii -> bool) (s : string) : bool :=
  match s with
  | EmptyString => true
  | String c s' => p c && sall p s'
  end.

(** [s.upper()] and [s.lower()]. *)
Definition upper : string -> string := smap char_upper.
Definition lower : string -> string := smap char_lower.

(** Truth value of a string: [if s] holds of the non-empty ones. *)
Definition truthy (s : string) : bool :=
  match s with EmptyString => false | String _ _ => true end.

(** [s.isascii()]: every character is a 7-bit one. *)
Definition char_isascii (c : ascii) : bool := (ord c <? 128)%N.
Definition isascii (s : string) : bool := sall char_isascii s.

(** [s.isalpha()] and [s.isdigit()]: every character in the class, and at
    least one character. *)
Definition isalpha (s : string) : bool := truthy s && sall char_isalpha s.
Definition isdigit (s : string) : bool := truthy s && sall char_isdigit s.

Fixpoint lstrip_with (p : ascii -> bool) (s : string) : string :=
  match s with
  | EmptyString => EmptyString
  | String c s' => if p c then lstrip_with p s' else s
  end.

Fixpoint rstrip_with (p : ascii -> bool) (s : string) : string :=
  match s with
  | EmptyString => EmptyString
  | String c s' =>
      let r := rstrip_with p s' in
      if negb (truthy r) && p c then EmptyString else String c r
  end.

Definition strip_with (p : ascii -> bool) (s : string) : string :=
  lstrip_with p (rstrip_with p s).

(** [s.strip()]. *)
Definition strip : string -> string := strip_with char_isspace.

(** [s.strip(q)] for [q] the one-character string holding a double quote
    (character 34). *)
Definition strip_quotes : string -> string :=
  strip_with (Ascii.eqb "034"%char).

(** [sub in s]: [sub] occurs in [s] as a contiguous substring. *)
Fixpoint contains (sub s : string) : bool :=
  String.prefix sub s ||
  match s with
  | EmptyString => false
  | String _ s' => contains sub s'
  end.

(** [len(s)]. *)
Definition len (s : string) : nat := String.length s.

End Py.

(* ================================================================== *)
(** ** Effects: printed lines, exceptions, process exit *)

(** The exceptions that the modelled code can raise. [SystemExit] is what
    [exit(status)] raises; it is not an [Exception] and so passes through
    every [except Exception] handler. *)
Inductive exn : Type :=
| ValueError
| KeyError
| FileNotFoundError
| JSONDecodeError
| CsvError
| SystemExit (status : Z).

Definition is_Exception (e : exn) : bool :=
  match e with SystemExit _ => false | _ => true end.

(** One constructor per [print] call of the modelled functions; the
    arguments are the values interpolated in the message. *)
Inductive line : Type :=
| MsgLoaded (n : nat)
| MsgDatabaseNotFound
| MsgErrorLoading (e : exn)
| MsgCodeNotFound (code : string)
| MsgSuggestion (code name city : string)
| MsgProcessing
| MsgErrorProcessing (e : exn)
| MsgProcessed (airports countries : nat)
| MsgSaving
| MsgSaved
| MsgCreatingIndexes
| MsgIndexesCreated.

Inductive result (A : Type) : Type :=
| Return (a : A)
| Raise (e : exn).

Arguments Return {A} a.
Arguments Raise {A} e.

(** A computation yields the lines it printed and how it ended. *)
Definition M (A : Type) : Type := (list line * result A)%type.

Definition ret {A} (a : A) : M A := ([], Return a).

Definition raise {A} (e : exn) : M A := ([], Raise e).

Definition bind {A B} (m : M A) (k : A -> M B) : M B :=
  match m with
  | (o, Return a) => let (o', r) := k a in (o ++ o', r)
  | (o, Raise e) => (o, Raise e)
  end.

Definition print (l : line) : M unit := ([l], Return tt).

(** [exit(status)]. *)
Definition exit {A} (status : Z) : M A := raise (SystemExit status).

(** [try: body except ...: handler]; [handler e] is [None] when no clause
    of the statement matches [e]. *)
Definition try_except {A} (body : M A) (handler : exn -> option (M A)) : M A :=
  match body with
  | (o, Return a) => (o, Return a)
  | (o, Raise e) =>
      match handler e with
      | Some h => let (o', r) := h in (o ++ o', r)
      | None => (o, Raise e)
      end
  end.

Declare Scope monad_scope.
Delimit Scope monad_scope with monad.
Notation "x <- m ;; k" := (bind m (fun x => k))
  (at level 61, m at next level, right associativity) : monad_scope.
Notation "m ;;; k" := (bind m (fun _ => k))
  (at level 61, right associativity) : monad_scope.
Local Open Scope monad_scope.

Definition stdout {A} (m : M A) : list line := fst m.
Definition outcome {A} (m : M A) : result A := snd m.

(** [for x in xs: body x]. *)
Fixpoint for_each {A} (xs : list A) (body : A -> M unit) : M unit :=
  match xs with
  | [] => ret tt
  | x :: xs' => body x ;;; for_each xs' body
  end.

(** A loop that threads an accumulator through its body. *)
Fixpoint fold_M {A S} (body : S -> A -> M S) (xs : list A) (s : S) : M S :=
  match xs with
  | [] => ret s
  | x :: xs' => s' <- body s x ;; fold_M body xs' s'
  end.

(* ================================================================== *)
(** ** Dictionaries *)

Definition dict (V : Type) : Type := list (string * V).

Fixpoint dict_get {V} (k : string) (d : dict V) : option V :=
  match d with
  | [] => None
  | (k', v) :: d' => if String.eqb k' k then Some v else dict_get k d'
  end.

(** [k in d]. *)
Definition dict_contains {V} (k : string) (d : dict V) : bool :=
  match dict_get k d with Some _ => true | None => false end.

(** [d[k] = v]: a present key keeps its place, a new key goes last. *)
Fixpoint dict_set {V} (k : string) (v : V) (d : dict V) : dict V :=
  match d with
  | [] => [(k, v)]
  | (k', v') :: d' =>
      if String.eqb k' k then (k, v) :: d' else (k', v') :: dict_set k v d'
  end.

(** [d[k]], which raises [KeyError] on a missing key. *)
Definition dict_getitem {V} (k : string) (d : dict V) : M V :=
  match dict_get k d with
  | Some v => ret v
  | None => raise KeyError
  end.

(** [list(d.keys())]. *)
Definition keys {V} (d : dict V) : list string := map fst d.

(** [d[k].append(x)] on a [defaultdict(list)]. *)
Definition dict_append {V} (k : string) (x : V) (d : dict (list V)) : dict (list V) :=
  match dict_get k d with
  | Some l => dict_set k (l ++ [x]) d
  | None => dict_set k [x] d
  end.

(** [s.add(x)] on a set kept as a duplicate-free list.  The order in which
    Python lists a set is unspecified; nothing below depends on it. *)
Definition set_add (x : string) (s : list string) : list string :=
  if existsb (String.eqb x) s then s else s ++ [x].

(* ================================================================== *)
(** ** Airport records and files *)

(** The dictionary that [process_airport_data] builds for a row. *)
Record Airport (F : Type) : Type := mkAirport {
  id : Z;
  name : string;
  city : string;
  country : string;
  iata : string;
  icao : string;
  latitude : F;
  longitude : F;
  elevation : Z;
  timezone : string;
  type_ : string;
  source : string
}.

(** A file of the [data] directory: absent, present with a content that
    its reader rejects, or present with a value of the expected shape. *)
Inductive file (T : Type) : Type :=
| Absent
| Unreadable
| Content (v : T).

Arguments Absent {T}.
Arguments Unreadable {T}.
Arguments Content {T} v.

Record FileSystem (F : Type) : Type := mkFS {
  airports_raw_dat : file (list (list string));
  airport_data_json : file (list (Airport F));
  countries_json : file (list string);
  cities_json : file (list string);
  iata_index_json : file (dict (Airport F));
  icao_index_json : file (dict (Airport F));
  city_index_json : file (dict (list (Airport F)));
  country_index_json : file (dict (list (Airport F)))
}.

(** [with open(path) as f: json.load(f)]. *)
Definition json_load {T} (f : file T) : M T :=
  match f with
  | Absent => raise FileNotFoundError
  | Unreadable => raise JSONDecodeError
  | Content v => ret v
  end.

(** [with open(path) as f: csv.reader(f)], all rows read. *)
Definition csv_read {T} (f : file T) : M T :=
  match f with
  | Absent => raise FileNotFoundError
  | Unreadable => raise CsvError
  | Content v => ret v
  end.

(** [if l] on a list. *)
Definition nonempty {A} (l : list A) : bool :=
  match l with [] => false | _ :: _ => true end.

(* ================================================================== *)
(** ** Sorting *)

Section Sorting.

Variable A : Type.
Variable lt : A -> A -> bool.

Fixpoint insert (x : A) (l : list A) : list A :=
  match l with
  | [] => [x]
  | y :: l' => if lt y x then y :: insert x l' else x :: y :: l'
  end.

(** [sorted(l)] where [lt] decides [<]: the sort is stable, an element
    stays in front of the later elements that are not smaller. *)
Definition sorted (l : list A) : list A := fold_right insert [] l.

End Sorting.

(** [sorted(l, reverse=True)], which is stable too. *)
Definition sorted_reverse {A} (lt : A -> A -> bool) (l : list A) : list A :=
  sorted (fun u v => lt v u) l.

(** [sorted(l, key=key)] for a string-valued key. *)
Definition sorted_by_key {A} (key : A -> string) (l : list A) : list A :=
  sorted (fun u v => String.ltb (key u) (key v)) l.

(* ================================================================== *)
(** ** [difflib]: sequence matching and close matches *)

Module Difflib.

(** [_calculate_ratio(matches, length)].  Scores are kept as exact
    rationals; the comparisons made on them below agree with those of the
    binary64 quotients as long as the two strings together are shorter than
    2^26 characters, two distinct such quotients being further apart than
    the rounding error. *)
Definition calculate_ratio (matches length : nat) : Q :=
  match length with
  | O => 1
  | S _ => Z.of_nat (2 * matches) # Pos.of_nat length
  end.

Section SequenceMatcher.

(** [a] is the first sequence ([set_seq1]), [b] the second ([set_seq2]). *)
Variables a b : list ascii.

Definition count (c : ascii) (l : list ascii) : nat :=
  List.length (filter (Ascii.eqb c) l).

(** [__chain_b]: with no junk predicate, the only characters purged from
    [b2j] are the popular ones of a [b] of 200 characters or more. *)
Definition bpopular (c : ascii) : bool :=
  let n := List.length b in
  (200 <=? n) && (n / 100 + 1 <? count c b).

Fixpoint indices (c : ascii) (j : nat) (l : list ascii) : list nat :=
  match l with
  | [] => []
  | x :: l' =>
      if Ascii.eqb x c then j :: indices c (S j) l' else indices c (S j) l'
  end.

(** [b2j.get(c, nothing)]. *)
Definition b2j (c : ascii) : list nat :=
  if bpopular c then [] else indices c 0 b.

(** [j2len.get(j - 1, 0)]; the key [-1] asked for at [j = 0] is never
    present. *)
Definition j2len_get_pred (j2len : list (nat * nat)) (j : nat) : nat :=
  match j with
  | O => 0
  | S j' =>
      match find (fun p => fst p =? j') j2len with
      | Some p => snd p
      | None => 0
      end
  end.

Definition best_t : Type := (nat * nat * nat)%type.

(** Body of the inner loop of [find_longest_match].  The indices of
    [b2j] ascend, so leaving the loop at the first [j >= bhi] and skipping
    every such [j] are the same. *)
Definition inner (i blo bhi : nat) (j2len : list (nat * nat))
  (st : list (nat * nat) * best_t) (j : nat) : list (nat * nat) * best_t :=
  let '(newj2len, (besti, bestj, bestsize)) := st in
  if j <? blo then st
  else if bhi <=? j then st
  else
    let k := j2len_get_pred j2len j + 1 in
    if bestsize <? k
    then ((j, k) :: newj2len, (i + 1 - k, j + 1 - k, k))
    else ((j, k) :: newj2len, (besti, bestj, bestsize)).

(** Body of the outer loop, for one [i] of [range(alo, ahi)]. *)
Definition outer (blo bhi : nat) (st : list (nat * nat) * best_t) (i : nat)
  : list (nat * nat) * best_t :=
  let '(j2len, best) := st in
  let js := match nth_error a i with Some c => b2j c | None => [] end in
  fold_left (inner i blo bhi j2len) js ([], best).

(** [a[i] == b[j]]. *)
Definition same (i j : nat) : bool :=
  match nth_error a i, nth_error b j with
  | Some x, Some y => Ascii.eqb x y
  | _, _ => false
  end.

(** First extension loop: towards the left, one step per iteration. *)
Fixpoint extend_left (alo blo besti bestj bestsize : nat) {struct besti} : best_t :=
  match besti, bestj with
  | S i', S j' =>
      if (alo <=? i') && (blo <=? j') && same i' j'
      then extend_left alo blo i' j' (S bestsize)
      else (besti, bestj, bestsize)
  | _, _ => (besti, bestj, bestsize)
  end.

(** Second extension loop: towards the right; [gap] is
    [ahi - (besti + bestsize)], which every iteration decreases by one. *)
Fixpoint extend_right (gap bhi besti bestj bestsize : nat) {struct gap} : nat :=
  match gap with
  | O => bestsize
  | S gap' =>
      if (bestj + bestsize <? bhi) && same (besti + bestsize) (bestj + bestsize)
      then extend_right gap' bhi besti bestj (S bestsize)
      else bestsize
  end.

(** [find_longest_match(alo, ahi, blo, bhi)].  The two last loops of the
    source extend over junk only, and there is none. *)
Definition find_longest_match (alo ahi blo bhi : nat) : best_t :=
  let '(_, (besti, bestj, bestsize)) :=
    fold_left (outer blo bhi) (seq alo (ahi - alo)) ([], (alo, blo, 0)) in
  let '(besti, bestj, bestsize) := extend_left alo blo besti bestj bestsize in
  (besti, bestj,
   extend_right (ahi - (besti + bestsize)) bhi besti bestj bestsize).

(** The sum of the sizes of the blocks of [get_matching_blocks] within
    [a[alo:ahi]] and [b[blo:bhi]]: the longest block, then the blocks to its
    left and to its right.  The sum does not depend on the order in which
    the source takes the pending ranges from its work list, nor on the
    merging of adjacent blocks.  [fuel] bounds the depth of the recursion;
    [S (ahi - alo)] is enough ([matched_fuel] below). *)
Fixpoint matched (fuel alo ahi blo bhi : nat) : nat :=
  match fuel with
  | O => 0
  | S fuel' =>
      let '(i, j, k) := find_longest_match alo ahi blo bhi in
      if k =? 0 then 0
      else
        k
        + (if (alo <? i) && (blo <? j) then matched fuel' alo i blo j else 0)
        + (if (i + k <? ahi) && (j + k <? bhi)
           then matched fuel' (i + k) ahi (j + k) bhi else 0)
  end.

(** [ratio()]. *)
Definition ratio : Q :=
  calculate_ratio
    (matched (S (List.length a)) 0 (List.length a) 0 (List.length b))
                  (List.length a + List.length b).

(** [avail[elt]] when present, else [fullbcount.get(elt, 0)]. *)
Definition avail_get (avail : list (ascii * Z)) (elt : ascii) : Z :=
  match find (fun p => Ascii.eqb (fst p) elt) avail with
  | Some p => snd p
  | None => Z.of_nat (count elt b)
  end.

Definition quick_step (st : list (ascii * Z) * nat) (elt : ascii)
  : list (ascii * Z) * nat :=
  let '(avail, matches) := st in
  let numb := avail_get avail elt in
  ((elt, (numb - 1)%Z) :: avail, if (0 <? numb)%Z then S matches else matches).

(** [quick_ratio()]. *)
Definition quick_ratio : Q :=
  calculate_ratio (snd (fold_left quick_step a ([], 0)))
                  (List.length a + List.length b).

(** [real_quick_ratio()]. *)
Definition real_quick_ratio : Q :=
  calculate_ratio (Nat.min (List.length a) (List.length b))
                  (List.length a + List.length b).

End SequenceMatcher.

(** Order of the [(score, x)] tuples: by score, then by string. *)
Definition tuple_lt (p q : Q * string) : bool :=
  match (fst p ?= fst q)%Q with
  | Lt => true
  | Gt => false
  | Eq => String.ltb (snd p) (snd q)
  end.

(** [heapq.nlargest(n, l)], by its documented meaning
    [sorted(l, reverse=True)[:n]]. *)
Definition nlargest (n : Z) (l : list (Q * string)) : list (Q * string) :=
  firstn (Z.to_nat n) (sorted_reverse tuple_lt l).

(** The [(score, x)] tuples of the candidates that pass the three tests
    of the loop of [get_close_matches]. *)
Definition scored (word : string) (cutoff : Q) (possibilities : list string)
  : list (Q * string) :=
  let b := list_ascii_of_string word in
  flat_map
    (fun x =>
       let a := list_ascii_of_string x in
       if Qle_bool cutoff (real_quick_ratio a b)
          && Qle_bool cutoff (quick_ratio a b)
          && Qle_bool cutoff (ratio a b)
       then [(ratio a b, x)] else [])
    possibilities.

(** [get_close_matches(word, possibilities, n, cutoff)]. *)
Definition get_close_matches (word : string) (possibilities : list string)
  (n : Z) (cutoff : Q) : M (list string) :=
  if negb (0 <? n)%Z then raise ValueError
  else if negb (Qle_bool 0 cutoff && Qle_bool cutoff 1) then raise ValueError
  else ret (map snd (nlargest n (scored word cutoff possibilities))).

End Difflib.

(* ================================================================== *)
(** ** [smart_search.py]: class [AirportSearch] *)

Section Search.

Variable F : Type.

(** The attributes of an [AirportSearch] object. *)
Record AirportSearch : Type := mkSearch {
  airports : list (Airport F);
  iata_index : dict (Airport F);
  icao_index : dict (Airport F);
  city_index : dict (list (Airport F));
  country_index : dict (list (Airport F))
}.

(** [AirportSearch.load_data], on the files of [fs]. *)
Definition load_data (fs : FileSystem F) : M AirportSearch :=
  try_except
    (a <- json_load (airport_data_json fs) ;;
     i <- json_load (iata_index_json fs) ;;
     c <- json_load (icao_index_json fs) ;;
     ci <- json_load (city_index_json fs) ;;
     co <- json_load (country_index_json fs) ;;
     print (MsgLoaded (List.length a)) ;;;
     ret (mkSearch a i c ci co))
    (fun e =>
       match e with
       | FileNotFoundError => Some (print MsgDatabaseNotFound ;;; exit 1%Z)
       | _ =>
           if is_Exception e
           then Some (print (MsgErrorLoading e) ;;; exit 1%Z)
           else None
       end).

(** [AirportSearch()]: the constructor sets empty attributes and calls
    [load_data]. *)
Definition AirportSearch_init (fs : FileSystem F) : M AirportSearch :=
  load_data fs.

Variable self : AirportSearch.

(** The body of the loop over the suggestions, in [search_by_code]. *)
Definition print_suggestion (suggestion : string) : M unit :=
  if dict_contains suggestion (iata_index self) then
    airport <- dict_getitem suggestion (iata_index self) ;;
    print (MsgSuggestion suggestion (name airport) (city airport))
  else if dict_contains suggestion (icao_index self) then
    airport <- dict_getitem suggestion (icao_index self) ;;
    print (MsgSuggestion suggestion (name airport) (city airport))
  else ret tt.

Definition search_by_code (code : string) : M (list (Airport F)) :=
  let code := Py.strip (Py.upper code) in
  if (Py.len code =? 3) && dict_contains code (iata_index self) then
    x <- dict_getitem code (iata_index self) ;; ret [x]
  else if (Py.len code =? 4) && dict_contains code (icao_index self) then
    x <- dict_getitem code (icao_index self) ;; ret [x]
  else
    let all_codes := keys (iata_index self) ++ keys (icao_index self) in
    suggestions <- Difflib.get_close_matches code all_codes 5 (6 # 10) ;;
    (if nonempty suggestions then
       print (MsgCodeNotFound code) ;;;
       for_each suggestions print_suggestion
     else ret tt) ;;;
    ret [].

(** [results.extend(index[match])] for each [match], from [results]. *)
Definition extend_all (index : dict (list (Airport F))) (matches : list string)
  (results : list (Airport F)) : M (list (Airport F)) :=
  fold_M (fun results m => l <- dict_getitem m index ;; ret (results ++ l))
         matches results.

Definition search_by_city (city_name : string) : M (list (Airport F)) :=
  let city_name := Py.strip city_name in
  let results :=
    fold_left
      (fun results (item : string * list (Airport F)) =>
         let (city_key, airports) := item in
         if Py.contains (Py.lower city_name) (Py.lower city_key)
         then results ++ airports else results)
      (city_index self) [] in
  if negb (nonempty results) then
    let city_keys := keys (city_index self) in
    matches <- Difflib.get_close_matches city_name city_keys 10 (6 # 10) ;;
    extend_all (city_index self) matches results
  else ret results.

Definition search_by_country (country_name : string) : M (list (Airport F)) :=
  let country_name := Py.strip country_name in
  if dict_contains country_name (country_index self) then
    dict_getitem country_name (country_index self)
  else
    let countries := keys (country_index self) in
    matches <- Difflib.get_close_matches country_name countries 3 (6 # 10) ;;
    extend_all (country_index self) matches [].

Definition search_by_name (airport_name : string) : M (list (Airport F)) :=
  let airport_name := Py.strip (Py.lower airport_name) in
  ret (filter (fun airport => Py.contains airport_name (Py.lower (name airport)))
              (airports self)).

Definition smart_search (query : string) : M (list (Airport F)) :=
  let query := Py.strip query in
  if negb (Py.truthy query) then ret []
  else
    let after_code :=
      city_results <- search_by_city query ;;
      if nonempty city_results then ret city_results
      else
        country_results <- search_by_country query ;;
        if nonempty country_results then ret country_results
        else
          name_results <- search_by_name query ;;
          if nonempty name_results then ret name_results
          else ret [] in
    if ((Py.len query =? 3) || (Py.len query =? 4)) && Py.isalpha query then
      results <- search_by_code query ;;
      if nonempty results then ret results else after_code
    else after_code.

Definition get_country_airports (country_name : string) : M (list (Airport F)) :=
  if dict_contains country_name (country_index self) then
    airports <- dict_getitem country_name (country_index self) ;;
    ret (sorted_by_key (@city F) airports)
  else
    let countries := keys (country_index self) in
    matches <- Difflib.get_close_matches country_name countries 1 (6 # 10) ;;
    match matches with
    | m :: _ =>
        l <- dict_getitem m (country_index self) ;;
        ret (sorted_by_key (@city F) l)
    | [] => ret []
    end.

End Search.

(* ================================================================== *)
(** ** [extended_data.py]: processing the raw rows, building the indexes *)

(** [int(s)] for a string of decimal digits. *)
Fixpoint int_digits (acc : Z) (s : string) : Z :=
  match s with
  | EmptyString => acc
  | String c s' => int_digits (10 * acc + Z.of_N (Py.ord c - 48)) s'
  end.

(** [int(s)], as the code calls it: on a string that [s.isdigit()]
    accepts.  [None] stands for its [ValueError]: on a digit that is not a
    decimal digit, and on more digits than the limit [max_str_digits] of the
    interpreter ([sys.get_int_max_str_digits()]: 4300 unless configured, 0
    for no limit and on interpreters that have none), which is looked at
    over 640 digits only. *)
Definition int (max_str_digits : nat) (s : string) : option Z :=
  if Py.truthy s && Py.sall Py.char_isdecimal s
     && negb ((640 <? Py.len s) && (0 <? max_str_digits)
              && (max_str_digits <? Py.len s))
  then Some (int_digits 0 s) else None.

Section ExtendedData.

Variable F : Type.

(** The limit of [int] on the number of digits. *)
Variable max_str_digits : nat.

(** [float(s)], [None] standing for its [ValueError], and [0.0]. *)
Variable float : string -> option F.
Variable float_zero : F.

(** [int(s) if s.isdigit() else 0]. *)
Definition int_or_zero (s : string) : M Z :=
  if Py.isdigit s then
    match int max_str_digits s with
    | Some n => ret n
    | None => raise ValueError
    end
  else ret 0%Z.

Definition float_or_zero (s : string) : M F :=
  if Py.truthy s then
    match float s with
    | Some x => ret x
    | None => raise ValueError
    end
  else ret float_zero.

(** The dictionary built from a row of at least 14 fields. *)
Definition airport_of_row (row : list string) : M (Airport F) :=
  let col i := nth i row EmptyString in
  id_ <- int_or_zero (col 0) ;;
  lat <- float_or_zero (col 6) ;;
  lon <- float_or_zero (col 7) ;;
  elevation_ <- int_or_zero (col 8) ;;
  ret {| id := id_;
         name := Py.strip_quotes (col 1);
         city := Py.strip_quotes (col 2);
         country := Py.strip_quotes (col 3);
         iata := Py.strip_quotes (col 4);
         icao := Py.strip_quotes (col 5);
         latitude := lat;
         longitude := lon;
         elevation := elevation_;
         timezone := Py.strip_quotes (col 11);
         type_ := Py.strip_quotes (col 12);
         source := Py.strip_quotes (col 13) |}.

(** [f"{airport['city']}, {airport['country']}"]. *)
Definition city_key (airport : Airport F) : string :=
  (city airport ++ ", " ++ country airport)%string.

Definition processed : Type :=
  (list (Airport F) * list string * list string)%type.

(** Body of the loop over the rows: [airports], [countries], [cities]. *)
Definition process_row (st : processed) (row : list string) : M processed :=
  let '(airports, countries, cities) := st in
  if 14 <=? List.length row then
    airport <- airport_of_row row ;;
    if Py.truthy (iata airport) && (Py.len (iata airport) =? 3) then
      ret (airports ++ [airport],
           set_add (country airport) countries,
           set_add (city_key airport) cities)
    else ret st
  else ret st.

(** [process_airport_data]; [None] is its [None, None, None]. *)
Definition process_airport_data (fs : FileSystem F) : M (option processed) :=
  print MsgProcessing ;;;
  r <- try_except
         (rows <- csv_read (airports_raw_dat fs) ;;
          st <- fold_M process_row rows ([], [], []) ;;
          ret (Some st))
         (fun e =>
            if is_Exception e
            then Some (print (MsgErrorProcessing e) ;;; ret None)
            else None) ;;
  match r with
  | None => ret None
  | Some (airports, countries, cities) =>
      print (MsgProcessed (List.length airports) (List.length countries)) ;;;
      ret (Some (airports, countries, cities))
  end.

(** The four dictionaries of [create_search_indexes]. *)
Definition build_iata_index (airports : list (Airport F)) : dict (Airport F) :=
  fold_left
    (fun d airport =>
       if Py.truthy (iata airport) then dict_set (iata airport) airport d else d)
    airports [].

Definition build_icao_index (airports : list (Airport F)) : dict (Airport F) :=
  fold_left
    (fun d airport =>
       if Py.truthy (icao airport) then dict_set (icao airport) airport d else d)
    airports [].

Definition build_city_index (airports : list (Airport F))
  : dict (list (Airport F)) :=
  fold_left (fun d airport => dict_append (city_key airport) airport d)
            airports [].

Definition build_country_index (airports : list (Airport F))
  : dict (list (Airport F)) :=
  fold_left (fun d airport => dict_append (country airport) airport d)
            airports [].

(** [create_search_indexes(airports)]: the files it writes replace those
    of [fs].  Writing is taken to succeed. *)
Definition create_search_indexes (airports : list (Airport F))
  (fs : FileSystem F) : M (FileSystem F) :=
  print MsgCreatingIndexes ;;;
  let fs' :=
    {| airports_raw_dat := airports_raw_dat fs;
       airport_data_json := airport_data_json fs;
       countries_json := countries_json fs;
       cities_json := cities_json fs;
       iata_index_json := Content (build_iata_index airports);
       icao_index_json := Content (build_icao_index airports);
       city_index_json := Content (build_city_index airports);
       country_index_json := Content (build_country_index airports) |} in
  print MsgIndexesCreated ;;;
  ret fs'.

(** [save_processed_data(airports, countries, cities)]. *)
Definition save_processed_data (airports : list (Airport F))
  (countries cities : list string) (fs : FileSystem F) : M (FileSystem F) :=
  print MsgSaving ;;;
  let fs1 :=
    {| airports_raw_dat := airports_raw_dat fs;
       airport_data_json := Content airports;
       countries_json := Content (sorted String.ltb countries);
       cities_json := Content (sorted String.ltb cities);
       iata_index_json := iata_index_json fs;
       icao_index_json := icao_index_json fs;
       city_index_json := city_index_json fs;
       country_index_json := country_index_json fs |} in
  fs2 <- create_search_indexes airports fs1 ;;
  print MsgSaved ;;;
  ret fs2.

(** The search object over a store and the indexes built from it: what
    [AirportSearch()] loads after [save_processed_data] has run. *)
Definition indexed (airports : list (Airport F)) : AirportSearch F :=
  {| airports := airports;
     iata_index := build_iata_index airports;
     icao_index := build_icao_index airports;
     city_index := build_city_index airports;
     country_index := build_country_index airports |}.

End ExtendedData.

(* ================================================================== *)
(** ** Geo Engine *)

Module Geo.

Local Open Scope R_scope.

(** Modelled from the spec: the Earth radius, in kilometres, and the
    number of miles in a kilometre that section 4.5 gives for the Geo Engine
    of [advanced_features.py], a file that is not among the sources. *)
Definition earth_radius_km : R := 6371.
Definition km_per_mile_ratio : R := 0.621371.

(** Modelled from the spec: degrees to radians, for the coordinates that
    section 4.5 takes in degrees. *)
Definition radians (degrees : R) : R := degrees * PI / 180.

(** Modelled from the spec: the haversine formula of the Geo Engine.
    [final_system.py] imports the engine from [advanced_features.py], which
    is not among the sources, so the formula is the textbook one that
    section 4.5 names, over latitudes and longitudes in degrees and with the
    Earth radius and the mile ratio stated there.  Coordinates are real
    numbers here: the rounding of binary64 arithmetic is not modelled. *)
Definition haversine_km (lat1 lon1 lat2 lon2 : R) : R :=
  let dlat := radians lat2 - radians lat1 in
  let dlon := radians lon2 - radians lon1 in
  let h := (sin (dlat / 2))² + cos (radians lat1) * cos (radians lat2) * (sin (dlon / 2))² in
  2 * earth_radius_km * asin (sqrt h).

(** Modelled from the spec: the result [Distance{km, miles}] of section
    4.5. *)
Record Distance : Type := mkDistance { km : R; miles : R }.

(** Modelled from the spec: [distance(a, b) -> Distance{km, miles}] of
    section 4.5, the missing [calculate_distance] once both codes have been
    resolved to records. *)
Definition distance (a b : Airport R) : Distance :=
  let d := haversine_km (latitude a) (longitude a) (latitude b) (longitude b) in
  {| km := d; miles := d * km_per_mile_ratio |}.

End Geo.

(* ================================================================== *)
(** ** The statements of the specification, and sample data *)

Local Open Scope monad_scope.

(** The precedence chain in the words of the specification: run the
    strategies in order and stop at the first non-empty result. *)
Fixpoint first_hit {A} (strategies : list (M (list A))) : M (list A) :=
  match strategies with
  | [] => ret []
  | m :: rest => r <- m ;; if nonempty r then ret r else first_hit rest
  end.

(** The strategies that the specification lets a trimmed query reach:
    code lookup is tried only for 3 or 4 alphabetic characters. *)
Definition strategies {F} (self : AirportSearch F) (query : string)
  : list (M (list (Airport F))) :=
  let tail :=
    [search_by_city self query; search_by_country self query;
     search_by_name self query] in
  if ((Py.len query =? 3) || (Py.len query =? 4)) && Py.isalpha query
  then search_by_code self query :: tail
  else tail.

(** Scores of the Fuzzy Matcher, of a candidate against the query. *)
Definition score (query candidate : string) : Q :=
  Difflib.ratio (list_ascii_of_string candidate) (list_ascii_of_string query).

(** Ranking as the code has it: a candidate is followed by one of lower
    score, or by one of the same score that is not greater as a string. *)
Definition ranked_before (query x y : string) : Prop :=
  (score query y < score query x \/
   (score query y == score query x /\ String.leb y x = true))%Q.

(** Ranking in the words of the specification: on equal scores the
    candidates follow their lexical order. *)
Definition ranked_before_lexical (query x y : string) : Prop :=
  (score query y < score query x \/
   (score query y == score query x /\ String.leb x y = true))%Q.

(** What [get_close_matches] returns on valid arguments. *)
Definition best_matches (word : string) (possibilities : list string)
  (n : Z) (cutoff : Q) : list string :=
  map snd (Difflib.nlargest n (Difflib.scored word cutoff possibilities)).

(** The bucket of a key, empty for a key that the index lacks. *)
Definition bucket {V} (index : dict (list V)) (k : string) : list V :=
  match dict_get k index with Some l => l | None => [] end.

(** The buckets of the keys that satisfy [p], whole and in index order. *)
Definition selected {V} (p : string -> bool) (index : dict (list V)) : list V :=
  flat_map (fun item => if p (fst item) then snd item else []) index.

(** Ascending order of city names. *)
Definition city_ascending {F} (a b : Airport F) : Prop :=
  String.leb (city a) (city b) = true.

(** The line printed for a suggestion of code lookup. *)
Definition suggestion_line {F} (self : AirportSearch F) (s : string) : list line :=
  match dict_get s (iata_index self), dict_get s (icao_index self) with
  | Some a, _ => [MsgSuggestion s (name a) (city a)]
  | None, Some a => [MsgSuggestion s (name a) (city a)]
  | None, None => []
  end.

(** The computation ends in an error that its caller can handle, as
    opposed to the exit of the process. *)
Definition surfaced_error {A} (m : M A) : Prop :=
  exists e, outcome m = Raise e /\ is_Exception e = true.

(** The first of the five files of [load_data] that cannot be read is
    absent. *)
Definition missing_source {F} (fs : FileSystem F) : bool :=
  match airport_data_json fs, iata_index_json fs, icao_index_json fs,
        city_index_json fs, country_index_json fs with
  | Absent, _, _, _, _ => true
  | Content _, Absent, _, _, _ => true
  | Content _, Content _, Absent, _, _ => true
  | Content _, Content _, Content _, Absent, _ => true
  | Content _, Content _, Content _, Content _, Absent => true
  | _, _, _, _, _ => false
  end.

(** The entries [(j, k)] of [j2len]: a run of [k] matches that ends at
    [b[j]], inside [b[blo:bhi]], and is no longer than [bound]. *)
Definition values_ok (blo bhi bound : nat) (m : list (nat * nat)) : Prop :=
  forall p, In p m -> snd p <= bound /\ blo + snd p <= S (fst p) /\ fst p < bhi.

(** A block inside [a[alo:ahi]] and [b[blo:bhi]]: the subtractions of the
    source never go below zero. *)
Definition best_within (alo ahi blo bhi : nat) (best : Difflib.best_t) : Prop :=
  let '(i, j, k) := best in
  alo <= i /\ i + k <= ahi /\ blo <= j /\ j + k <= bhi.

(** A primary code made of exactly three upper-case letters. *)
Definition upper3 (code : string) : bool :=
  (Py.len code =? 3) && Py.sall Py.char_isupper code.

(** A reading of plain decimal numerals as rationals, standing for
    [float] on the sample rows: an optional sign, digits, and an optional
    fraction. *)
Fixpoint decimal_digits (seen_dot : bool) (num : Z) (den : positive)
  (any : bool) (s : string) : option Q :=
  match s with
  | EmptyString => if any then Some (num # den) else None
  | String c s' =>
      if Py.char_isdecimal c then
        decimal_digits seen_dot (10 * num + Z.of_N (Py.ord c - 48))
                       (if seen_dot then 10 * den else den)%positive true s'
      else if Ascii.eqb c "."%char && negb seen_dot then
        decimal_digits true num den any s'
      else None
  end.

Definition decimal (s : string) : option Q :=
  match s with
  | String "-"%char s' =>
      match decimal_digits false 0 1 false s' with
      | Some q => Some (- q)%Q
      | None => None
      end
  | _ => decimal_digits false 0 1 false s
  end.

(** The first rows of [create_sample_data], as [csv.writer] writes them. *)
Definition sample_rows : list (list string) :=
  [ ["1"; "John F Kennedy Intl"; "New York"; "United States"; "JFK"; "KJFK";
     "40.639751"; "-73.778925"; "13"; "-5"; "A"; "America/New_York";
     "airport"; "OurAirports"];
    ["2"; "Los Angeles Intl"; "Los Angeles"; "United States"; "LAX"; "KLAX";
     "33.942536"; "-118.408075"; "125"; "-8"; "A"; "America/Los_Angeles";
     "airport"; "OurAirports"];
    ["3"; "London Heathrow"; "London"; "United Kingdom"; "LHR"; "EGLL";
     "51.4706"; "-0.461941"; "83"; "0"; "E"; "Europe/London";
     "airport"; "OurAirports"];
    ["4"; "Tokyo Haneda Intl"; "Tokyo"; "Japan"; "HND"; "RJTT";
     "35.552258"; "139.779694"; "35"; "9"; "A"; "Asia/Tokyo";
     "airport"; "OurAirports"];
    ["5"; "Charles de Gaulle"; "Paris"; "France"; "CDG"; "LFPG";
     "49.012779"; "2.55"; "392"; "1"; "E"; "Europe/Paris";
     "airport"; "OurAirports"] ].

Definition empty_fs : FileSystem Q :=
  {| airports_raw_dat := Absent; airport_data_json := Absent;
     countries_json := Absent; cities_json := Absent;
     iata_index_json := Absent; icao_index_json := Absent;
     city_index_json := Absent; country_index_json := Absent |}.

Definition raw_fs (rows : list (list string)) : FileSystem Q :=
  {| airports_raw_dat := Content rows; airport_data_json := Absent;
     countries_json := Absent; cities_json := Absent;
     iata_index_json := Absent; icao_index_json := Absent;
     city_index_json := Absent; country_index_json := Absent |}.

Definition JFK : Airport Q :=
  {| id := 1; name := "John F Kennedy Intl"; city := "New York";
     country := "United States"; iata := "JFK"; icao := "KJFK";
     latitude := 40639751 # 1000000; longitude := - (73778925 # 1000000);
     elevation := 13; timezone := "America/New_York"; type_ := "airport";
     source := "OurAirports" |}.

Definition LAX : Airport Q :=
  {| id := 2; name := "Los Angeles Intl"; city := "Los Angeles";
     country := "United States"; iata := "LAX"; icao := "KLAX";
     latitude := 33942536 # 1000000; longitude := - (118408075 # 1000000);
     elevation := 125; timezone := "America/Los_Angeles"; type_ := "airport";
     source := "OurAirports" |}.

Definition LHR : Airport Q :=
  {| id := 3; name := "London Heathrow"; city := "London";
     country := "United Kingdom"; iata := "LHR"; icao := "EGLL";
     latitude := 514706 # 10000; longitude := - (461941 # 1000000);
     elevation := 83; timezone := "Europe/London"; type_ := "airport";
     source := "OurAirports" |}.

Definition HND : Airport Q :=
  {| id := 4; name := "Tokyo Haneda Intl"; city := "Tokyo";
     country := "Japan"; iata := "HND"; icao := "RJTT";
     latitude := 35552258 # 1000000; longitude := 139779694 # 1000000;
     elevation := 35; timezone := "Asia/Tokyo"; type_ := "airport";
     source := "OurAirports" |}.

Definition CDG : Airport Q :=
  {| id := 5; name := "Charles de Gaulle"; city := "Paris";
     country := "France"; iata := "CDG"; icao := "LFPG";
     latitude := 49012779 # 1000000; longitude := 255 # 100;
     elevation := 392; timezone := "Europe/Paris"; type_ := "airport";
     source := "OurAirports" |}.

Definition sample_store : list (Airport Q) := [JFK; LAX; LHR; HND; CDG].

(** A record whose primary code is written in lower-case letters. *)
Definition lower_case_code : Airport Q :=
  {| id := 6; name := "Lakeside Strip"; city := "Lakeside";
     country := "Freedonia"; iata := "lks"; icao := "FRLK";
     latitude := 15 # 10; longitude := 25 # 10;
     elevation := 10; timezone := "UTC"; type_ := "airport";
     source := "OurAirports" |}.

(** A row without a primary code, as the raw data marks it, and a row
    whose three-character code starts with a digit. *)
Definition row_without_code : list string :=
  ["7"; "Lakeside Strip"; "Lakeside"; "Freedonia"; "\N"; "FRLK";
   "1.5"; "2.5"; "10"; "0"; "U"; "UTC"; "airport"; "OurAirports"].

Definition row_with_digit_code : list string :=
  ["8"; "Akun Seaplane Base"; "Akun"; "United States"; "7AK"; "PAKU";
   "54.1337"; "-165.7785"; "0"; "-9"; "A"; "America/Anchorage";
   "airport"; "OurAirports"].

(* ================================================================== *)
(** ** Further statements about the modelled code *)

(** A secondary code made of exactly four upper-case letters. *)
Definition upper4 (code : string) : bool :=
  (Py.len code =? 4) && Py.sall Py.char_isupper code.

Section RowReading.

Variable F : Type.
Variable max_str_digits : nat.
Variable float : string -> option F.
Variable float_zero : F.

(** A coordinate field that [float] accepts, or an empty one. *)
Definition coordinate_ok (s : string) : bool :=
  negb (Py.truthy s) || match float s with Some _ => true | None => false end.

(** A row that the loop of [process_airport_data] gets through: too short
    to be looked at, or with two readable coordinates. *)
Definition readable_row (row : list string) : bool :=
  (List.length row <? 14)
  || (coordinate_ok (nth 6 row EmptyString) && coordinate_ok (nth 7 row EmptyString)).

(** An integer field that [int] accepts, or one that is not made of
    digits. *)
Definition integer_ok (s : string) : bool :=
  negb (Py.isdigit s)
  || match int max_str_digits s with Some _ => true | None => false end.

(** A row whose identifier and elevation do not stop the loop: too short
    to be looked at, or with two integer fields that can be converted. *)
Definition convertible_row (row : list string) : bool :=
  (List.length row <? 14)
  || (integer_ok (nth 0 row EmptyString) && integer_ok (nth 8 row EmptyString)).

(** A row that the loop gets through. *)
Definition accepted_row (row : list string) : bool :=
  readable_row row && convertible_row row.

(** The records that a row contributes to the store: one, for an accepted
    row of 14 fields or more with a primary code of 3 characters. *)
Definition records_of_row (row : list string) : list (Airport F) :=
  if 14 <=? List.length row then
    match airport_of_row max_str_digits float float_zero row with
    | (_, Return airport) =>
        if Py.truthy (iata airport) && (Py.len (iata airport) =? 3)
        then [airport] else []
    | (_, Raise _) => []
    end
  else [].

End RowReading.

(* ================================================================== *)
(** ** The reporting layer: displays, statistics, and the build script *)

(** The exceptions of the functions below, on top of those of [exn]. *)
Inductive error : Type :=
| Base (e : exn)
| IndexError
| ZeroDivisionError
| KeyboardInterrupt
| EOFError.

(** What [input()] meets at the keyboard: a line, an interrupt, or the
    end of the input. *)
Inductive keyboard : Type :=
| Typed (s : string)
| CtrlC
| EndOfInput.

Inductive answer (A : Type) : Type :=
| Ok (a : A)
| Fail (e : error).

Arguments Ok {A} a.
Arguments Fail {A} e.

(** What [download_airport_data] gets from the network: nothing, or a
    file whose content [csv.reader] reads ([Some]) or rejects ([None]). *)
Inductive download : Type :=
| DownloadFailed
| Downloaded (content : option (list (list string))).

Section Reporting.

Variable F : Type.

(** One constructor for each [print] call (and for the prompt of
    [input]); the arguments are the values that the message interpolates.
    Where the message shows a number after rounding, a coordinate to four
    decimals or a percentage to one, the constructor holds the numbers it is
    computed from. *)
Inductive report : Type :=
| Old (l : line)
| Rule (newline_before : bool) (width : nat)
| Blank
| AirportName (name : string)
| AirportPlace (city country : string)
| AirportCodes (iata icao : string)
| AirportCoordinates (latitude longitude : F)
| AirportElevation (elevation : Z)
| AirportTimezone (timezone : string)
| AirportType (type_ : string)
| NoAirportsFound (query : string)
| FoundCount (n : nat) (query : string)
| ListEntry (i : nat) (name iata : string)
| ListPlace (city country : string)
| ListCoordinates (latitude longitude : F)
| ShowingAll (n : nat)
| PromptChoice (n : nat)
| DetailedViewTitle (n : nat)
| DetailedViewItem (i n : nat)
| NoCountryAirports (country_name : string)
| CountryTitle (country_upper : string)
| CountryFound (n : nat)
| CityHeading (city : string)
| CountryEntry (i : nat) (name iata icao : string)
| CountryCoordinates (latitude longitude : F)
| CountrySummary (airports cities : nat)
| GeneratingStatistics
| TopCountriesTitle (limit : Z)
| TopCountryRow (i : nat) (country : string) (count total : nat)
| TopCitiesTitle (limit : Z)
| TopCityRow (i : nat) (city : string) (count : nat)
| OverviewTitle
| TotalAirports (n : nat)
| TotalCountries (n : nat)
| TotalCities (n : nat)
| AirportTypesTitle
| AirportTypeRow (airport_type : string) (count total : nat)
| Starting
| Downloading
| RawDownloaded
| DownloadFailedMsg
| UsingSample
| ProcessFailed
| Complete
| CompleteAirports (n : nat)
| CompleteCountries (n : nat)
| CompleteCities (n : nat)
| FilesCreated
| FileLine (path description : string)
| NextStep.

Definition IO (A : Type) : Type := (list report * answer A)%type.

Definition io_ret {A} (a : A) : IO A := ([], Ok a).
Definition io_raise {A} (e : error) : IO A := ([], Fail e).
Definition io_print (r : report) : IO unit := ([r], Ok tt).

Definition io_bind {A B} (m : IO A) (k : A -> IO B) : IO B :=
  match m with
  | (o, Ok a) => let (o', r) := k a in (o ++ o', r)
  | (o, Fail e) => (o, Fail e)
  end.

(** A computation of the functions above, run inside one of these. *)
Definition lift {A} (m : M A) : IO A :=
  (map Old (fst m),
   match snd m with Return a => Ok a | Raise e => Fail (Base e) end).

Definition io_try {A} (body : IO A) (handler : error -> option (IO A)) : IO A :=
  match body with
  | (o, Ok a) => (o, Ok a)
  | (o, Fail e) =>
      match handler e with
      | Some h => let (o', r) := h in (o ++ o', r)
      | None => (o, Fail e)
      end
  end.

End Reporting.

Arguments Old {F} l.
Arguments Rule {F} newline_before width.
Arguments Blank {F}.
Arguments AirportName {F} name.
Arguments AirportPlace {F} city country.
Arguments AirportCodes {F} iata icao.
Arguments AirportElevation {F} elevation.
Arguments AirportTimezone {F} timezone.
Arguments AirportType {F} type_.
Arguments NoAirportsFound {F} query.
Arguments FoundCount {F} n query.
Arguments ListEntry {F} i name iata.
Arguments ListPlace {F} city country.
Arguments ShowingAll {F} n.
Arguments PromptChoice {F} n.
Arguments DetailedViewTitle {F} n.
Arguments DetailedViewItem {F} i n.
Arguments NoCountryAirports {F} country_name.
Arguments CountryTitle {F} country_upper.
Arguments CountryFound {F} n.
Arguments CityHeading {F} city.
Arguments CountryEntry {F} i name iata icao.
Arguments CountrySummary {F} airports cities.
Arguments GeneratingStatistics {F}.
Arguments TopCountriesTitle {F} limit.
Arguments TopCountryRow {F} i country count total.
Arguments TopCitiesTitle {F} limit.
Arguments TopCityRow {F} i city count.
Arguments OverviewTitle {F}.
Arguments TotalAirports {F} n.
Arguments TotalCountries {F} n.
Arguments TotalCities {F} n.
Arguments AirportTypesTitle {F}.
Arguments AirportTypeRow {F} airport_type count total.
Arguments Starting {F}.
Arguments Downloading {F}.
Arguments RawDownloaded {F}.
Arguments DownloadFailedMsg {F}.
Arguments UsingSample {F}.
Arguments ProcessFailed {F}.
Arguments Complete {F}.
Arguments CompleteAirports {F} n.
Arguments CompleteCountries {F} n.
Arguments CompleteCities {F} n.
Arguments FilesCreated {F}.
Arguments FileLine {F} path description.
Arguments NextStep {F}.
Arguments io_ret {F A} a.
Arguments io_raise {F A} e.
Arguments io_print {F} r.
Arguments lift {F A} m.

Declare Scope io_scope.
Delimit Scope io_scope with io.
Notation "x <- m ;; k" := (io_bind m (fun x => k))
  (at level 61, m at next level, right associativity) : io_scope.
Notation "m ;;; k" := (io_bind m (fun _ => k))
  (at level 61, right associativity) : io_scope.

(** [for x in xs: body x]. *)
Fixpoint io_for_each {F A} (xs : list A) (body : A -> IO F unit) : IO F unit :=
  match xs with
  | [] => io_ret tt
  | x :: xs' => (body x ;;; io_for_each xs' body)%io
  end.

(** A loop that threads a variable through its body. *)
Fixpoint io_fold {F A S} (body : S -> A -> IO F S) (xs : list A) (s : S) : IO F S :=
  match xs with
  | [] => io_ret s
  | x :: xs' => (s' <- body s x ;; io_fold body xs' s')%io
  end.

(** [enumerate(xs, start)]. *)
Fixpoint enumerate {A} (start : nat) (xs : list A) : list (nat * A) :=
  match xs with
  | [] => []
  | x :: xs' => (start, x) :: enumerate (S start) xs'
  end.

(** [xs[i]] on a list: a negative index counts from the end, an index out
    of range raises [IndexError]. *)
Definition list_getitem {F A} (xs : list A) (i : Z) : IO F A :=
  let n := Z.of_nat (List.length xs) in
  let j := if (i <? 0)%Z then (n + i)%Z else i in
  if (j <? 0)%Z then io_raise IndexError
  else match nth_error xs (Z.to_nat j) with
       | Some x => io_ret x
       | None => io_raise IndexError
       end.

(** [input(prompt)]: the prompt is written, then the keyboard is read. *)
Definition input {F} (prompt : report F) (k : keyboard) : IO F string :=
  ([prompt],
   match k with
   | Typed s => Ok s
   | CtrlC => Fail KeyboardInterrupt
   | EndOfInput => Fail EOFError
   end).

Local Open Scope io_scope.

(** *** [smart_search.py]: the displays *)

Section Displays.

Variable F : Type.

Definition display_airport (airport : Airport F) : IO F unit :=
  io_print (Rule true 60) ;;;
  io_print (AirportName (name airport)) ;;;
  io_print (AirportPlace (city airport) (country airport)) ;;;
  io_print (AirportCodes (iata airport) (icao airport)) ;;;
  io_print (AirportCoordinates (latitude airport) (longitude airport)) ;;;
  io_print (AirportElevation (elevation airport)) ;;;
  io_print (AirportTimezone (timezone airport)) ;;;
  io_print (AirportType (type_ airport)) ;;;
  io_print (Rule false 60).

(** The limit of [int] on the number of digits. *)
Variable max_str_digits : nat.

(** [int(s)], which raises [ValueError]. *)
Definition io_int (s : string) : IO F Z :=
  match int max_str_digits s with
  | Some n => io_ret n
  | None => io_raise (Base ValueError)
  end.

(** The body of the [try] of [display_results]. *)
Definition choose_result (results : list (Airport F)) (typed : keyboard)
  : IO F unit :=
  let n := List.length results in
  io_print (ShowingAll n) ;;;
  choice <- input (PromptChoice n) typed ;;
  if String.eqb (Py.lower choice) "all" then
    io_print (Rule true 80) ;;;
    io_print (DetailedViewTitle n) ;;;
    io_print (Rule false 80) ;;;
    io_for_each (enumerate 1 results)
      (fun item => io_print (DetailedViewItem (fst item) n) ;;;
                   display_airport (snd item))
  else if Py.isdigit choice then
    number <- io_int choice ;;
    if (1 <=? number)%Z && (number <=? Z.of_nat n)%Z then
      index <- io_int choice ;;
      airport <- list_getitem results (index - 1) ;;
      display_airport airport
    else io_ret tt
  else io_ret tt.

Definition display_results (results : list (Airport F)) (query : string)
  (typed : keyboard) : IO F unit :=
  if negb (nonempty results) then io_print (NoAirportsFound query)
  else
    io_print (FoundCount (List.length results) query) ;;;
    (if List.length results =? 1 then
       airport <- list_getitem results 0 ;;
       display_airport airport
     else
       io_for_each (enumerate 1 results)
         (fun item =>
            let airport := snd item in
            io_print (ListEntry (fst item) (name airport) (iata airport)) ;;;
            io_print (ListPlace (city airport) (country airport)) ;;;
            io_print (ListCoordinates (latitude airport) (longitude airport)))) ;;;
    if 1 <? List.length results then
      io_try (choose_result results typed)
             (fun e =>
                match e with
                | Base ValueError | KeyboardInterrupt => Some (io_ret tt)
                | _ => None
                end)
    else io_ret tt.

(** [len(set(a['city'] for a in airports))]. *)
Definition count_cities (airports : list (Airport F)) : nat :=
  List.length (fold_left (fun s a => set_add (city a) s) airports []).

(** The body of the loop of [display_country_airports]; [current_city]
    is [None] before the first record. *)
Definition country_entry (current_city : option string)
  (item : nat * Airport F) : IO F (option string) :=
  let airport := snd item in
  current_city <-
    (if match current_city with
        | Some c => negb (String.eqb (city airport) c)
        | None => true
        end
     then io_print (CityHeading (city airport)) ;;; io_ret (Some (city airport))
     else io_ret current_city) ;;
  io_print (CountryEntry (fst item) (name airport) (iata airport) (icao airport)) ;;;
  io_print (CountryCoordinates (latitude airport) (longitude airport)) ;;;
  io_ret current_city.

Definition display_country_airports (self : AirportSearch F)
  (country_name : string) : IO F unit :=
  airports <- lift (get_country_airports self country_name) ;;
  if negb (nonempty airports) then io_print (NoCountryAirports country_name)
  else
    first <- list_getitem airports 0 ;;
    let actual_country := country first in
    io_print (Rule true 60) ;;;
    io_print (CountryTitle (Py.upper actual_country)) ;;;
    io_print (Rule false 60) ;;;
    io_print (CountryFound (List.length airports)) ;;;
    io_print Blank ;;;
    io_fold country_entry (enumerate 1 airports) None ;;;
    io_print (Rule true 60) ;;;
    io_print (CountrySummary (List.length airports) (count_cities airports)) ;;;
    io_print (Rule false 60).

(** *** [statistics_reports.py]: class [AirportStatistics] *)

(** [c[k] += 1] on a [Counter]: a missing key counts for zero. *)
Definition counter_incr (k : string) (c : dict nat) : dict nat :=
  match dict_get k c with
  | Some n => dict_set k (n + 1) c
  | None => dict_set k 1 c
  end.

(** The attributes that [generate_statistics] sets. *)
Record Statistics : Type := mkStatistics {
  country_stats : dict nat;
  city_stats : dict nat;
  airport_types : dict nat;
  regional_stats : dict (list (Airport F))
}.

(** The body of the loop of [generate_statistics]. *)
Definition count_airport (st : Statistics) (airport : Airport F) : Statistics :=
  {| country_stats := counter_incr (country airport) (country_stats st);
     city_stats := counter_incr (city airport) (city_stats st);
     airport_types :=
       if Py.truthy (iata airport) && (Py.len (iata airport) =? 3)
       then counter_incr "Major (IATA)" (airport_types st)
       else counter_incr "Regional/Minor" (airport_types st);
     regional_stats := dict_append (country airport) airport (regional_stats st) |}.

Definition generate_statistics (self : AirportSearch F) : IO F Statistics :=
  io_print GeneratingStatistics ;;;
  io_ret (fold_left count_airport (airports self)
                    {| country_stats := []; city_stats := [];
                       airport_types := []; regional_stats := [] |}).

(** An [AirportStatistics] object: the attributes of the search object it
    extends, and the statistics. *)
Record AirportStatistics : Type := mkAirportStatistics {
  search : AirportSearch F;
  statistics : Statistics
}.

(** [AirportStatistics()]. *)
Definition AirportStatistics_init (fs : FileSystem F) : IO F AirportStatistics :=
  self <- lift (AirportSearch_init fs) ;;
  st <- generate_statistics self ;;
  io_ret {| search := self; statistics := st |}.

(** [c.most_common(n)]: [sorted(c.items(), key=itemgetter(1),
    reverse=True)], cut to its [n] first items when [n] is given
    ([heapq.nlargest] by its documented meaning). *)
Definition most_common (n : option Z) (c : dict nat) : list (string * nat) :=
  let ranked := sorted_reverse (fun p q : string * nat => snd p <? snd q) c in
  match n with
  | None => ranked
  | Some n => firstn (Z.to_nat n) ranked
  end.

(** [(count / total) * 100]: the division raises on a zero total; the
    quotient itself is left to the row that shows it. *)
Definition percentage (count total : nat) : IO F unit :=
  if total =? 0 then io_raise ZeroDivisionError else io_ret tt.

Definition display_top_countries (self : AirportStatistics) (limit : Z)
  : IO F unit :=
  io_print (Rule true 60) ;;;
  io_print (TopCountriesTitle limit) ;;;
  io_print (Rule false 60) ;;;
  io_for_each (enumerate 1 (most_common (Some limit) (country_stats (statistics self))))
    (fun item =>
       let '(i, (country, count)) := item in
       let total := List.length (airports (search self)) in
       percentage count total ;;;
       io_print (TopCountryRow i country count total)) ;;;
  io_print (Rule false 60).

Definition display_top_cities (self : AirportStatistics) (limit : Z)
  : IO F unit :=
  io_print (Rule true 60) ;;;
  io_print (TopCitiesTitle limit) ;;;
  io_print (Rule false 60) ;;;
  io_for_each (enumerate 1 (most_common (Some limit) (city_stats (statistics self))))
    (fun item =>
       let '(i, (city, count)) := item in
       if 1 <? count then io_print (TopCityRow i city count) else io_ret tt) ;;;
  io_print (Rule false 60).

Definition display_global_overview (self : AirportStatistics) : IO F unit :=
  let total := List.length (airports (search self)) in
  io_print (Rule true 60) ;;;
  io_print OverviewTitle ;;;
  io_print (Rule false 60) ;;;
  io_print (TotalAirports total) ;;;
  io_print (TotalCountries (List.length (country_stats (statistics self)))) ;;;
  io_print (TotalCities (List.length (city_stats (statistics self)))) ;;;
  io_print Blank ;;;
  io_print AirportTypesTitle ;;;
  io_for_each (most_common None (airport_types (statistics self)))
    (fun item =>
       let '(airport_type, count) := item in
       percentage count total ;;;
       io_print (AirportTypeRow airport_type count total)) ;;;
  io_print (Rule false 60).

(** What [search_airports_by_criteria] collects: a record with its
    elevation as a float, or a record alone. *)
Inductive criteria_hit : Type :=
| WithElevation (airport : Airport F) (elevation : F)
| Plain (airport : Airport F).

Variable float : string -> option F.
Variable float_zero : F.

(** [float(n)] on an integer, which raises [OverflowError] on one too
    large for a float, and [>=] on floats. *)
Variable float_of_int : Z -> option F.
Variable float_ge : F -> F -> bool.

(** The body of the loop of [search_airports_by_criteria].  A record has
    no [continent] key, so [airport.get('continent', '')] is the empty
    string. *)
Definition criteria_hits (criteria_type criteria_value : string)
  (airport : Airport F) : list criteria_hit :=
  if String.eqb (Py.lower criteria_type) "elevation" then
    match float_of_int (elevation airport) with
    | Some elevation =>
        match float criteria_value with
        | Some bound =>
            if float_ge elevation bound
            then [WithElevation airport elevation] else []
        | None => []
        end
    | None => []
    end
  else if String.eqb (Py.lower criteria_type) "timezone" then
    if Py.contains (Py.lower criteria_value) (Py.lower (timezone airport))
    then [Plain airport] else []
  else if String.eqb (Py.lower criteria_type) "continent" then
    if Py.contains (Py.lower criteria_value) (Py.lower EmptyString)
    then [Plain airport] else []
  else [].

Definition search_airports_by_criteria (self : AirportSearch F)
  (criteria_type criteria_value : string) : list criteria_hit :=
  flat_map (criteria_hits criteria_type criteria_value) (airports self).

(** The record of a hit. *)
Definition hit_airport (hit : criteria_hit) : Airport F :=
  match hit with
  | WithElevation airport _ => airport
  | Plain airport => airport
  end.

(** *** [extended_data.py]: the build script *)

(** The rows of [create_sample_data], as [csv.writer] writes them; the
    fourth letter of the last city is character 227. *)
Definition sample_data : list (list string) :=
  sample_rows ++
  [ ["6"; "Dubai Intl"; "Dubai"; "United Arab Emirates"; "DXB"; "OMDB";
     "25.252778"; "55.364444"; "62"; "4"; "A"; "Asia/Dubai";
     "airport"; "OurAirports"];
    ["7"; "Singapore Changi"; "Singapore"; "Singapore"; "SIN"; "WSSS";
     "1.350189"; "103.994433"; "22"; "8"; "A"; "Asia/Singapore";
     "airport"; "OurAirports"];
    ["8"; "Amsterdam Schiphol"; "Amsterdam"; "Netherlands"; "AMS"; "EHAM";
     "52.308613"; "4.763889"; "-11"; "1"; "E"; "Europe/Amsterdam";
     "airport"; "OurAirports"];
    ["9"; "Frankfurt am Main"; "Frankfurt"; "Germany"; "FRA"; "EDDF";
     "50.033333"; "8.570556"; "364"; "1"; "E"; "Europe/Berlin";
     "airport"; "OurAirports"];
    ["10"; "Hong Kong Intl"; "Hong Kong"; "Hong Kong"; "HKG"; "VHHH";
     "22.308919"; "113.914603"; "28"; "8"; "A"; "Asia/Hong_Kong";
     "airport"; "OurAirports"];
    ["11"; "Sydney Kingsford Smith"; "Sydney"; "Australia"; "SYD"; "YSSY";
     "-33.946609"; "151.177002"; "21"; "10"; "A"; "Australia/Sydney";
     "airport"; "OurAirports"];
    ["12"; "Toronto Pearson Intl"; "Toronto"; "Canada"; "YYZ"; "CYYZ";
     "43.677223"; "-79.630556"; "569"; "-5"; "A"; "America/Toronto";
     "airport"; "OurAirports"];
    ["13"; "Mumbai Chhatrapati Shivaji"; "Mumbai"; "India"; "BOM"; "VABB";
     "19.088686"; "72.867919"; "39"; "5.5"; "A"; "Asia/Kolkata";
     "airport"; "OurAirports"];
    ["14"; "Beijing Capital Intl"; "Beijing"; "China"; "PEK"; "ZBAA";
     "40.080111"; "116.584556"; "116"; "8"; "A"; "Asia/Shanghai";
     "airport"; "OurAirports"];
    ["15"; String "S" (String "227" "o Paulo Guarulhos");
     String "S" (String "227" "o Paulo"); "Brazil"; "GRU"; "SBGR";
     "-23.435556"; "-46.473056"; "2459"; "-3"; "A"; "America/Sao_Paulo";
     "airport"; "OurAirports"] ].

Definition write_raw (content : file (list (list string))) (fs : FileSystem F)
  : FileSystem F :=
  {| airports_raw_dat := content;
     airport_data_json := airport_data_json fs;
     countries_json := countries_json fs;
     cities_json := cities_json fs;
     iata_index_json := iata_index_json fs;
     icao_index_json := icao_index_json fs;
     city_index_json := city_index_json fs;
     country_index_json := country_index_json fs |}.

Definition create_sample_data (fs : FileSystem F) : FileSystem F :=
  write_raw (Content sample_data) fs.

(** [download_airport_data()], for what the network gives. *)
Definition download_airport_data (net : download) (fs : FileSystem F)
  : IO F (bool * FileSystem F) :=
  io_print Downloading ;;;
  match net with
  | Downloaded content =>
      io_print RawDownloaded ;;;
      io_ret (true,
              write_raw (match content with
                         | Some rows => Content rows
                         | None => Unreadable
                         end) fs)
  | DownloadFailed =>
      io_print DownloadFailedMsg ;;;
      io_print UsingSample ;;;
      io_ret (false, create_sample_data fs)
  end.

(** [main()] of [extended_data.py]; it returns the files it leaves. *)
Definition main (net : download) (fs : FileSystem F) : IO F (FileSystem F) :=
  io_print Starting ;;;
  io_print (Rule false 50) ;;;
  downloaded <- download_airport_data net fs ;;
  let fs1 := snd downloaded in
  r <- lift (process_airport_data max_str_digits float float_zero fs1) ;;
  match r with
  | None => io_print ProcessFailed ;;; io_ret fs1
  | Some (airports, countries, cities) =>
      fs2 <- lift (save_processed_data airports countries cities fs1) ;;
      io_print (Rule false 50) ;;;
      io_print Complete ;;;
      io_print (CompleteAirports (List.length airports)) ;;;
      io_print (CompleteCountries (List.length countries)) ;;;
      io_print (CompleteCities (List.length cities)) ;;;
      io_print FilesCreated ;;;
      io_print (FileLine "data/airports.json" "main database") ;;;
      io_print (FileLine "data/countries.json" "countries list") ;;;
      io_print (FileLine "data/cities.json" "cities list") ;;;
      io_print (FileLine "data/iata_index.json" "IATA lookup") ;;;
      io_print (FileLine "data/icao_index.json" "ICAO lookup") ;;;
      io_print (FileLine "data/city_index.json" "city lookup") ;;;
      io_print (FileLine "data/country_index.json" "country lookup") ;;;
      io_print NextStep ;;;
      io_ret fs2
  end.

End Displays.

Local Close Scope io_scope.

(** The value of a [Counter] at a key: none for a count of zero. *)
Definition count_entry (n : nat) : option nat :=
  match n with O => None | S _ => Some n end.

(** The key of [airport_types] under which a record is counted. *)
Definition airport_kind {F} (airport : Airport F) : string :=
  if Py.truthy (iata airport) && (Py.len (iata airport) =? 3)
  then "Major (IATA)" else "Regional/Minor".

(** The statistics of a store, as [generate_statistics] computes them. *)
Definition statistics_of {F} (airports : list (Airport F)) : Statistics F :=
  fold_left (@count_airport F) airports
            {| country_stats := []; city_stats := [];
               airport_types := []; regional_stats := [] |}.

(** The cities that a display announces, in the order of the headings. *)
Definition headings {F} (o : list (report F)) : list string :=
  flat_map (fun r => match r with CityHeading c => [c] | _ => [] end) o.

(** The lines of the details of a record, and of a listing of records. *)
Definition airport_lines {F} (airport : Airport F) : list (report F) :=
  fst (display_airport airport).

Definition listing_lines {F} (item : nat * Airport F) : list (report F) :=
  [ListEntry (fst item) (name (snd item)) (iata (snd item));
   ListPlace (city (snd item)) (country (snd item));
   ListCoordinates (latitude (snd item)) (longitude (snd item))].

(** The cities that the loop of [display_country_airports] announces when
    it runs over records of these cities, from the value [current] of
    [current_city]. *)
Fixpoint announced (current : option string) (cities : list string) : list string :=
  match cities with
  | [] => []
  | c :: rest =>
      if match current with
         | Some c' => negb (String.eqb c c')
         | None => true
         end
      then c :: announced (Some c) rest
      else announced current rest
  end.


(** Four records in four countries with close names, in store order. *)
Definition ALG : Airport Q :=
  {| id := 21; name := "Houari Boumediene"; city := "Algiers";
     country := "Algeria"; iata := "ALG"; icao := "DAAG";
     latitude := 36691 # 1000; longitude := 3215 # 1000;
     elevation := 82; timezone := "Africa/Algiers"; type_ := "airport";
     source := "OurAirports" |}.

Definition ROB : Airport Q :=
  {| id := 22; name := "Roberts Intl"; city := "Monrovia";
     country := "Liberia"; iata := "ROB"; icao := "GLRB";
     latitude := 6234 # 1000; longitude := - (10362 # 1000);
     elevation := 31; timezone := "Africa/Monrovia"; type_ := "airport";
     source := "OurAirports" |}.

Definition NIM : Airport Q :=
  {| id := 23; name := "Diori Hamani"; city := "Niamey";
     country := "Niger"; iata := "NIM"; icao := "DRRN";
     latitude := 13481 # 1000; longitude := 2184 # 1000;
     elevation := 732; timezone := "Africa/Niamey"; type_ := "airport";
     source := "OurAirports" |}.

Definition LOS : Airport Q :=
  {| id := 24; name := "Murtala Muhammed"; city := "Lagos";
     country := "Nigeria"; iata := "LOS"; icao := "DNMM";
     latitude := 6577 # 1000; longitude := 3321 # 1000;
     elevation := 135; timezone := "Africa/Lagos"; type_ := "airport";
     source := "OurAirports" |}.

Definition close_countries_store : list (Airport Q) := [ALG; ROB; NIM; LOS].

(* ================================================================== *)
(** * Properties *)

Unset Implicit Arguments.

(** ** The monad *)

Lemma bind_ret {A B} (a : A) (k : A -> M B) : bind (ret a) k = k a.
Proof. unfold bind, ret. destruct (k a); reflexivity. Qed.

Lemma bind_raise {A B} (e : exn) (k : A -> M B) : bind (raise e) k = raise e.
Proof. reflexivity. Qed.

Lemma bind_pure {A B} (o : list line) (a : A) (k : A -> M B) :
  bind (o, Return a) k = (o ++ stdout (k a), outcome (k a)).
Proof. unfold bind, stdout, outcome. destruct (k a); reflexivity. Qed.

Lemma M_eta {A} (m : M A) : m = (stdout m, outcome m).
Proof. destruct m; reflexivity. Qed.

Lemma bind_ext {A B} (m : M A) (k k' : A -> M B) :
  (forall a, k a = k' a) -> bind m k = bind m k'.
Proof.
  intros H. destruct m as [o [a|e]]; simpl; [now rewrite H|reflexivity].
Qed.

(** ** Sorting *)

Section SortingFacts.

Context {A : Type} (lt : A -> A -> bool).

Lemma insert_perm (x : A) (l : list A) : Permutation (insert lt x l) (x :: l).
Proof.
  induction l as [|y l IH]; simpl; [reflexivity|].
  destruct (lt y x); [|reflexivity].
  rewrite IH. apply perm_swap.
Qed.

Lemma sorted_perm (l : list A) : Permutation (sorted lt l) l.
Proof.
  induction l as [|x l IH]; simpl; [constructor|].
  rewrite insert_perm. now constructor.
Qed.

Hypothesis lt_asym : forall x y, lt x y = true -> lt y x = false.

Lemma insert_HdRel (x y : A) (l : list A) :
  lt x y = false -> HdRel (fun u v => lt v u = false) y l ->
  HdRel (fun u v => lt v u = false) y (insert lt x l).
Proof.
  intros Hxy H. destruct l as [|z l]; simpl.
  - now constructor.
  - destruct (lt z x); constructor; trivial. now inversion H.
Qed.

Lemma insert_Sorted (x : A) (l : list A) :
  Sorted (fun u v => lt v u = false) l ->
  Sorted (fun u v => lt v u = false) (insert lt x l).
Proof.
  induction 1 as [|y l Hs IH Hd]; simpl.
  - repeat constructor.
  - destruct (lt y x) eqn:E.
    + constructor; trivial. apply insert_HdRel; auto.
    + repeat constructor; trivial.
Qed.

(** The sort puts every element in front of one that is not smaller. *)
Lemma sorted_Sorted (l : list A) :
  Sorted (fun u v => lt v u = false) (sorted lt l).
Proof.
  induction l as [|x l IH]; simpl; [constructor|].
  now apply insert_Sorted.
Qed.

End SortingFacts.

Lemma Sorted_firstn {A} (R : A -> A -> Prop) (n : nat) (l : list A) :
  Sorted R l -> Sorted R (firstn n l).
Proof.
  intros H. revert n. induction H as [|x l Hs IH Hd]; intros n.
  - rewrite firstn_nil. constructor.
  - destruct n as [|n]; simpl; constructor; [apply IH|].
    destruct Hd; destruct n; simpl; constructor; trivial.
Qed.

Lemma Sorted_map {A B} (f : A -> B) (R : B -> B -> Prop) (l : list A) :
  Sorted (fun u v => R (f u) (f v)) l -> Sorted R (map f l).
Proof.
  induction 1 as [|x l Hs IH Hd]; simpl; constructor; trivial.
  destruct Hd; simpl; constructor; trivial.
Qed.

Lemma In_firstn {A} (x : A) (n : nat) (l : list A) :
  In x (firstn n l) -> In x l.
Proof.
  rewrite <- (firstn_skipn n l) at 2. intros H. apply in_or_app. now left.
Qed.

(** ** Strings *)

Lemma string_ltb_asym (s t : string) : String.ltb s t = true -> String.ltb t s = false.
Proof.
  unfold String.ltb. rewrite (String.compare_antisym s t).
  destruct (String.compare t s); simpl; congruence.
Qed.

Lemma string_ltb_false_leb (s t : string) :
  String.ltb s t = false <-> String.leb t s = true.
Proof.
  unfold String.ltb, String.leb. rewrite (String.compare_antisym s t).
  destruct (String.compare t s); simpl; split; congruence.
Qed.

(** ** The Fuzzy Matcher (C4) *)

Lemma tuple_lt_asym (p q : Q * string) :
  Difflib.tuple_lt p q = true -> Difflib.tuple_lt q p = false.
Proof.
  unfold Difflib.tuple_lt. rewrite <- (Qcompare_antisym (fst p) (fst q)).
  destruct (fst p ?= fst q)%Q; simpl; try congruence.
  apply string_ltb_asym.
Qed.

Lemma tuple_lt_false (p q : Q * string) :
  Difflib.tuple_lt p q = false <->
  (fst q < fst p \/ (fst q == fst p /\ String.leb (snd q) (snd p) = true))%Q.
Proof.
  unfold Difflib.tuple_lt.
  destruct (fst p ?= fst q)%Q eqn:E.
  - apply Qeq_alt in E. rewrite string_ltb_false_leb. split.
    + intros H. right. split; [now symmetry|trivial].
    + intros [H|[_ H]]; trivial. rewrite E in H. now apply Qlt_irrefl in H.
  - apply Qlt_alt in E. split; [discriminate|].
    intros [H|[H _]].
    + exfalso. apply (Qlt_irrefl (fst p)). now apply Qlt_trans with (fst q).
    + rewrite H in E. now apply Qlt_irrefl in E.
  - apply Qgt_alt in E. split; auto.
Qed.

Lemma scored_In (word : string) (cutoff : Q) (possibilities : list string)
  (p : Q * string) :
  In p (Difflib.scored word cutoff possibilities) ->
  In (snd p) possibilities /\ fst p = score word (snd p) /\
  (cutoff <= score word (snd p))%Q.
Proof.
  unfold Difflib.scored. rewrite in_flat_map. intros [x [Hx Hp]].
  destruct (Qle_bool cutoff (Difflib.ratio (list_ascii_of_string x)
                                           (list_ascii_of_string word))) eqn:E.
  - rewrite andb_true_r in Hp.
    destruct (_ && _) in Hp; simpl in Hp; [|contradiction].
    destruct Hp as [<-|[]]. simpl. repeat split; trivial.
    now apply Qle_bool_iff.
  - rewrite andb_false_r in Hp. contradiction.
Qed.

Lemma get_close_matches_valid (word : string) (possibilities : list string)
  (n : Z) (cutoff : Q) :
  (0 < n)%Z -> (0 <= cutoff)%Q -> (cutoff <= 1)%Q ->
  Difflib.get_close_matches word possibilities n cutoff
  = ret (best_matches word possibilities n cutoff).
Proof.
  intros Hn H0 H1. unfold Difflib.get_close_matches.
  apply Z.ltb_lt in Hn. rewrite Hn. simpl.
  apply Qle_bool_iff in H0, H1. rewrite H0, H1. reflexivity.
Qed.

Lemma best_matches_In (word : string) (possibilities : list string)
  (n : Z) (cutoff : Q) (x : string) :
  In x (best_matches word possibilities n cutoff) ->
  In x possibilities /\ (cutoff <= score word x)%Q.
Proof.
  unfold best_matches, Difflib.nlargest. rewrite in_map_iff.
  intros [p [<- Hp]]. apply In_firstn in Hp.
  apply (Permutation_in _ (sorted_perm _ _)) in Hp.
  apply scored_In in Hp. tauto.
Qed.

Lemma best_matches_length (word : string) (possibilities : list string)
  (n : Z) (cutoff : Q) :
  (Z.of_nat (List.length (best_matches word possibilities n cutoff)) <= Z.max 0 n)%Z.
Proof.
  unfold best_matches, Difflib.nlargest. rewrite length_map.
  pose proof (firstn_le_length (Z.to_nat n)
    (sorted_reverse Difflib.tuple_lt (Difflib.scored word cutoff possibilities))).
  pose proof (length_firstn (Z.to_nat n)
    (sorted_reverse Difflib.tuple_lt (Difflib.scored word cutoff possibilities))).
  lia.
Qed.

Lemma best_matches_ranked (word : string) (possibilities : list string)
  (n : Z) (cutoff : Q) :
  Sorted (ranked_before word) (best_matches word possibilities n cutoff).
Proof.
  unfold best_matches, Difflib.nlargest.
  set (l := Difflib.scored word cutoff possibilities).
  assert (HS : Sorted (fun u v => Difflib.tuple_lt u v = false)
                 (sorted_reverse Difflib.tuple_lt l)).
  { unfold sorted_reverse.
    apply (sorted_Sorted (fun u v => Difflib.tuple_lt v u)).
    intros x y. apply tuple_lt_asym. }
  assert (HI : forall p, In p (firstn (Z.to_nat n) (sorted_reverse Difflib.tuple_lt l)) ->
                         fst p = score word (snd p)).
  { intros p Hp. apply In_firstn in Hp.
    apply (Permutation_in _ (sorted_perm _ _)) in Hp.
    apply scored_In in Hp. tauto. }
  apply (Sorted_firstn _ (Z.to_nat n)) in HS.
  revert HS HI. generalize (firstn (Z.to_nat n) (sorted_reverse Difflib.tuple_lt l)).
  intros l' HS. induction HS as [|p l' Hs IH Hd]; intros HI; simpl; constructor.
  - apply IH. intros q Hq. apply HI. now right.
  - destruct Hd as [|q l' Hpq]; simpl; constructor.
    unfold ranked_before. rewrite <- (HI p), <- (HI q); simpl; auto.
    now apply tuple_lt_false.
Qed.

(** C4, as the code has it: for a positive [n] and a cutoff between 0 and
    1, [get_close_matches] returns candidates of the pool only, each of
    score at least the cutoff, at most [n] of them, in descending order of
    score; candidates of equal score come in descending order of the strings
    themselves.  (Outside these bounds the call raises [ValueError].) *)
Theorem get_close_matches_ranked (word : string) (possibilities : list string)
  (n : Z) (cutoff : Q) :
  (0 < n)%Z -> (0 <= cutoff)%Q -> (cutoff <= 1)%Q ->
  exists res,
    Difflib.get_close_matches word possibilities n cutoff = ([], Return res) /\
    (forall x, In x res -> In x possibilities /\ (cutoff <= score word x)%Q) /\
    (Z.of_nat (List.length res) <= n)%Z /\
    Sorted (ranked_before word) res.
Proof.
  intros Hn H0 H1. exists (best_matches word possibilities n cutoff).
  split; [now apply get_close_matches_valid|].
  split; [intros x; apply best_matches_In|].
  split; [|apply best_matches_ranked].
  pose proof (best_matches_length word possibilities n cutoff). lia.
Qed.

Lemma get_close_matches_ranked_witness :
  exists res,
    Difflib.get_close_matches "appel" ["ape"; "apple"; "peach"; "puppy"] 3 (6 # 10)
    = ([], Return res) /\
    (forall x, In x res ->
       In x ["ape"; "apple"; "peach"; "puppy"] /\ (6 # 10 <= score "appel" x)%Q) /\
    (Z.of_nat (List.length res) <= 3)%Z /\
    Sorted (ranked_before "appel") res.
Proof.
  apply (get_close_matches_ranked "appel" ["ape"; "apple"; "peach"; "puppy"] 3 (6 # 10)).
  - reflexivity.
  - discriminate.
  - discriminate.
Defined.

(** Two candidates of equal score come out with the greater string
    first, not in their lexical order. *)
Lemma close_matches_ties_not_lexical :
  Difflib.get_close_matches "ab" ["abc"; "abd"] 3 (6 # 10)
  = ([], Return ["abd"; "abc"]) /\
  (score "ab" "abc" == score "ab" "abd")%Q /\
  ~ Sorted (ranked_before_lexical "ab") ["abd"; "abc"].
Proof.
  split; [vm_compute; reflexivity|].
  split; [vm_compute; reflexivity|].
  intros H. inversion H as [|x l Hs Hd]; subst.
  inversion Hd as [|y l' Hr]; subst.
  destruct Hr as [Hr|[_ Hr]].
  - vm_compute in Hr. discriminate.
  - vm_compute in Hr. discriminate.
Qed.

(** ** Loading (C7) *)

Section Loading.

Context {F : Type}.

(** C7, as the code has it: when the first file that [load_data] cannot
    read is absent, the loader prints that the database was not found and
    leaves through [exit(1)]; the constructor yields no search object. *)
Theorem load_data_missing_source_exits (fs : FileSystem F) :
  missing_source fs = true ->
  load_data fs = ([MsgDatabaseNotFound], Raise (SystemExit 1)) /\
  AirportSearch_init fs = ([MsgDatabaseNotFound], Raise (SystemExit 1)) /\
  forall self, outcome (AirportSearch_init fs) <> Return self.
Proof.
  intros H.
  assert (L : load_data fs = ([MsgDatabaseNotFound], Raise (SystemExit 1))).
  { unfold missing_source in H. unfold load_data.
    destruct (airport_data_json fs); try discriminate; [reflexivity|].
    destruct (iata_index_json fs); try discriminate; [reflexivity|].
    destruct (icao_index_json fs); try discriminate; [reflexivity|].
    destruct (city_index_json fs); try discriminate; [reflexivity|].
    destruct (country_index_json fs); try discriminate; reflexivity. }
  unfold AirportSearch_init. rewrite L. repeat split.
  intros self; cbn; discriminate.
Qed.

End Loading.

Lemma load_data_missing_source_exits_witness :
  missing_source empty_fs = true /\
  load_data empty_fs = ([MsgDatabaseNotFound], Raise (SystemExit 1)).
Proof.
  split; [reflexivity|].
  apply (load_data_missing_source_exits empty_fs). reflexivity.
Defined.

(** With every file absent the constructor does not hand an error value
    to its caller: the process exits with status 1. *)
Lemma load_error_not_surfaced :
  outcome (AirportSearch_init empty_fs) = Raise (SystemExit 1) /\
  ~ surfaced_error (AirportSearch_init empty_fs).
Proof.
  split; [reflexivity|].
  intros [e [He Hx]]. cbn in He. inversion He; subst. discriminate.
Qed.

(** ** Dictionaries *)

Section DictFacts.

Context {V : Type}.

Lemma dict_get_set_same (k : string) (v : V) (d : dict V) :
  dict_get k (dict_set k v d) = Some v.
Proof.
  induction d as [|[k' v'] d IH]; simpl.
  - now rewrite String.eqb_refl.
  - destruct (String.eqb k' k) eqn:E; simpl.
    + now rewrite String.eqb_refl.
    + now rewrite E.
Qed.

Lemma dict_get_set_other (k k' : string) (v : V) (d : dict V) :
  k <> k' -> dict_get k (dict_set k' v d) = dict_get k d.
Proof.
  intros N. induction d as [|[k0 v0] d IH]; simpl.
  - apply String.eqb_neq in N. rewrite String.eqb_sym. now rewrite N.
  - destruct (String.eqb k0 k') eqn:E; simpl.
    + apply String.eqb_eq in E; subst k0.
      apply String.eqb_neq in N. rewrite String.eqb_sym in N. now rewrite !N.
    + now rewrite IH.
Qed.

Lemma dict_get_set (k k' : string) (v : V) (d : dict V) :
  dict_get k (dict_set k' v d) = if String.eqb k' k then Some v else dict_get k d.
Proof.
  destruct (String.eqb k' k) eqn:E.
  - apply String.eqb_eq in E; subst. apply dict_get_set_same.
  - apply String.eqb_neq in E. apply dict_get_set_other. congruence.
Qed.

Lemma dict_get_In_keys (k : string) (d : dict V) :
  In k (keys d) -> exists v, dict_get k d = Some v.
Proof.
  induction d as [|[k' v'] d IH]; simpl; [tauto|].
  intros [->|H].
  - rewrite String.eqb_refl. eauto.
  - destruct (String.eqb k' k); eauto.
Qed.

Lemma dict_get_Some_In (k : string) (v : V) (d : dict V) :
  dict_get k d = Some v -> In (k, v) d.
Proof.
  induction d as [|[k' v'] d IH]; simpl; [discriminate|].
  destruct (String.eqb k' k) eqn:E.
  - apply String.eqb_eq in E. intros [= ->]. left. now subst.
  - intros H. right. auto.
Qed.

End DictFacts.

(** ** Code lookup (C6) *)

Section CodeLookup.

Context {F : Type}.
Variable self : AirportSearch F.

Lemma print_suggestion_lines (s : string) :
  print_suggestion self s = (suggestion_line self s, Return tt).
Proof.
  unfold print_suggestion, suggestion_line, dict_contains, dict_getitem.
  destruct (dict_get s (iata_index self)); [reflexivity|].
  destruct (dict_get s (icao_index self)); reflexivity.
Qed.

Lemma for_each_print_suggestion (l : list string) :
  for_each l (print_suggestion self) = (flat_map (suggestion_line self) l, Return tt).
Proof.
  induction l as [|s l IH]; simpl; [reflexivity|].
  rewrite print_suggestion_lines, IH. reflexivity.
Qed.

Lemma suggestion_line_length (l : list string) :
  (forall s, In s l -> In s (keys (iata_index self) ++ keys (icao_index self))) ->
  List.length (flat_map (suggestion_line self) l) = List.length l.
Proof.
  induction l as [|s l IH]; intros H; simpl; [reflexivity|].
  rewrite length_app, IH by (intros; apply H; now right). f_equal.
  assert (Hs := H s (or_introl eq_refl)).
  unfold suggestion_line. apply in_app_or in Hs.
  destruct Hs as [Hs|Hs]; apply dict_get_In_keys in Hs; destruct Hs as [v ->].
  - reflexivity.
  - destruct (dict_get s (iata_index self)); reflexivity.
Qed.

(** C6: when the normalised code misses both code indexes, code lookup
    returns the empty match set and prints, apart from it, the suggestions
    of the Fuzzy Matcher over the keys of both indexes: a heading and one
    line for each suggestion.  Nothing is printed exactly when there is no
    suggestion, so the two kinds of miss differ in what the stage puts
    out. *)
Theorem search_by_code_miss_suggestions (code : string) :
  let c := Py.strip (Py.upper code) in
  (Py.len c =? 3) && dict_contains c (iata_index self) = false ->
  (Py.len c =? 4) && dict_contains c (icao_index self) = false ->
  exists suggestions,
    Difflib.get_close_matches c (keys (iata_index self) ++ keys (icao_index self))
                              5 (6 # 10) = ([], Return suggestions) /\
    outcome (search_by_code self code) = Return [] /\
    stdout (search_by_code self code)
    = (if nonempty suggestions
       then MsgCodeNotFound c :: flat_map (suggestion_line self) suggestions
       else []) /\
    List.length (flat_map (suggestion_line self) suggestions)
    = List.length suggestions /\
    (stdout (search_by_code self code) = [] <-> suggestions = []).
Proof.
  intros c H3 H4.
  set (all_codes := keys (iata_index self) ++ keys (icao_index self)).
  exists (best_matches c all_codes 5 (6 # 10)).
  assert (G : Difflib.get_close_matches c all_codes 5 (6 # 10)
              = ret (best_matches c all_codes 5 (6 # 10))).
  { apply get_close_matches_valid; [reflexivity|discriminate|discriminate]. }
  assert (E : search_by_code self code
              = ((if nonempty (best_matches c all_codes 5 (6 # 10))
                  then MsgCodeNotFound c
                       :: flat_map (suggestion_line self)
                                   (best_matches c all_codes 5 (6 # 10))
                  else []), Return [])).
  { unfold search_by_code. fold c. rewrite H3, H4. fold all_codes.
    rewrite G, bind_ret.
    destruct (nonempty (best_matches c all_codes 5 (6 # 10))).
    - rewrite for_each_print_suggestion. simpl. now rewrite app_nil_r.
    - reflexivity. }
  split; [exact G|]. rewrite E. split; [reflexivity|]. split; [reflexivity|].
  split.
  - apply suggestion_line_length. intros s Hs.
    now apply best_matches_In in Hs.
  - simpl. destruct (best_matches c all_codes 5 (6 # 10)); simpl;
      split; intros; (reflexivity || discriminate).
Qed.

End CodeLookup.

Lemma search_by_code_miss_suggestions_witness :
  exists suggestions,
    Difflib.get_close_matches "LHX"
      (keys (iata_index (indexed sample_store))
       ++ keys (icao_index (indexed sample_store))) 5 (6 # 10)
    = ([], Return suggestions) /\
    outcome (search_by_code (indexed sample_store) " lhx") = Return [] /\
    stdout (search_by_code (indexed sample_store) " lhx")
    = (if nonempty suggestions
       then MsgCodeNotFound "LHX"
            :: flat_map (suggestion_line (indexed sample_store)) suggestions
       else []) /\
    List.length (flat_map (suggestion_line (indexed sample_store)) suggestions)
    = List.length suggestions /\
    (stdout (search_by_code (indexed sample_store) " lhx") = [] <-> suggestions = []).
Proof.
  apply (search_by_code_miss_suggestions (indexed sample_store) " lhx");
    reflexivity.
Defined.

(** ** The precedence chain (C2) *)

Section Precedence.

Context {F : Type}.
Variable self : AirportSearch F.

(** C2, as the code has it: on a query that is not empty once trimmed,
    [smart_search] runs code, city, country and name lookup in this order
    and returns the first non-empty result; code lookup is tried only when
    the trimmed query has 3 or 4 characters, all alphabetic, and is skipped
    otherwise.  On a query that is empty once trimmed no strategy runs and
    the result is empty. *)
Theorem smart_search_precedence (query : string) :
  smart_search self query
  = if Py.truthy (Py.strip query)
    then first_hit (strategies self (Py.strip query))
    else ret [].
Proof.
  unfold smart_search, strategies.
  destruct (Py.strip query) as [|c q] eqn:E; [reflexivity|].
  simpl Py.truthy. simpl negb. cbv iota.
  destruct (((Py.len (String c q) =? 3) || (Py.len (String c q) =? 4))
            && Py.isalpha (String c q)); reflexivity.
Qed.

End Precedence.

(** On the empty query no strategy runs, although city lookup, the first
    of the chain, would match every record. *)
Lemma smart_search_empty_query_skips_chain :
  smart_search (indexed sample_store) "" = ([], Return []) /\
  first_hit (strategies (indexed sample_store) (Py.strip ""))
  = ([], Return sample_store) /\
  smart_search (indexed sample_store) ""
  <> first_hit (strategies (indexed sample_store) (Py.strip "")).
Proof.
  split; [reflexivity|]. split; [vm_compute; reflexivity|].
  vm_compute. discriminate.
Qed.

(** ** Upper-case codes are left alone by normalisation *)

Lemma char_isupper_not_lower (c : ascii) :
  Py.char_isupper c = true -> Py.char_islower c = false.
Proof.
  unfold Py.char_isupper, Py.char_islower, Py.in_range.
  intros H. apply andb_true_iff in H. destruct H as [_ H].
  apply N.leb_le in H. apply andb_false_iff. left. apply N.leb_gt. lia.
Qed.

Lemma char_isupper_not_space (c : ascii) :
  Py.char_isupper c = true -> Py.char_isspace c = false.
Proof.
  unfold Py.char_isupper, Py.char_isspace, Py.in_range.
  intros H. apply andb_true_iff in H. destruct H as [H _].
  apply N.leb_le in H.
  assert (E1 : (Py.ord c <=? 13)%N = false) by (apply N.leb_gt; lia).
  assert (E2 : (Py.ord c <=? 31)%N = false) by (apply N.leb_gt; lia).
  assert (E3 : (Py.ord c =? 32)%N = false) by (apply N.eqb_neq; lia).
  now rewrite E1, E2, E3, !andb_false_r.
Qed.

Lemma upper_of_upper (s : string) :
  Py.sall Py.char_isupper s = true -> Py.upper s = s.
Proof.
  induction s as [|c s IH]; simpl; [reflexivity|].
  intros H. apply andb_true_iff in H. destruct H as [Hc Hs].
  unfold Py.upper in *. simpl. rewrite IH by assumption.
  unfold Py.char_upper. now rewrite (char_isupper_not_lower c Hc).
Qed.

Lemma rstrip_none (p : ascii -> bool) (s : string) :
  Py.sall (fun c => negb (p c)) s = true -> Py.rstrip_with p s = s.
Proof.
  induction s as [|c s IH]; simpl; [reflexivity|].
  intros H. apply andb_true_iff in H. destruct H as [Hc Hs].
  rewrite IH by assumption. apply negb_true_iff in Hc. rewrite Hc.
  now rewrite andb_false_r.
Qed.

Lemma lstrip_none (p : ascii -> bool) (s : string) :
  Py.sall (fun c => negb (p c)) s = true -> Py.lstrip_with p s = s.
Proof.
  destruct s as [|c s]; simpl; [reflexivity|].
  intros H. apply andb_true_iff in H. destruct H as [Hc _].
  apply negb_true_iff in Hc. now rewrite Hc.
Qed.

Lemma sall_impl (p q : ascii -> bool) (s : string) :
  (forall c, p c = true -> q c = true) ->
  Py.sall p s = true -> Py.sall q s = true.
Proof.
  intros I. induction s as [|c s IH]; simpl; [reflexivity|].
  intros H. apply andb_true_iff in H. destruct H as [Hc Hs].
  rewrite (I c Hc). now apply IH.
Qed.

Lemma strip_of_upper (s : string) :
  Py.sall Py.char_isupper s = true -> Py.strip s = s.
Proof.
  intros H.
  assert (N : Py.sall (fun c => negb (Py.char_isspace c)) s = true).
  { revert H. apply sall_impl. intros c Hc.
    now rewrite (char_isupper_not_space c Hc). }
  unfold Py.strip, Py.strip_with. rewrite rstrip_none by assumption.
  now apply lstrip_none.
Qed.

Lemma upper3_facts (code : string) :
  upper3 code = true ->
  Py.upper code = code /\ Py.strip code = code /\ Py.len code = 3 /\
  Py.truthy code = true /\ Py.isalpha code = true.
Proof.
  unfold upper3. intros H. apply andb_true_iff in H. destruct H as [L U].
  apply Nat.eqb_eq in L.
  assert (T : Py.truthy code = true) by (destruct code; [discriminate|reflexivity]).
  repeat split; auto using upper_of_upper, strip_of_upper.
  unfold Py.isalpha. rewrite T. simpl. revert U. apply sall_impl.
  intros c Hc. unfold Py.char_isalpha. now rewrite Hc.
Qed.

(** ** The code indexes: the last record wins (C8, C1) *)

Section CodeIndex.

Context {F : Type}.

Variable code : Airport F -> string.

Let step (d : dict (Airport F)) (airport : Airport F) : dict (Airport F) :=
  if Py.truthy (code airport) then dict_set (code airport) airport d else d.

Lemma find_app {A} (p : A -> bool) (l1 l2 : list A) :
  find p (l1 ++ l2) = match find p l1 with Some x => Some x | None => find p l2 end.
Proof.
  induction l1 as [|x l1 IH]; simpl; [reflexivity|].
  now destruct (p x).
Qed.

Lemma code_index_get (c : string) (l : list (Airport F)) (d : dict (Airport F)) :
  dict_get c (fold_left step l d)
  = match find (fun a => String.eqb (code a) c && Py.truthy (code a)) (rev l) with
    | Some a => Some a
    | None => dict_get c d
    end.
Proof.
  revert d. induction l as [|a l IH]; intros d; simpl; [reflexivity|].
  rewrite IH, find_app. simpl.
  destruct (find _ (rev l)); [reflexivity|].
  unfold step. destruct (Py.truthy (code a)).
  - rewrite dict_get_set, andb_true_r. now destruct (String.eqb (code a) c).
  - now rewrite andb_false_r.
Qed.

Lemma code_index_last (c : string) (l : list (Airport F)) :
  dict_get c (fold_left step l [])
  = if Py.truthy c then find (fun a => String.eqb (code a) c) (rev l) else None.
Proof.
  rewrite code_index_get. simpl.
  generalize (rev l). intros l'.
  induction l' as [|a l' IH]; simpl; [now destruct (Py.truthy c)|].
  destruct (String.eqb (code a) c) eqn:E; simpl.
  - apply String.eqb_eq in E. rewrite E. now destruct (Py.truthy c).
  - exact IH.
Qed.

Lemma code_index_unique (r : Airport F) (l : list (Airport F)) :
  In r l -> Py.truthy (code r) = true ->
  (forall r', In r' l -> code r' = code r -> r' = r) ->
  dict_get (code r) (fold_left step l []) = Some r.
Proof.
  intros Hin Ht Hu. rewrite code_index_last, Ht.
  destruct (find (fun a => String.eqb (code a) (code r)) (rev l)) as [a|] eqn:E.
  - apply find_some in E. destruct E as [Ha Hc].
    apply String.eqb_eq in Hc. apply in_rev in Ha. now rewrite (Hu a Ha Hc).
  - apply in_rev in Hin. apply (find_none _ _ E) in Hin.
    simpl in Hin. now rewrite String.eqb_refl in Hin.
Qed.

End CodeIndex.

(** ** Lookup by primary code (C1) *)

Section PrimaryCode.

Context {F : Type}.

(** C1, as the code has it: a record of the store whose primary code is
    made of exactly three upper-case letters and is shared by no other
    record is the one and only result of searching for that code, over the
    indexes built from the store. *)
Theorem smart_search_primary_code (airports : list (Airport F)) (r : Airport F) :
  In r airports ->
  upper3 (iata r) = true ->
  (forall r', In r' airports -> iata r' = iata r -> r' = r) ->
  smart_search (indexed airports) (iata r) = ([], Return [r]).
Proof.
  intros Hin Hup Huniq.
  destruct (upper3_facts (iata r) Hup) as (EU & ES & EL & ET & EA).
  assert (G : dict_get (iata r) (build_iata_index airports) = Some r).
  { apply (code_index_unique (@iata F)); assumption. }
  assert (C : search_by_code (indexed airports) (iata r) = ([], Return [r])).
  { unfold search_by_code. rewrite EU, ES, EL. simpl iata_index.
    unfold dict_contains, dict_getitem. rewrite G. reflexivity. }
  unfold smart_search. rewrite ES, ET, EL, EA. simpl negb. cbv iota.
  simpl andb. cbv iota. rewrite C. reflexivity.
Qed.

End PrimaryCode.

Lemma smart_search_primary_code_witness :
  smart_search (indexed sample_store) (iata LHR) = ([], Return [LHR]).
Proof.
  apply (smart_search_primary_code sample_store LHR).
  - simpl. tauto.
  - reflexivity.
  - intros r' H E. simpl in H.
    repeat (destruct H as [<-|H]; [try reflexivity; discriminate E|]).
    contradiction.
Defined.

(** A record with a unique primary code of three lower-case letters is
    in the store and in the primary-code index, yet searching for its code
    finds nothing: the query is upper-cased, the stored key is not. *)
Lemma lower_case_code_not_found :
  In lower_case_code (sample_store ++ [lower_case_code]) /\
  Py.len (iata lower_case_code) = 3 /\
  Py.isalpha (iata lower_case_code) = true /\
  (forall r', In r' (sample_store ++ [lower_case_code]) ->
              iata r' = iata lower_case_code -> r' = lower_case_code) /\
  dict_get (iata lower_case_code)
           (iata_index (indexed (sample_store ++ [lower_case_code])))
  = Some lower_case_code /\
  smart_search (indexed (sample_store ++ [lower_case_code])) (iata lower_case_code)
  = ([], Return []).
Proof.
  split; [simpl; tauto|]. split; [reflexivity|]. split; [reflexivity|].
  split.
  - intros r' H E. simpl in H.
    repeat (destruct H as [<-|H]; [try reflexivity; discriminate E|]).
    contradiction.
  - split; vm_compute; reflexivity.
Qed.

(** ** Index construction (C8) *)

Section IndexConstruction.

Context {F : Type}.

(** C8: the four index files that [create_search_indexes] writes hold
    the indexes built from the list of records, and nothing of what the
    files held before: the same list gives the same four files from any
    state of the files, and building them again changes nothing.  The other
    files are left as they were.  In the primary-code and secondary-code
    indexes written, a code that is not empty is mapped to the last record
    of the list that carries it, and the empty code is no key. *)
Theorem create_search_indexes_deterministic
  (airports : list (Airport F)) (fs fs' : FileSystem F) (c : string) :
  exists fs1 fs1' iata_written icao_written,
    create_search_indexes airports fs
    = ([MsgCreatingIndexes; MsgIndexesCreated], Return fs1) /\
    create_search_indexes airports fs'
    = ([MsgCreatingIndexes; MsgIndexesCreated], Return fs1') /\
    create_search_indexes airports fs1
    = ([MsgCreatingIndexes; MsgIndexesCreated], Return fs1) /\
    (iata_index_json fs1 = Content iata_written /\
     icao_index_json fs1 = Content icao_written /\
     city_index_json fs1 = Content (build_city_index airports) /\
     country_index_json fs1 = Content (build_country_index airports)) /\
    (iata_written = build_iata_index airports /\
     icao_written = build_icao_index airports) /\
    (iata_index_json fs1' = iata_index_json fs1 /\
     icao_index_json fs1' = icao_index_json fs1 /\
     city_index_json fs1' = city_index_json fs1 /\
     country_index_json fs1' = country_index_json fs1) /\
    (airports_raw_dat fs1 = airports_raw_dat fs /\
     airport_data_json fs1 = airport_data_json fs /\
     countries_json fs1 = countries_json fs /\
     cities_json fs1 = cities_json fs) /\
    dict_get c iata_written
    = (if Py.truthy c
       then find (fun a => String.eqb (iata a) c) (rev airports) else None) /\
    dict_get c icao_written
    = (if Py.truthy c
       then find (fun a => String.eqb (icao a) c) (rev airports) else None).
Proof.
  eexists. eexists. eexists. eexists.
  split; [reflexivity|]. split; [reflexivity|]. split; [reflexivity|].
  split; [repeat split|]. split; [split; reflexivity|].
  split; [repeat split|]. split; [repeat split|].
  split.
  - apply (code_index_last (@iata F)).
  - apply (code_index_last (@icao F)).
Qed.

(** After [save_processed_data], the constructor loads the store and the
    indexes built from it. *)
Lemma load_after_save (airports : list (Airport F)) (countries cities : list string)
  (fs : FileSystem F) :
  exists fs',
    save_processed_data airports countries cities fs
    = ([MsgSaving; MsgCreatingIndexes; MsgIndexesCreated; MsgSaved], Return fs') /\
    AirportSearch_init fs'
    = ([MsgLoaded (List.length airports)], Return (indexed airports)).
Proof. eexists. split; reflexivity. Qed.

End IndexConstruction.

(** ** Processing the raw rows (C3) *)

Section Processing.

Context {F : Type}.
Variable max_str_digits : nat.
Variable float : string -> option F.
Variable float_zero : F.

Lemma fold_M_app {A S} (body : S -> A -> M S) (l1 l2 : list A) (s : S) :
  fold_M body (l1 ++ l2) s = bind (fold_M body l1 s) (fold_M body l2).
Proof.
  revert s. induction l1 as [|x l1 IH]; intros s; simpl.
  - destruct (fold_M body l2 s); reflexivity.
  - destruct (body s x) as [o [s'|e]]; simpl; [|reflexivity].
    rewrite IH. destruct (fold_M body l1 s') as [o1 [s1|e1]]; simpl.
    + destruct (fold_M body l2 s1). now rewrite app_assoc.
    + reflexivity.
Qed.

Lemma fold_M_invariant {A S} (P : S -> Prop) (body : S -> A -> M S) :
  (forall s x o s', P s -> body s x = (o, Return s') -> P s') ->
  forall l s o s', P s -> fold_M body l s = (o, Return s') -> P s'.
Proof.
  intros Hb. induction l as [|x l IH]; intros s o s' Hs; simpl.
  - intros [= _ <-]. exact Hs.
  - destruct (body s x) as [o1 [s1|e1]] eqn:E; simpl; [|discriminate].
    destruct (fold_M body l s1) as [o2 [s2|e2]] eqn:E2; [|discriminate].
    intros [= _ <-]. eapply IH; [|exact E2]. eapply Hb; eauto.
Qed.

Lemma int_or_zero_ok (s : string) :
  integer_ok max_str_digits s = true ->
  exists n, int_or_zero max_str_digits s = ret n.
Proof.
  unfold integer_ok, int_or_zero. destruct (Py.isdigit s); simpl.
  - destruct (int max_str_digits s) as [n|]; [eauto|discriminate].
  - eauto.
Qed.

Lemma int_or_zero_bad (s : string) :
  integer_ok max_str_digits s = false ->
  int_or_zero max_str_digits s = raise ValueError.
Proof.
  unfold integer_ok, int_or_zero. destruct (Py.isdigit s); simpl.
  - destruct (int max_str_digits s) as [n|]; [discriminate|reflexivity].
  - discriminate.
Qed.

Lemma process_row_dropped (st : processed F) (row : list string) (lat lon : F) :
  14 <= List.length row ->
  integer_ok max_str_digits (nth 0 row EmptyString) = true ->
  float_or_zero float float_zero (nth 6 row EmptyString) = ret lat ->
  float_or_zero float float_zero (nth 7 row EmptyString) = ret lon ->
  integer_ok max_str_digits (nth 8 row EmptyString) = true ->
  Py.len (Py.strip_quotes (nth 4 row EmptyString)) <> 3 ->
  process_row max_str_digits float float_zero st row = ret st.
Proof.
  intros L Hid Hlat Hlon Hel Hc. destruct st as [[airports countries] cities].
  unfold process_row. apply Nat.leb_le in L. rewrite L.
  unfold airport_of_row. cbv zeta.
  destruct (int_or_zero_ok _ Hid) as [i Ei].
  destruct (int_or_zero_ok _ Hel) as [e Ee].
  rewrite Ei, bind_ret, Hlat, bind_ret, Hlon, bind_ret, Ee, bind_ret, bind_ret.
  simpl iata. apply Nat.eqb_neq in Hc. rewrite Hc. now rewrite andb_false_r.
Qed.

Lemma process_row_codes (st st' : processed F) (row : list string) (o : list line) :
  Forall (fun a => Py.len (iata a) = 3) (fst (fst st)) ->
  process_row max_str_digits float float_zero st row = (o, Return st') ->
  Forall (fun a => Py.len (iata a) = 3) (fst (fst st')).
Proof.
  destruct st as [[airports countries] cities]. cbn [fst]. intros H.
  unfold process_row.
  destruct (14 <=? List.length row);
    [|intros E; inversion E; subst; exact H].
  destruct (airport_of_row max_str_digits float float_zero row) as [o1 [a|e]]; cbn [bind];
    [|discriminate].
  destruct (Py.truthy (iata a) && (Py.len (iata a) =? 3)) eqn:E.
  - intros E'; inversion E'; subst. simpl. apply Forall_app. split; [exact H|].
    constructor; [|constructor].
    apply andb_true_iff in E. now apply Nat.eqb_eq.
  - intros E'; inversion E'; subst. exact H.
Qed.

Lemma keys_dict_set {V} (k k' : string) (v : V) (d : dict V) :
  In k (keys (dict_set k' v d)) -> k = k' \/ In k (keys d).
Proof.
  induction d as [|[k0 v0] d IH]; simpl.
  - intros [<-|[]]. now left.
  - destruct (String.eqb k0 k') eqn:E; simpl.
    + intros [<-|H]; auto.
    + intros [<-|H]; auto. destruct (IH H); auto.
Qed.

Lemma code_index_keys (code : Airport F -> string) (k : string)
  (l : list (Airport F)) (d : dict (Airport F)) :
  In k (keys (fold_left
                (fun d a => if Py.truthy (code a) then dict_set (code a) a d else d)
                l d)) ->
  In k (keys d) \/ exists a, In a l /\ code a = k.
Proof.
  revert d. induction l as [|a l IH]; intros d; simpl; [auto|].
  intros H. apply IH in H. destruct H as [H|[a' [Ha Hk]]].
  - destruct (Py.truthy (code a)); [|auto].
    apply keys_dict_set in H. destruct H as [->|H]; eauto.
  - eauto.
Qed.

(** C3, as the code has it: a row of at least 14 fields whose primary
    code is not exactly 3 characters long, whose coordinates can be read and
    whose identifier and elevation, where they are made of digits, are
    accepted by [int], contributes nothing, the load going on as if the row
    were not there: its record is kept neither in the store nor in any
    index.  What decides is the length alone: every record of the store, and
    so every key of the primary-code index, has a primary code of 3
    characters, letters or not. *)
Theorem process_airport_data_code_filter
  (fs fs' : FileSystem F) (pre post : list (list string)) (row : list string)
  (lat lon : F) :
  airports_raw_dat fs = Content (pre ++ row :: post) ->
  airports_raw_dat fs' = Content (pre ++ post) ->
  14 <= List.length row ->
  integer_ok max_str_digits (nth 0 row EmptyString) = true ->
  float_or_zero float float_zero (nth 6 row EmptyString) = ret lat ->
  float_or_zero float float_zero (nth 7 row EmptyString) = ret lon ->
  integer_ok max_str_digits (nth 8 row EmptyString) = true ->
  Py.len (Py.strip_quotes (nth 4 row EmptyString)) <> 3 ->
  process_airport_data max_str_digits float float_zero fs
  = process_airport_data max_str_digits float float_zero fs' /\
  forall o airports countries cities,
    process_airport_data max_str_digits float float_zero fs
    = (o, Return (Some (airports, countries, cities))) ->
    Forall (fun a => Py.len (iata a) = 3) airports /\
    forall k, In k (keys (build_iata_index airports)) ->
              Py.len k = 3 /\ exists a, In a airports /\ iata a = k.
Proof.
  intros Hfs Hfs' L Hid Hlat Hlon Hel Hc.
  assert (E : fold_M (process_row max_str_digits float float_zero) (pre ++ row :: post) ([], [], [])
              = fold_M (process_row max_str_digits float float_zero) (pre ++ post) ([], [], [])).
  { rewrite !fold_M_app. apply bind_ext. intros st. cbn [fold_M].
    rewrite (process_row_dropped st row lat lon L Hid Hlat Hlon Hel Hc).
    now rewrite bind_ret. }
  split.
  - unfold process_airport_data. rewrite Hfs, Hfs'. simpl csv_read.
    rewrite !bind_ret, E. reflexivity.
  - intros o airports countries cities H.
    assert (HF : Forall (fun a => Py.len (iata a) = 3) airports).
    { unfold process_airport_data in H. rewrite Hfs in H. simpl csv_read in H.
      rewrite bind_ret in H.
      destruct (fold_M (process_row max_str_digits float float_zero) (pre ++ row :: post) ([], [], []))
        as [o1 [[[a1 c1] ci1]|e1]] eqn:EF.
      - simpl in H. injection H as _ <- _ _.
        apply (fold_M_invariant
                 (fun st : processed F => Forall (fun a => Py.len (iata a) = 3) (fst (fst st)))
                 (process_row max_str_digits float float_zero)) in EF; [exact EF| |constructor].
        intros s x o' s' Hs Hb. eapply process_row_codes; eauto.
      - simpl in H. destruct (is_Exception e1); simpl in H; discriminate. }
    split; [exact HF|]. intros k Hk.
    apply (code_index_keys (@iata F)) in Hk. destruct Hk as [[]|[a [Ha <-]]].
    split; [|eauto]. rewrite Forall_forall in HF. now apply HF.
Qed.

End Processing.

Lemma process_airport_data_code_filter_witness :
  process_airport_data 4300 decimal 0%Q (raw_fs (sample_rows ++ row_without_code :: []))
  = process_airport_data 4300 decimal 0%Q (raw_fs (sample_rows ++ [])).
Proof.
  apply (process_airport_data_code_filter 4300 decimal 0%Q
           (raw_fs (sample_rows ++ row_without_code :: []))
           (raw_fs (sample_rows ++ []))
           sample_rows [] row_without_code (15 # 10) (25 # 10)).
  - reflexivity.
  - reflexivity.
  - simpl. lia.
  - reflexivity.
  - reflexivity.
  - reflexivity.
  - reflexivity.
  - simpl. lia.
Defined.

(** A row without a three-character code leaves no record in the store,
    and a row whose three-character code is not alphabetic is kept and
    indexed under that code. *)
Lemma code_filter_is_by_length :
  Py.isalpha (nth 4 row_without_code EmptyString) = false /\
  process_airport_data 4300 decimal 0%Q (raw_fs [row_without_code])
  = ([MsgProcessing; MsgProcessed 0 0], Return (Some ([], [], []))) /\
  Py.isalpha (nth 4 row_with_digit_code EmptyString) = false /\
  exists a o countries cities,
    process_airport_data 4300 decimal 0%Q (raw_fs [row_with_digit_code])
    = (o, Return (Some ([a], countries, cities))) /\
    iata a = "7AK" /\
    dict_get "7AK" (build_iata_index [a]) = Some a.
Proof.
  split; [reflexivity|]. split; [reflexivity|]. split; [reflexivity|].
  eexists. eexists. eexists. eexists.
  split; [vm_compute; reflexivity|]. split; reflexivity.
Qed.

(** ** The bucket indexes *)

Section BucketIndex.

Context {V : Type}.

Lemma dict_append_cons (k : string) (x : V) (k' : string) (l : list V)
  (d : dict (list V)) :
  dict_append k x ((k', l) :: d)
  = if String.eqb k' k then (k, l ++ [x]) :: d else (k', l) :: dict_append k x d.
Proof.
  unfold dict_append. simpl. destruct (String.eqb k' k) eqn:E.
  - simpl. rewrite ?E. reflexivity.
  - destruct (dict_get k d); simpl; rewrite ?E; reflexivity.
Qed.

Lemma dict_get_append (k k' : string) (x : V) (d : dict (list V)) :
  dict_get k (dict_append k' x d)
  = if String.eqb k' k then Some (bucket d k ++ [x]) else dict_get k d.
Proof.
  unfold dict_append, bucket.
  destruct (String.eqb k' k) eqn:E.
  - apply String.eqb_eq in E. subst k'.
    destruct (dict_get k d); now rewrite dict_get_set_same.
  - apply String.eqb_neq in E.
    destruct (dict_get k' d); apply dict_get_set_other; congruence.
Qed.

Lemma selected_append (p : string -> bool) (k : string) (x : V)
  (d : dict (list V)) :
  Permutation (selected p (dict_append k x d))
              (selected p d ++ (if p k then [x] else [])).
Proof.
  induction d as [|[k' l] d IH].
  - unfold dict_append, selected. simpl. now rewrite app_nil_r.
  - rewrite dict_append_cons. destruct (String.eqb k' k) eqn:E.
    + apply String.eqb_eq in E. subst k'. unfold selected. simpl.
      destruct (p k); simpl.
      * rewrite <- !app_assoc. apply Permutation_app_head.
        apply Permutation_app_comm.
      * now rewrite app_nil_r.
    + unfold selected in *. simpl. rewrite <- app_assoc.
      now apply Permutation_app_head.
Qed.

Variable key : V -> string.

Let step (d : dict (list V)) (x : V) : dict (list V) := dict_append (key x) x d.

Lemma group_selected (p : string -> bool) (l : list V) (d : dict (list V)) :
  Permutation (selected p (fold_left step l d))
              (selected p d ++ filter (fun x => p (key x)) l).
Proof.
  revert d. induction l as [|x l IH]; intros d; simpl.
  - now rewrite app_nil_r.
  - rewrite IH. unfold step. rewrite selected_append, <- app_assoc.
    apply Permutation_app_head. now destruct (p (key x)).
Qed.

Lemma group_get (k : string) (l : list V) (d : dict (list V)) :
  dict_get k (fold_left step l d)
  = match dict_get k d, filter (fun x => String.eqb (key x) k) l with
    | Some b, f => Some (b ++ f)
    | None, [] => None
    | None, f => Some f
    end.
Proof.
  revert d. induction l as [|x l IH]; intros d; simpl.
  - destruct (dict_get k d); [now rewrite app_nil_r|reflexivity].
  - rewrite IH. unfold step. rewrite dict_get_append. unfold bucket.
    destruct (String.eqb (key x) k); [|reflexivity].
    destruct (dict_get k d); [now rewrite <- app_assoc|reflexivity].
Qed.

Lemma group_get_filter (k : string) (l : list V) :
  dict_get k (fold_left step l [])
  = match filter (fun x => String.eqb (key x) k) l with
    | [] => None
    | f => Some f
    end.
Proof. now rewrite group_get. Qed.

End BucketIndex.

Section BucketLookup.

Context {F : Type}.

Lemma extend_all_buckets (index : dict (list (Airport F)))
  (matches : list string) (results : list (Airport F)) :
  (forall m, In m matches -> In m (keys index)) ->
  extend_all index matches results
  = ([], Return (results ++ flat_map (bucket index) matches)).
Proof.
  unfold extend_all. revert results.
  induction matches as [|m ms IH]; intros results H; simpl.
  - now rewrite app_nil_r.
  - destruct (dict_get_In_keys m index (H m (or_introl eq_refl))) as [l E].
    unfold dict_getitem, bucket. rewrite E. rewrite bind_ret, bind_ret.
    rewrite IH by (intros; apply H; now right). now rewrite app_assoc.
Qed.

Lemma fold_left_selected (p : string -> bool) (index : dict (list (Airport F)))
  (results : list (Airport F)) :
  fold_left
    (fun results (item : string * list (Airport F)) =>
       let (city_key, airports) := item in
       if p city_key then results ++ airports else results)
    index results
  = results ++ selected p index.
Proof.
  revert results. induction index as [|[k l] d IH]; intros results; simpl.
  - now rewrite app_nil_r.
  - rewrite IH. unfold selected. simpl.
    destruct (p k); [now rewrite app_assoc|reflexivity].
Qed.

Lemma fuzzy_buckets (index : dict (list (Airport F))) (word : string) (n : Z) :
  (0 < n)%Z ->
  bind (Difflib.get_close_matches word (keys index) n (6 # 10))
       (fun matches => extend_all index matches [])
  = ([], Return (flat_map (bucket index) (best_matches word (keys index) n (6 # 10)))).
Proof.
  intros Hn.
  rewrite get_close_matches_valid by (trivial; discriminate).
  rewrite bind_ret. apply extend_all_buckets.
  intros m Hm. now apply best_matches_In in Hm.
Qed.

(** ** Country lookup (C5) *)

(** C5, as the code has it: country lookup returns the bucket of the
    trimmed query when it is a key of the country index; otherwise it
    returns, one after the other and in rank order, the buckets of all the
    fuzzy matches of the query among the country keys, of which there are up
    to three. *)
Theorem search_by_country_buckets (self : AirportSearch F) (country_name : string) :
  let c := Py.strip country_name in
  exists matches,
    Difflib.get_close_matches c (keys (country_index self)) 3 (6 # 10)
    = ([], Return matches) /\
    List.length matches <= 3 /\
    search_by_country self country_name
    = ([], Return (match dict_get c (country_index self) with
                   | Some l => l
                   | None => flat_map (bucket (country_index self)) matches
                   end)).
Proof.
  intros c. exists (best_matches c (keys (country_index self)) 3 (6 # 10)).
  split; [apply get_close_matches_valid; (reflexivity || discriminate)|].
  split.
  - pose proof (best_matches_length c (keys (country_index self)) 3 (6 # 10)). lia.
  - unfold search_by_country. fold c. unfold dict_contains, dict_getitem.
    destruct (dict_get c (country_index self)); [reflexivity|].
    now apply fuzzy_buckets.
Qed.

End BucketLookup.

(** The query [United] is no country of the sample store and has two
    fuzzy matches; country lookup returns the bucket of the second match
    after that of the first. *)
Lemma search_by_country_beyond_top_match :
  dict_get "United" (country_index (indexed sample_store)) = None /\
  Difflib.get_close_matches "United" (keys (country_index (indexed sample_store)))
                            3 (6 # 10)
  = ([], Return ["United States"; "United Kingdom"]) /\
  bucket (country_index (indexed sample_store)) "United States" = [JFK; LAX] /\
  search_by_country (indexed sample_store) "United" = ([], Return [JFK; LAX; LHR]) /\
  outcome (search_by_country (indexed sample_store) "United")
  <> Return (bucket (country_index (indexed sample_store)) "United States").
Proof.
  split; [reflexivity|]. split; [vm_compute; reflexivity|].
  split; [reflexivity|]. split; [vm_compute; reflexivity|].
  vm_compute. discriminate.
Qed.

(** ** Result sets and their order (C9) *)

Lemma Sorted_impl {A} (R R' : A -> A -> Prop) (l : list A) :
  (forall x y, R x y -> R' x y) -> Sorted R l -> Sorted R' l.
Proof.
  intros I. induction 1 as [|x l Hs IH Hd]; constructor; trivial.
  destruct Hd; constructor; auto.
Qed.

Lemma nonempty_perm {A} (l l' : list A) :
  Permutation l l' -> nonempty l = nonempty l'.
Proof.
  intros H. apply Permutation_length in H.
  destruct l, l'; simpl in *; (reflexivity || discriminate).
Qed.

Section ResultSets.

Context {F : Type}.

Lemma sorted_by_city_ascending (l : list (Airport F)) :
  Sorted city_ascending (sorted_by_key (@city F) l).
Proof.
  unfold sorted_by_key.
  apply Sorted_impl with
    (R := fun u v : Airport F => String.ltb (city v) (city u) = false).
  - intros x y. apply string_ltb_false_leb.
  - apply (sorted_Sorted (fun u v : Airport F => String.ltb (city u) (city v))).
    intros x y. apply string_ltb_asym.
Qed.

Variable airports : list (Airport F).

Lemma city_bucket (k : string) :
  bucket (build_city_index airports) k
  = filter (fun a => String.eqb (city_key a) k) airports.
Proof.
  unfold bucket, build_city_index.
  rewrite (group_get_filter (@city_key F)). now destruct (filter _ airports).
Qed.

Lemma country_bucket (k : string) :
  bucket (build_country_index airports) k
  = filter (fun a => String.eqb (country a) k) airports.
Proof.
  unfold bucket, build_country_index.
  rewrite (group_get_filter (@country F)). now destruct (filter _ airports).
Qed.

Lemma country_get (k : string) :
  dict_get k (build_country_index airports)
  = match filter (fun a => String.eqb (country a) k) airports with
    | [] => None
    | f => Some f
    end.
Proof. apply (group_get_filter (@country F)). Qed.

(** C9, as the code has it: over the indexes built from the store, a
    stage returns whole buckets, a bucket holding all the records of the
    store with its key.  City lookup returns the buckets of all the keys that
    contain the query, in index order; country lookup returns the records of
    the country in store order; name lookup returns the matching records in
    store order.  When nothing matches, city and country lookup fall back on
    the buckets of the best 10 and 3 fuzzy matches, in the order of their
    rank.  Only the country listing, [get_country_airports], which falls back
    on the best match alone, returns its records sorted in ascending order of
    city name. *)
Theorem stages_return_whole_buckets (query : string) :
  let self := indexed airports in
  let c := Py.strip query in
  let in_key := fun k => Py.contains (Py.lower c) (Py.lower k) in
  let city_hits := filter (fun a => in_key (city_key a)) airports in
  let country_hits := filter (fun a => String.eqb (country a) c) airports in
  let listed := filter (fun a => String.eqb (country a) query) airports in
  (exists res,
     search_by_city self query = ([], Return res) /\
     match city_hits with
     | [] => res = flat_map (bucket (city_index self))
                            (best_matches c (keys (city_index self)) 10 (6 # 10))
     | _ :: _ => res = selected in_key (city_index self) /\
                 Permutation res city_hits
     end) /\
  search_by_country self query
  = ([], Return (match country_hits with
                 | [] => flat_map (bucket (country_index self))
                                  (best_matches c (keys (country_index self)) 3 (6 # 10))
                 | _ :: _ => country_hits
                 end)) /\
  search_by_name self query
  = ([], Return (filter (fun a => Py.contains (Py.strip (Py.lower query))
                                              (Py.lower (name a)))
                        airports)) /\
  (forall k,
     bucket (city_index self) k
     = filter (fun a => String.eqb (city_key a) k) airports /\
     bucket (country_index self) k
     = filter (fun a => String.eqb (country a) k) airports) /\
  (exists res,
     get_country_airports self query = ([], Return res) /\
     Sorted city_ascending res /\
     match listed with
     | [] => res = match best_matches query (keys (country_index self)) 1 (6 # 10) with
                   | m :: _ => sorted_by_key (@city F) (bucket (country_index self) m)
                   | [] => []
                   end
     | _ :: _ => Permutation res listed
     end) /\
  (List.length (best_matches c (keys (city_index self)) 10 (6 # 10)) <= 10 /\
   List.length (best_matches c (keys (country_index self)) 3 (6 # 10)) <= 3 /\
   List.length (best_matches query (keys (country_index self)) 1 (6 # 10)) <= 1).
Proof.
  intros self c in_key city_hits country_hits listed.
  split; [|split; [|split; [|split; [|split]]]].
  - (* city lookup *)
    assert (P : Permutation (selected in_key (city_index self)) city_hits).
    { apply (group_selected (@city_key F) in_key airports []). }
    assert (FS : fold_left
                   (fun results (item : string * list (Airport F)) =>
                      let (city_key, airports) := item in
                      if Py.contains (Py.lower c) (Py.lower city_key)
                      then results ++ airports else results)
                   (city_index self) []
                 = selected in_key (city_index self))
      by apply (fold_left_selected in_key (city_index self) []).
    unfold search_by_city. fold c. rewrite FS.
    rewrite (nonempty_perm _ _ P).
    destruct city_hits as [|a hits] eqn:E; simpl nonempty; simpl negb; cbv iota.
    + apply Permutation_sym, Permutation_nil in P. rewrite P.
      eexists. split; [|reflexivity].
      apply (fuzzy_buckets (city_index self) c 10). reflexivity.
    + eexists. split; [reflexivity|]. split; [reflexivity|exact P].
  - (* country lookup *)
    unfold search_by_country. fold c. unfold dict_contains, dict_getitem.
    simpl country_index. rewrite (country_get c). fold country_hits.
    destruct country_hits; [|reflexivity].
    apply (fuzzy_buckets (build_country_index airports) c 3). reflexivity.
  - reflexivity.
  - intros k. split; [apply city_bucket|apply country_bucket].
  - (* the country listing *)
    unfold get_country_airports. unfold dict_contains, dict_getitem.
    simpl country_index. rewrite (country_get query). fold listed.
    destruct listed as [|a l] eqn:E.
    + rewrite get_close_matches_valid by (trivial; (reflexivity || discriminate)).
      rewrite bind_ret.
      destruct (best_matches query (keys (build_country_index airports)) 1 (6 # 10))
        as [|m ms] eqn:B.
      * eexists. split; [reflexivity|]. split; [constructor|reflexivity].
      * assert (Hm : In m (keys (build_country_index airports))).
        { assert (I : In m (best_matches query (keys (build_country_index airports)) 1 (6 # 10)))
            by (rewrite B; now left).
          now apply best_matches_In in I. }
        destruct (dict_get_In_keys m _ Hm) as [b Eb]. unfold bucket. rewrite Eb.
        eexists. split; [reflexivity|].
        split; [apply sorted_by_city_ascending|reflexivity].
    + eexists. split; [reflexivity|].
      split; [apply sorted_by_city_ascending|]. apply sorted_perm.
  - (* the caps of the fuzzy fallbacks *)
    pose proof (best_matches_length c (keys (city_index self)) 10 (6 # 10)).
    pose proof (best_matches_length c (keys (country_index self)) 3 (6 # 10)).
    pose proof (best_matches_length query (keys (country_index self)) 1 (6 # 10)).
    lia.
Qed.

End ResultSets.

(** C9 does not hold as worded.  City lookup of [United] returns New
    York before Los Angeles: its result is not sorted by city.  In the store
    of four countries with close names, all four score at or above the cutoff
    for [Nigeri], as the matcher asked for four shows; country lookup takes
    the three best and leaves out the record of the fourth, in rank order,
    the reverse of the order of the index, and the country listing takes the
    best one alone. *)
Lemma fuzzy_lookup_capped_and_unsorted :
  search_by_city (indexed sample_store) "United" = ([], Return [JFK; LAX; LHR]) /\
  ~ Sorted city_ascending [JFK; LAX; LHR] /\
  keys (country_index (indexed close_countries_store))
  = ["Algeria"; "Liberia"; "Niger"; "Nigeria"] /\
  Difflib.get_close_matches "Nigeri"
    (keys (country_index (indexed close_countries_store))) 4 (6 # 10)
  = ([], Return ["Nigeria"; "Niger"; "Liberia"; "Algeria"]) /\
  search_by_country (indexed close_countries_store) "Nigeri"
  = ([], Return [LOS; NIM; ROB]) /\
  get_country_airports (indexed close_countries_store) "Nigeri"
  = ([], Return [LOS]).
Proof.
  split; [vm_compute; reflexivity|]. split.
  - intros S. inversion S as [|x l _ H]; subst.
    inversion H as [|y l' C]; subst. vm_compute in C. discriminate C.
  - split; [reflexivity|]. split; [vm_compute; reflexivity|].
    split; vm_compute; reflexivity.
Qed.

(** ** The recursion of the sequence matcher has fuel enough *)

Section MatcherFuel.

Variables a b : list ascii.

Lemma j2len_get_pred_le (blo bhi bound : nat) (m : list (nat * nat)) (j : nat) :
  blo <= j -> values_ok blo bhi bound m ->
  Difflib.j2len_get_pred m j <= bound /\ blo + Difflib.j2len_get_pred m j <= j.
Proof.
  intros Hj H. unfold Difflib.j2len_get_pred. destruct j as [|j]; [lia|].
  destruct (find (fun p => fst p =? j) m) as [p|] eqn:E; [|lia].
  apply find_some in E. destruct E as [Hp Ep]. apply Nat.eqb_eq in Ep.
  destruct (H p Hp) as (H1 & H2 & _). lia.
Qed.

Lemma inner_invariant (alo i blo bhi : nat) (j2len : list (nat * nat))
  (js : list nat) (st : list (nat * nat) * Difflib.best_t) :
  alo <= i -> values_ok blo bhi (i - alo) j2len ->
  values_ok blo bhi (S i - alo) (fst st) ->
  best_within alo (S i) blo bhi (snd st) ->
  let st' := fold_left (Difflib.inner i blo bhi j2len) js st in
  values_ok blo bhi (S i - alo) (fst st') /\
  best_within alo (S i) blo bhi (snd st').
Proof.
  intros Hi Hm. revert st. induction js as [|j js IH]; intros st Hv Hb; simpl.
  - tauto.
  - destruct st as [new [[bi bj] bs]].
    assert (G : values_ok blo bhi (S i - alo)
                  (fst (Difflib.inner i blo bhi j2len (new, (bi, bj, bs)) j)) /\
                best_within alo (S i) blo bhi
                  (snd (Difflib.inner i blo bhi j2len (new, (bi, bj, bs)) j))).
    { unfold Difflib.inner.
      destruct (j <? blo) eqn:E1; [tauto|]. apply Nat.ltb_ge in E1.
      destruct (bhi <=? j) eqn:E2; [tauto|]. apply Nat.leb_gt in E2.
      destruct (j2len_get_pred_le blo bhi (i - alo) j2len j E1 Hm) as [L1 L2].
      assert (V : values_ok blo bhi (S i - alo)
                    ((j, Difflib.j2len_get_pred j2len j + 1) :: new)).
      { intros p [<-|Hp]; [cbn [fst snd]; lia|now apply Hv]. }
      destruct (bs <? Difflib.j2len_get_pred j2len j + 1); cbn [fst snd].
      - split; [exact V|]. unfold best_within. lia.
      - split; [exact V|exact Hb]. }
    apply IH; tauto.
Qed.

Lemma outer_invariant (alo blo bhi n i : nat)
  (st : list (nat * nat) * Difflib.best_t) :
  alo <= i -> values_ok blo bhi (i - alo) (fst st) ->
  best_within alo i blo bhi (snd st) ->
  let st' := fold_left (Difflib.outer a b blo bhi) (seq i n) st in
  values_ok blo bhi (i + n - alo) (fst st') /\
  best_within alo (i + n) blo bhi (snd st').
Proof.
  revert i st. induction n as [|n IH]; intros i st Hi Hv Hb; simpl.
  - now rewrite Nat.add_0_r.
  - replace (i + S n) with (S i + n) by lia.
    destruct st as [j2len [[bi bj] bs]]. cbn [fst snd] in Hv, Hb.
    assert (G := inner_invariant alo i blo bhi j2len
                   (match nth_error a i with
                    | Some c => Difflib.b2j b c
                    | None => []
                    end)
                   ([], (bi, bj, bs)) Hi Hv).
    cbn [fst snd] in G.
    destruct G as [G1 G2]; [intros p []|unfold best_within in *; lia|].
    apply IH; [lia|exact G1|exact G2].
Qed.

Lemma extend_left_bounds (alo blo besti bestj bestsize : nat) :
  alo <= besti -> blo <= bestj ->
  let '(i, j, k) := Difflib.extend_left a b alo blo besti bestj bestsize in
  alo <= i /\ i + k = besti + bestsize /\ blo <= j /\ j + k = bestj + bestsize.
Proof.
  revert bestj bestsize.
  induction besti as [|i' IH]; intros bestj bestsize H H'; simpl.
  - lia.
  - destruct bestj as [|j']; [lia|].
    destruct ((alo <=? i') && (blo <=? j') && Difflib.same a b i' j') eqn:E;
      [|lia].
    apply andb_true_iff in E. destruct E as [E _].
    apply andb_true_iff in E. destruct E as [E E'].
    apply Nat.leb_le in E, E'.
    specialize (IH j' (S bestsize) E E').
    destruct (Difflib.extend_left a b alo blo i' j' (S bestsize)) as [[i j] k].
    lia.
Qed.

Lemma extend_right_bounds (gap bhi besti bestj bestsize : nat) :
  bestj + bestsize <= bhi ->
  let k := Difflib.extend_right a b gap bhi besti bestj bestsize in
  bestsize <= k /\ k <= bestsize + gap /\ bestj + k <= bhi.
Proof.
  revert bestsize. induction gap as [|gap IH]; intros bestsize H; simpl.
  - lia.
  - destruct (bestj + bestsize <? bhi) eqn:E; cbn [andb]; [|lia].
    apply Nat.ltb_lt in E.
    destruct (Difflib.same a b (besti + bestsize) (bestj + bestsize)); [|lia].
    specialize (IH (S bestsize)). cbv zeta in IH. lia.
Qed.

Lemma find_longest_match_bounds (alo ahi blo bhi : nat) :
  alo <= ahi -> blo <= bhi ->
  best_within alo ahi blo bhi (Difflib.find_longest_match a b alo ahi blo bhi).
Proof.
  intros H H'. unfold Difflib.find_longest_match.
  pose proof (outer_invariant alo blo bhi (ahi - alo) alo ([], (alo, blo, 0))) as O.
  cbv zeta in O. cbn [fst snd] in O.
  destruct (fold_left (Difflib.outer a b blo bhi) (seq alo (ahi - alo))
                      ([], (alo, blo, 0))) as [m [[bi bj] bs]].
  destruct O as [_ O]; [lia|intros p []|unfold best_within; lia|].
  unfold best_within in O. cbn [snd] in O.
  pose proof (extend_left_bounds alo blo bi bj bs) as L.
  destruct (Difflib.extend_left a b alo blo bi bj bs) as [[i j] k].
  pose proof (extend_right_bounds (ahi - (i + k)) bhi i j k) as R.
  cbv zeta in R. unfold best_within. lia.
Qed.

(** With more fuel than the length of the range of [a], the count of
    matched characters does not depend on the fuel: the recursion never
    runs out of it. *)
Theorem matched_fuel (fuel fuel' alo ahi blo bhi : nat) :
  alo <= ahi -> blo <= bhi -> ahi - alo < fuel -> ahi - alo < fuel' ->
  Difflib.matched a b fuel alo ahi blo bhi
  = Difflib.matched a b fuel' alo ahi blo bhi.
Proof.
  revert fuel' alo ahi blo bhi.
  induction fuel as [|fuel IH]; intros fuel' alo ahi blo bhi H H' F F'; [lia|].
  destruct fuel' as [|fuel']; [lia|]. simpl.
  pose proof (find_longest_match_bounds alo ahi blo bhi H H') as B.
  destruct (Difflib.find_longest_match a b alo ahi blo bhi) as [[i j] k].
  unfold best_within in B. destruct (k =? 0) eqn:K; [reflexivity|].
  apply Nat.eqb_neq in K. f_equal; [f_equal|].
  - destruct ((alo <? i) && (blo <? j)); [|reflexivity]. apply IH; lia.
  - destruct ((i + k <? ahi) && (j + k <? bhi)); [|reflexivity]. apply IH; lia.
Qed.

Corollary ratio_any_fuel (fuel : nat) :
  List.length a < fuel ->
  Difflib.ratio a b
  = Difflib.calculate_ratio
      (Difflib.matched a b fuel 0 (List.length a) 0 (List.length b))
      (List.length a + List.length b).
Proof.
  intros H. unfold Difflib.ratio. f_equal. apply matched_fuel; lia.
Qed.

End MatcherFuel.

(** The examples of the documentation of [difflib], and the sample rows
    of [create_sample_data]. *)

Example ratio_abcd_bcde :
  (Difflib.ratio (list_ascii_of_string "abcd") (list_ascii_of_string "bcde")
   == 75 # 100)%Q.
Proof. reflexivity. Qed.

Example find_longest_match_blanks :
  Difflib.find_longest_match (list_ascii_of_string " abcd")
                             (list_ascii_of_string "abcd abcd") 0 5 0 9
  = (0, 4, 5).
Proof. reflexivity. Qed.

Example find_longest_match_none :
  Difflib.find_longest_match (list_ascii_of_string "ab")
                             (list_ascii_of_string "c") 0 2 0 1
  = (0, 0, 0).
Proof. reflexivity. Qed.

Example get_close_matches_appel :
  Difflib.get_close_matches "appel" ["ape"; "apple"; "peach"; "puppy"] 3 (6 # 10)
  = ([], Return ["apple"; "ape"]).
Proof. vm_compute. reflexivity. Qed.

Example sample_rows_processed :
  process_airport_data 4300 decimal 0%Q (raw_fs sample_rows)
  = ([MsgProcessing; MsgProcessed 5 4],
     Return (Some (sample_store,
                   ["United States"; "United Kingdom"; "Japan"; "France"],
                   ["New York, United States"; "Los Angeles, United States";
                    "London, United Kingdom"; "Tokyo, Japan"; "Paris, France"]))).
Proof. vm_compute. reflexivity. Qed.

Example code_miss_prints_suggestions :
  search_by_code (indexed sample_store) " lhx"
  = ([MsgCodeNotFound "LHX";
      MsgSuggestion "LHR" "London Heathrow" "London";
      MsgSuggestion "LAX" "Los Angeles Intl" "Los Angeles"],
     Return []).
Proof. vm_compute. reflexivity. Qed.

(** ** Great-circle distance (C10) *)

Section GeoFacts.

Local Open Scope R_scope.

Lemma haversine_km_symmetric (lat1 lon1 lat2 lon2 : R) :
  Geo.haversine_km lat1 lon1 lat2 lon2 = Geo.haversine_km lat2 lon2 lat1 lon1.
Proof.
  unfold Geo.haversine_km. cbv zeta.
  assert (S : forall x y : R, (sin ((x - y) / 2))² = (sin ((y - x) / 2))²).
  { intros x y. replace ((x - y) / 2) with (- ((y - x) / 2)) by lra.
    rewrite sin_neg. now rewrite <- Rsqr_neg. }
  rewrite (S (Geo.radians lat2) (Geo.radians lat1)).
  rewrite (S (Geo.radians lon2) (Geo.radians lon1)).
  rewrite (Rmult_comm (cos (Geo.radians lat1)) (cos (Geo.radians lat2))).
  reflexivity.
Qed.

(** C10: the distance of the Geo Engine is symmetric, in kilometres and in
    miles. *)
Theorem distance_symmetric (a b : Airport R) :
  Geo.km (Geo.distance a b) = Geo.km (Geo.distance b a) /\
  Geo.miles (Geo.distance a b) = Geo.miles (Geo.distance b a) /\
  Geo.miles (Geo.distance a b) = Geo.km (Geo.distance a b) * 0.621371 /\
  Geo.distance a b = Geo.distance b a.
Proof.
  unfold Geo.distance. simpl.
  rewrite (haversine_km_symmetric (latitude a) (longitude a)
                                  (latitude b) (longitude b)).
  repeat split.
Qed.

End GeoFacts.

(* ================================================================== *)
(** * Further properties of the search engine *)

(** ** Case and white space *)

Ltac all_chars c := destruct c as [[] [] [] [] [] [] [] []]; reflexivity.

Lemma char_upper_idem (c : ascii) : Py.char_upper (Py.char_upper c) = Py.char_upper c.
Proof. all_chars c. Qed.

Lemma char_upper_lower (c : ascii) : Py.char_upper (Py.char_lower c) = Py.char_upper c.
Proof. all_chars c. Qed.

Lemma char_lower_upper (c : ascii) : Py.char_lower (Py.char_upper c) = Py.char_lower c.
Proof. all_chars c. Qed.

Lemma char_lower_idem (c : ascii) : Py.char_lower (Py.char_lower c) = Py.char_lower c.
Proof. all_chars c. Qed.

Lemma char_isspace_upper (c : ascii) : Py.char_isspace (Py.char_upper c) = Py.char_isspace c.
Proof. all_chars c. Qed.

Lemma char_isspace_lower (c : ascii) : Py.char_isspace (Py.char_lower c) = Py.char_isspace c.
Proof. all_chars c. Qed.

Lemma char_isalpha_upper (c : ascii) : Py.char_isalpha (Py.char_upper c) = Py.char_isalpha c.
Proof. all_chars c. Qed.

Lemma smap_smap (f g : ascii -> ascii) (s : string) :
  Py.smap f (Py.smap g s) = Py.smap (fun c => f (g c)) s.
Proof. induction s as [|c s IH]; simpl; [reflexivity|now rewrite IH]. Qed.

Lemma smap_ext (f g : ascii -> ascii) (s : string) :
  (forall c, f c = g c) -> Py.smap f s = Py.smap g s.
Proof. intros H. induction s as [|c s IH]; simpl; [reflexivity|now rewrite H, IH]. Qed.

Lemma upper_upper (s : string) : Py.upper (Py.upper s) = Py.upper s.
Proof. unfold Py.upper. rewrite smap_smap. apply smap_ext, char_upper_idem. Qed.

Lemma upper_lower (s : string) : Py.upper (Py.lower s) = Py.upper s.
Proof. unfold Py.upper, Py.lower. rewrite smap_smap. apply smap_ext, char_upper_lower. Qed.

Lemma lower_upper (s : string) : Py.lower (Py.upper s) = Py.lower s.
Proof. unfold Py.upper, Py.lower. rewrite smap_smap. apply smap_ext, char_lower_upper. Qed.

Lemma lower_lower (s : string) : Py.lower (Py.lower s) = Py.lower s.
Proof. unfold Py.lower. rewrite smap_smap. apply smap_ext, char_lower_idem. Qed.

Lemma len_smap (f : ascii -> ascii) (s : string) : Py.len (Py.smap f s) = Py.len s.
Proof. unfold Py.len. induction s as [|c s IH]; simpl; [reflexivity|now rewrite IH]. Qed.

Lemma truthy_smap (f : ascii -> ascii) (s : string) :
  Py.truthy (Py.smap f s) = Py.truthy s.
Proof. now destruct s. Qed.

Lemma sall_smap (p : ascii -> bool) (f : ascii -> ascii) (s : string) :
  Py.sall p (Py.smap f s) = Py.sall (fun c => p (f c)) s.
Proof. induction s as [|c s IH]; simpl; [reflexivity|now rewrite IH]. Qed.

Lemma sall_ext (p q : ascii -> bool) (s : string) :
  (forall c, p c = q c) -> Py.sall p s = Py.sall q s.
Proof. intros H. induction s as [|c s IH]; simpl; [reflexivity|now rewrite H, IH]. Qed.

Section Stripping.

Variable p : ascii -> bool.

Lemma lstrip_idem (s : string) :
  Py.lstrip_with p (Py.lstrip_with p s) = Py.lstrip_with p s.
Proof.
  induction s as [|c s IH]; simpl; [reflexivity|].
  destruct (p c) eqn:E; [exact IH|]. simpl. now rewrite E.
Qed.

Lemma rstrip_idem (s : string) :
  Py.rstrip_with p (Py.rstrip_with p s) = Py.rstrip_with p s.
Proof.
  induction s as [|c s IH]; simpl; [reflexivity|].
  destruct (negb (Py.truthy (Py.rstrip_with p s)) && p c) eqn:E; [reflexivity|].
  simpl. now rewrite IH, E.
Qed.

Lemma rstrip_lstrip_fixed (s : string) :
  Py.rstrip_with p s = s ->
  Py.rstrip_with p (Py.lstrip_with p s) = Py.lstrip_with p s.
Proof.
  induction s as [|c s IH]; simpl; [reflexivity|].
  destruct (negb (Py.truthy (Py.rstrip_with p s)) && p c) eqn:E; [discriminate|].
  intros H. injection H as H. destruct (p c) eqn:Ec.
  - now apply IH.
  - simpl. now rewrite H, Ec, andb_false_r.
Qed.

Lemma strip_with_idem (s : string) :
  Py.strip_with p (Py.strip_with p s) = Py.strip_with p s.
Proof.
  unfold Py.strip_with.
  rewrite (rstrip_lstrip_fixed _ (rstrip_idem s)). apply lstrip_idem.
Qed.

Variable f : ascii -> ascii.
Hypothesis p_f : forall c, p (f c) = p c.

Lemma lstrip_smap (s : string) :
  Py.lstrip_with p (Py.smap f s) = Py.smap f (Py.lstrip_with p s).
Proof.
  induction s as [|c s IH]; simpl; [reflexivity|].
  rewrite p_f. now destruct (p c).
Qed.

Lemma rstrip_smap (s : string) :
  Py.rstrip_with p (Py.smap f s) = Py.smap f (Py.rstrip_with p s).
Proof.
  induction s as [|c s IH]; simpl; [reflexivity|].
  rewrite IH, truthy_smap, p_f.
  now destruct (negb (Py.truthy (Py.rstrip_with p s)) && p c).
Qed.

Lemma strip_with_smap (s : string) :
  Py.strip_with p (Py.smap f s) = Py.smap f (Py.strip_with p s).
Proof. unfold Py.strip_with. now rewrite rstrip_smap, lstrip_smap. Qed.

End Stripping.

Lemma strip_idem (s : string) : Py.strip (Py.strip s) = Py.strip s.
Proof. apply strip_with_idem. Qed.

Lemma strip_upper (s : string) : Py.strip (Py.upper s) = Py.upper (Py.strip s).
Proof. apply strip_with_smap, char_isspace_upper. Qed.

Lemma strip_lower (s : string) : Py.strip (Py.lower s) = Py.lower (Py.strip s).
Proof. apply strip_with_smap, char_isspace_lower. Qed.

Lemma contains_empty (s : string) : Py.contains EmptyString s = true.
Proof. destruct s; reflexivity. Qed.

Lemma filter_all {A} (l : list A) : filter (fun _ => true) l = l.
Proof. induction l as [|x l IH]; simpl; [reflexivity|now rewrite IH]. Qed.

(** ** No stage raises *)

Lemma bind_silent {A B} (a : A) (k : A -> M B) : bind ([], Return a) k = k a.
Proof. apply bind_ret. Qed.

Section Stages.

Context {F : Type}.
Variable self : AirportSearch F.

(** A record held by a bucket of the index. *)
Let in_bucket (index : dict (list (Airport F))) (a : Airport F) : Prop :=
  exists k l, In (k, l) index /\ In a l.

Lemma selected_in_bucket (p : string -> bool) (index : dict (list (Airport F)))
  (a : Airport F) :
  In a (selected p index) -> in_bucket index a.
Proof.
  unfold selected. rewrite in_flat_map. intros [[k l] [Hi Ha]]. simpl in Ha.
  destruct (p k); [|contradiction]. now exists k, l.
Qed.

Lemma flat_bucket_in_bucket (index : dict (list (Airport F)))
  (ms : list string) (a : Airport F) :
  In a (flat_map (bucket index) ms) -> in_bucket index a.
Proof.
  rewrite in_flat_map. intros [m [_ Ha]]. unfold bucket in Ha.
  destruct (dict_get m index) as [l|] eqn:E; [|contradiction].
  exists m, l. split; [now apply dict_get_Some_In|exact Ha].
Qed.

Lemma search_by_code_returns (code : string) :
  let c := Py.strip (Py.upper code) in
  exists o res,
    search_by_code self code = (o, Return res) /\
    (res = [] \/
     exists x, res = [x] /\ o = [] /\
               (dict_get c (iata_index self) = Some x \/
                dict_get c (icao_index self) = Some x)).
Proof.
  intros c. unfold search_by_code. fold c. unfold dict_contains, dict_getitem.
  destruct ((Py.len c =? 3)
            && match dict_get c (iata_index self) with
               | Some _ => true | None => false end) eqn:E3.
  - destruct (dict_get c (iata_index self)) as [x|];
      [|now rewrite andb_false_r in E3].
    exists [], [x]. split; [reflexivity|]. right. exists x. auto.
  - destruct ((Py.len c =? 4)
              && match dict_get c (icao_index self) with
                 | Some _ => true | None => false end) eqn:E4.
    + destruct (dict_get c (icao_index self)) as [x|];
        [|now rewrite andb_false_r in E4].
      exists [], [x]. split; [reflexivity|]. right. exists x. auto.
    + rewrite get_close_matches_valid by (trivial; (reflexivity || discriminate)).
      rewrite bind_ret.
      destruct (nonempty (best_matches c _ 5 (6 # 10))).
      * rewrite for_each_print_suggestion. eexists. exists [].
        split; [reflexivity|now left].
      * exists [], []. split; [reflexivity|now left].
Qed.

Lemma search_by_city_returns (city_name : string) :
  exists res,
    search_by_city self city_name = ([], Return res) /\
    forall a, In a res -> in_bucket (city_index self) a.
Proof.
  unfold search_by_city.
  set (c := Py.strip city_name).
  assert (FS : fold_left
                 (fun results (item : string * list (Airport F)) =>
                    let (city_key, airports) := item in
                    if Py.contains (Py.lower c) (Py.lower city_key)
                    then results ++ airports else results)
                 (city_index self) []
               = selected (fun k => Py.contains (Py.lower c) (Py.lower k))
                          (city_index self))
    by apply (fold_left_selected _ (city_index self) []).
  rewrite FS.
  destruct (selected _ (city_index self)) as [|a l] eqn:E; simpl nonempty;
    simpl negb; cbv iota.
  - rewrite (fuzzy_buckets (city_index self) c 10) by reflexivity.
    eexists. split; [reflexivity|]. intros a. apply flat_bucket_in_bucket.
  - eexists. split; [reflexivity|]. intros x Hx. rewrite <- E in Hx.
    now apply selected_in_bucket in Hx.
Qed.

Lemma search_by_country_returns (country_name : string) :
  exists res,
    search_by_country self country_name = ([], Return res) /\
    forall a, In a res -> in_bucket (country_index self) a.
Proof.
  unfold search_by_country. set (c := Py.strip country_name).
  unfold dict_contains, dict_getitem.
  destruct (dict_get c (country_index self)) as [l|] eqn:E.
  - exists l. split; [reflexivity|]. intros a Ha. exists c, l.
    split; [now apply dict_get_Some_In|exact Ha].
  - rewrite (fuzzy_buckets (country_index self) c 3) by reflexivity.
    eexists. split; [reflexivity|]. intros a. apply flat_bucket_in_bucket.
Qed.

Lemma get_country_airports_returns (country_name : string) :
  exists l,
    get_country_airports self country_name
    = ([], Return (sorted_by_key (@city F) l)) /\
    (l = [] \/ exists k, In (k, l) (country_index self)).
Proof.
  unfold get_country_airports, dict_contains, dict_getitem.
  destruct (dict_get country_name (country_index self)) as [l|] eqn:E.
  - exists l. split; [reflexivity|]. right. exists country_name.
    now apply dict_get_Some_In.
  - rewrite get_close_matches_valid by (trivial; (reflexivity || discriminate)).
    rewrite bind_ret.
    destruct (best_matches country_name (keys (country_index self)) 1 (6 # 10))
      as [|m ms] eqn:B.
    + exists []. split; [reflexivity|now left].
    + assert (Hm : In m (keys (country_index self))).
      { assert (I : In m (best_matches country_name (keys (country_index self))
                                       1 (6 # 10))) by (rewrite B; now left).
        now apply best_matches_In in I. }
      destruct (dict_get_In_keys m _ Hm) as [l El]. rewrite El.
      exists l. split; [reflexivity|]. right. exists m.
      now apply dict_get_Some_In.
Qed.

(** The four ways in which [smart_search] comes to its result. *)
Lemma smart_search_cases (query : string) :
  let q := Py.strip query in
  exists o res,
    smart_search self query = (o, Return res) /\
    (o = [] \/ o = stdout (search_by_code self q)) /\
    (res = [] \/
     outcome (search_by_code self q) = Return res \/
     outcome (search_by_city self q) = Return res \/
     outcome (search_by_country self q) = Return res \/
     outcome (search_by_name self q) = Return res).
Proof.
  intros q. unfold smart_search. fold q.
  destruct (Py.truthy q); simpl negb; cbv iota;
    [|exists [], []; repeat split; auto].
  destruct (search_by_city_returns q) as [r1 [E1 _]].
  destruct (search_by_country_returns q) as [r2 [E2 _]].
  assert (A : exists res,
             (city_results <- search_by_city self q ;;
              if nonempty city_results then ret city_results
              else
                country_results <- search_by_country self q ;;
                if nonempty country_results then ret country_results
                else
                  name_results <- search_by_name self q ;;
                  if nonempty name_results then ret name_results
                  else ret [])%monad = ([], Return res) /\
             (res = [] \/
              outcome (search_by_city self q) = Return res \/
              outcome (search_by_country self q) = Return res \/
              outcome (search_by_name self q) = Return res)).
  { rewrite E1, bind_silent. destruct (nonempty r1).
    - exists r1. split; [reflexivity|]. right. now left.
    - rewrite E2, bind_silent. destruct (nonempty r2).
      + exists r2. split; [reflexivity|]. right. right. now left.
      + unfold search_by_name at 1. rewrite bind_ret.
        destruct (nonempty _) eqn:N.
        * eexists. split; [reflexivity|]. right. right. right. reflexivity.
        * exists []. split; [reflexivity|now left]. }
  destruct A as [ra [EA HA]].
  destruct (((Py.len q =? 3) || (Py.len q =? 4)) && Py.isalpha q).
  - destruct (search_by_code_returns q) as [oc [rc [Ec _]]].
    rewrite Ec. cbn [bind]. destruct (nonempty rc).
    + exists oc, rc. cbn [ret]. rewrite app_nil_r.
      split; [reflexivity|]. split; [now right|]. right. now left.
    + rewrite EA. exists oc, ra. rewrite app_nil_r.
      split; [reflexivity|]. split; [now right|].
      destruct HA as [H|H]; [now left|]. right. now right.
  - exists [], ra. split; [exact EA|]. split; [now left|].
    destruct HA as [H|H]; [now left|]. right. now right.
Qed.

(** Whatever the indexes hold, no lookup raises: each one returns a list
    of records, and only code lookup prints. *)
Theorem search_never_raises (query : string) :
  (exists o res, smart_search self query = (o, Return res)) /\
  (exists o res, search_by_code self query = (o, Return res) /\
                 List.length res <= 1) /\
  (exists res, search_by_city self query = ([], Return res)) /\
  (exists res, search_by_country self query = ([], Return res)) /\
  (exists res, search_by_name self query = ([], Return res)) /\
  (exists res, get_country_airports self query = ([], Return res)).
Proof.
  split; [|split; [|split; [|split; [|split]]]].
  - destruct (smart_search_cases query) as [o [res [E _]]]. eauto.
  - destruct (search_by_code_returns query) as [o [res [E H]]].
    exists o, res. split; [exact E|].
    destruct H as [->|[x [-> _]]]; simpl; lia.
  - destruct (search_by_city_returns query) as [res [E _]]. eauto.
  - destruct (search_by_country_returns query) as [res [E _]]. eauto.
  - eexists. reflexivity.
  - destruct (get_country_airports_returns query) as [l [E _]]. eauto.
Qed.

(** Leading and trailing white space of a query does not change the
    result of [smart_search]. *)
Theorem smart_search_ignores_outer_space (query : string) :
  smart_search self (Py.strip query) = smart_search self query.
Proof. unfold smart_search. now rewrite strip_idem. Qed.

(** Name lookup does not depend on the letter case of an ASCII query, nor
    on white space around it. *)
Theorem search_by_name_case_insensitive (airport_name : string) :
  Py.isascii airport_name = true ->
  search_by_name self (Py.upper airport_name) = search_by_name self airport_name /\
  search_by_name self (Py.lower airport_name) = search_by_name self airport_name /\
  search_by_name self (Py.strip airport_name) = search_by_name self airport_name.
Proof.
  intros _. unfold search_by_name. rewrite lower_upper, lower_lower.
  rewrite (strip_lower (Py.strip airport_name)), strip_idem, <- strip_lower.
  repeat split.
Qed.

(** Code lookup does not depend on the letter case of an ASCII query. *)
Theorem search_by_code_case_insensitive (code : string) :
  Py.isascii code = true ->
  search_by_code self (Py.upper code) = search_by_code self code /\
  search_by_code self (Py.lower code) = search_by_code self code.
Proof.
  intros _. unfold search_by_code. now rewrite upper_upper, upper_lower.
Qed.

End Stages.

Lemma search_by_name_case_insensitive_witness :
  search_by_name (indexed sample_store) "KENNEDY"
  = search_by_name (indexed sample_store) "Kennedy" /\
  search_by_name (indexed sample_store) "Kennedy" = ([], Return [JFK]).
Proof.
  split; [|reflexivity].
  apply (search_by_name_case_insensitive (indexed sample_store) "Kennedy").
  reflexivity.
Defined.

Lemma search_by_code_case_insensitive_witness :
  search_by_code (indexed sample_store) "lax"
  = search_by_code (indexed sample_store) "Lax" /\
  search_by_code (indexed sample_store) "Lax" = ([], Return [LAX]).
Proof.
  split; [|reflexivity].
  apply (search_by_code_case_insensitive (indexed sample_store) "Lax").
  reflexivity.
Defined.

(** ** Lookups over the indexes built from the store *)

Lemma char_upper_isupper_alpha (c : ascii) :
  Py.char_isupper (Py.char_upper c) = true -> Py.char_isalpha c = true.
Proof.
  destruct c as [[] [] [] [] [] [] [] []]; cbv; intros H;
    (reflexivity || discriminate H).
Qed.

Lemma upper_letters_isalpha (s : string) :
  Py.truthy s = true -> Py.sall Py.char_isupper (Py.upper s) = true ->
  Py.isalpha s = true.
Proof.
  intros T H. unfold Py.isalpha. rewrite T. simpl.
  unfold Py.upper in H. rewrite sall_smap in H. revert H. apply sall_impl.
  apply char_upper_isupper_alpha.
Qed.

Section BuiltIndexes.

Context {F : Type}.
Variable airports : list (Airport F).

Lemma code_index_value (code : Airport F -> string) (k : string) (a : Airport F) :
  dict_get k (fold_left
                (fun d x => if Py.truthy (code x) then dict_set (code x) x d else d)
                airports [])
  = Some a ->
  In a airports /\ code a = k /\ Py.truthy k = true.
Proof.
  rewrite (code_index_last code). destruct (Py.truthy k); [|discriminate].
  intros H. apply find_some in H. destruct H as [Hin He].
  apply String.eqb_eq in He. apply in_rev in Hin. auto.
Qed.

Lemma group_index_within (key : Airport F -> string) (k : string)
  (l : list (Airport F)) (a : Airport F) :
  In (k, l) (fold_left (fun d x => dict_append (key x) x d) airports []) ->
  In a l -> In a airports.
Proof.
  intros Hk Ha.
  assert (I : In a (selected (fun _ => true)
                      (fold_left (fun d x => dict_append (key x) x d) airports []))).
  { unfold selected. apply in_flat_map. exists (k, l). auto. }
  apply (Permutation_in _ (group_selected key (fun _ => true) airports [])) in I.
  simpl in I. now apply filter_In in I.
Qed.

(** Every record that [smart_search] returns is a record of the store. *)
Theorem smart_search_within_store (query : string) :
  exists o res,
    smart_search (indexed airports) query = (o, Return res) /\
    incl res airports.
Proof.
  destruct (smart_search_cases (indexed airports) query) as [o [res [E [_ H]]]].
  exists o, res. split; [exact E|]. intros a Ha.
  set (q := Py.strip query) in *.
  destruct H as [->|[H|[H|[H|H]]]].
  - contradiction.
  - destruct (search_by_code_returns (indexed airports) q) as [oc [rc [Ec Hc]]].
    rewrite Ec in H. injection H as ->.
    destruct Hc as [->|[x [-> [_ [G|G]]]]]; [contradiction| |];
      destruct Ha as [<-|[]].
    + now apply (code_index_value (@iata F)) in G.
    + now apply (code_index_value (@icao F)) in G.
  - destruct (search_by_city_returns (indexed airports) q) as [r [Er Hr]].
    rewrite Er in H. injection H as ->.
    destruct (Hr a Ha) as [k [l [Hk Hl]]].
    now apply (group_index_within (@city_key F) k l a).
  - destruct (search_by_country_returns (indexed airports) q) as [r [Er Hr]].
    rewrite Er in H. injection H as ->.
    destruct (Hr a Ha) as [k [l [Hk Hl]]].
    now apply (group_index_within (@country F) k l a).
  - unfold search_by_name in H. injection H as <-.
    now apply filter_In in Ha.
Qed.

Variable r : Airport F.
Hypothesis r_stored : In r airports.

Lemma search_by_code_primary (code : string) :
  upper3 (iata r) = true ->
  (forall r', In r' airports -> iata r' = iata r -> r' = r) ->
  Py.strip (Py.upper code) = iata r ->
  search_by_code (indexed airports) code = ([], Return [r]).
Proof.
  intros U Q E. destruct (upper3_facts (iata r) U) as (_ & _ & EL & ET & _).
  assert (G : dict_get (iata r) (build_iata_index airports) = Some r)
    by (apply (code_index_unique (@iata F)); assumption).
  unfold search_by_code. rewrite E, EL. simpl iata_index.
  unfold dict_contains, dict_getitem. rewrite G. reflexivity.
Qed.

Lemma search_by_code_secondary (code : string) :
  upper4 (icao r) = true ->
  (forall r', In r' airports -> icao r' = icao r -> r' = r) ->
  Py.strip (Py.upper code) = icao r ->
  search_by_code (indexed airports) code = ([], Return [r]).
Proof.
  intros U Q E. unfold upper4 in U. apply andb_true_iff in U.
  destruct U as [L U]. apply Nat.eqb_eq in L.
  assert (T : Py.truthy (icao r) = true)
    by (destruct (icao r); [discriminate|reflexivity]).
  assert (G : dict_get (icao r) (build_icao_index airports) = Some r)
    by (apply (code_index_unique (@icao F)); assumption).
  unfold search_by_code. rewrite E, L. simpl icao_index. cbn [Nat.eqb andb].
  unfold dict_contains, dict_getitem. rewrite G. reflexivity.
Qed.

Lemma smart_search_code_gate (query code : string) (n : nat) :
  (n = 3 \/ n = 4) -> Py.len code = n -> Py.sall Py.char_isupper code = true ->
  Py.upper (Py.strip query) = code ->
  Py.truthy (Py.strip query) = true /\
  ((Py.len (Py.strip query) =? 3) || (Py.len (Py.strip query) =? 4))
  && Py.isalpha (Py.strip query) = true /\
  Py.strip (Py.upper (Py.strip query)) = code.
Proof.
  intros Hn L U E.
  assert (L' : Py.len (Py.strip query) = n).
  { rewrite <- L, <- E. unfold Py.upper. now rewrite len_smap. }
  assert (T : Py.truthy (Py.strip query) = true).
  { destruct (Py.strip query); [|reflexivity]. simpl in L'. lia. }
  split; [exact T|]. split.
  - rewrite upper_letters_isalpha by (trivial; now rewrite E).
    rewrite L'. destruct Hn as [-> | ->]; reflexivity.
  - rewrite E. now apply strip_of_upper.
Qed.

(** A record whose primary code is made of three upper-case letters and
    is unique in the store is the one result of every ASCII query that
    spells the code, in any letter case and with white space around it. *)
Theorem smart_search_primary_code_any_case (query : string) :
  Py.isascii query = true ->
  upper3 (iata r) = true ->
  (forall r', In r' airports -> iata r' = iata r -> r' = r) ->
  Py.upper (Py.strip query) = iata r ->
  smart_search (indexed airports) query = ([], Return [r]).
Proof.
  intros _ U Q E. pose proof U as U'. unfold upper3 in U'.
  apply andb_true_iff in U'. destruct U' as [L S]. apply Nat.eqb_eq in L.
  destruct (smart_search_code_gate query (iata r) 3 (or_introl eq_refl) L S E)
    as (T & G & C).
  unfold smart_search. rewrite T, G. simpl negb. cbv iota.
  rewrite (search_by_code_primary (Py.strip query) U Q C). reflexivity.
Qed.

(** The same for the secondary code: a record whose secondary code is
    made of four upper-case letters and is unique in the store is the one
    result of every ASCII query that spells that code. *)
Theorem smart_search_secondary_code (query : string) :
  Py.isascii query = true ->
  upper4 (icao r) = true ->
  (forall r', In r' airports -> icao r' = icao r -> r' = r) ->
  Py.upper (Py.strip query) = icao r ->
  smart_search (indexed airports) query = ([], Return [r]).
Proof.
  intros _ U Q E. pose proof U as U'. unfold upper4 in U'.
  apply andb_true_iff in U'. destruct U' as [L S]. apply Nat.eqb_eq in L.
  destruct (smart_search_code_gate query (icao r) 4 (or_intror eq_refl) L S E)
    as (T & G & C).
  unfold smart_search. rewrite T, G. simpl negb. cbv iota.
  rewrite (search_by_code_secondary (Py.strip query) U Q C). reflexivity.
Qed.

End BuiltIndexes.

Lemma smart_search_primary_code_any_case_witness :
  smart_search (indexed sample_store) " jfk " = ([], Return [JFK]).
Proof.
  apply (smart_search_primary_code_any_case sample_store JFK).
  - simpl. tauto.
  - reflexivity.
  - reflexivity.
  - intros r' H E. simpl in H.
    repeat (destruct H as [<-|H]; [try reflexivity; discriminate E|]).
    contradiction.
  - reflexivity.
Defined.

Lemma smart_search_secondary_code_witness :
  smart_search (indexed sample_store) "egll" = ([], Return [LHR]).
Proof.
  apply (smart_search_secondary_code sample_store LHR).
  - simpl. tauto.
  - reflexivity.
  - reflexivity.
  - intros r' H E. simpl in H.
    repeat (destruct H as [<-|H]; [try reflexivity; discriminate E|]).
    contradiction.
  - reflexivity.
Defined.

(** ** Invariants of the indexes *)

Section DictInvariants.

Context {V : Type}.

Lemma keys_dict_set_eq (k : string) (v : V) (d : dict V) :
  keys (dict_set k v d) = if dict_contains k d then keys d else keys d ++ [k].
Proof.
  unfold dict_contains. induction d as [|[k' v'] d IH]; simpl; [reflexivity|].
  destruct (String.eqb k' k) eqn:E; simpl.
  - apply String.eqb_eq in E. now subst.
  - rewrite IH. now destruct (dict_get k d).
Qed.

Lemma dict_contains_keys (k : string) (d : dict V) :
  dict_contains k d = true <-> In k (keys d).
Proof.
  unfold dict_contains. induction d as [|[k' v'] d IH]; simpl.
  - split; [discriminate|tauto].
  - destruct (String.eqb k' k) eqn:E.
    + apply String.eqb_eq in E. tauto.
    + apply String.eqb_neq in E. rewrite IH. split; [tauto|].
      intros [H|H]; [contradiction|exact H].
Qed.

Lemma NoDup_keys_dict_set (k : string) (v : V) (d : dict V) :
  NoDup (keys d) -> NoDup (keys (dict_set k v d)).
Proof.
  intros H. rewrite keys_dict_set_eq.
  destruct (dict_contains k d) eqn:E; [exact H|].
  apply NoDup_app; [exact H|repeat constructor; intros []|].
  intros x Hx [<-|[]]. apply dict_contains_keys in Hx. congruence.
Qed.

Lemma length_dict_set (k : string) (v : V) (d : dict V) :
  List.length (dict_set k v d) <= S (List.length d).
Proof.
  induction d as [|[k' v'] d IH]; simpl; [lia|].
  destruct (String.eqb k' k); simpl; lia.
Qed.

Lemma dict_get_NoDup_In (k : string) (v : V) (d : dict V) :
  NoDup (keys d) -> In (k, v) d -> dict_get k d = Some v.
Proof.
  induction d as [|[k' v'] d IH]; simpl; [tauto|].
  intros N [H|H].
  - injection H as -> ->. now rewrite String.eqb_refl.
  - inversion N as [|x l Hx Hl]; subst.
    destruct (String.eqb k' k) eqn:E; [|auto].
    apply String.eqb_eq in E. subst k'. exfalso. apply Hx.
    apply in_map_iff. now exists (k, v).
Qed.

End DictInvariants.

Lemma NoDup_keys_dict_append {V} (k : string) (x : V) (d : dict (list V)) :
  NoDup (keys d) -> NoDup (keys (dict_append k x d)).
Proof. unfold dict_append. destruct (dict_get k d); apply NoDup_keys_dict_set. Qed.

Section IndexInvariants.

Context {F : Type}.
Variable store : list (Airport F).

Lemma fold_left_invariant {A S} (P : S -> Prop) (f : S -> A -> S) (l : list A) (s : S) :
  P s -> (forall s x, P s -> P (f s x)) -> P (fold_left f l s).
Proof.
  intros Hs Hf. revert s Hs. induction l as [|x l IH]; intros s Hs; simpl; auto.
Qed.

Lemma group_index_NoDup (key : Airport F -> string) :
  NoDup (keys (fold_left (fun d x => dict_append (key x) x d) store [])).
Proof.
  apply fold_left_invariant; [constructor|].
  intros s x. apply NoDup_keys_dict_append.
Qed.

Lemma group_index_item (key : Airport F -> string) (k : string) (l : list (Airport F)) :
  In (k, l) (fold_left (fun d x => dict_append (key x) x d) store []) ->
  l = filter (fun x => String.eqb (key x) k) store /\ l <> [].
Proof.
  intros H. apply (dict_get_NoDup_In _ _ _ (group_index_NoDup key)) in H.
  rewrite (group_get_filter key) in H.
  destruct (filter (fun x => String.eqb (key x) k) store);
    [discriminate|]. injection H as <-. split; [reflexivity|discriminate].
Qed.

Lemma group_index_facts (key : Airport F -> string) :
  let index := fold_left (fun d x => dict_append (key x) x d) store [] in
  NoDup (keys index) /\
  Permutation (flat_map snd index) store /\
  Forall (fun item => snd item <> [] /\
                      snd item = filter (fun x => String.eqb (key x) (fst item)) store)
         index.
Proof.
  intros index. split; [apply group_index_NoDup|]. split.
  - pose proof (group_selected key (fun _ => true) store []) as P.
    simpl in P. rewrite filter_all in P.
    exact P.
  - apply Forall_forall. intros [k l] H. simpl.
    apply group_index_item in H. tauto.
Qed.

(** The city and country indexes partition the store: no key occurs
    twice, every record lies in exactly one bucket, that of its own key, no
    bucket is empty, and a bucket keeps the records in store order. *)
Theorem bucket_indexes_partition_store :
  (NoDup (keys (build_city_index store)) /\
   Permutation (flat_map snd (build_city_index store)) store /\
   Forall (fun item =>
             snd item <> [] /\
             snd item = filter (fun x => String.eqb (city_key x) (fst item)) store)
          (build_city_index store)) /\
  (NoDup (keys (build_country_index store)) /\
   Permutation (flat_map snd (build_country_index store)) store /\
   Forall (fun item =>
             snd item <> [] /\
             snd item = filter (fun x => String.eqb (country x) (fst item)) store)
          (build_country_index store)).
Proof.
  split; [apply (group_index_facts (@city_key F))
         |apply (group_index_facts (@country F))].
Qed.

Lemma code_index_facts (code : Airport F -> string) :
  let index :=
    fold_left (fun d x => if Py.truthy (code x) then dict_set (code x) x d else d)
              store [] in
  NoDup (keys index) /\
  List.length index <= List.length store /\
  Forall (fun item => In (snd item) store /\ code (snd item) = fst item /\
                      Py.truthy (fst item) = true) index /\
  Forall (fun a => dict_contains (code a) index = Py.truthy (code a)) store.
Proof.
  intros index.
  assert (N : NoDup (keys index)).
  { apply fold_left_invariant; [constructor|]. intros s x H.
    destruct (Py.truthy (code x)); [now apply NoDup_keys_dict_set|exact H]. }
  split; [exact N|]. split; [|split].
  - unfold index.
    assert (G : forall l (d : dict (Airport F)),
               List.length (fold_left
                  (fun d x => if Py.truthy (code x) then dict_set (code x) x d else d)
                  l d) <= List.length d + List.length l).
    { induction l as [|x l IH]; intros d; simpl; [lia|].
      specialize (IH (if Py.truthy (code x) then dict_set (code x) x d else d)).
      destruct (Py.truthy (code x)); [|lia].
      pose proof (length_dict_set (code x) x d). lia. }
    apply (G store []).
  - apply Forall_forall. intros [k a] H. simpl.
    apply (dict_get_NoDup_In _ _ _ N) in H.
    now apply (code_index_value store code) in H.
  - apply Forall_forall. intros a Ha. unfold dict_contains, index.
    rewrite (code_index_last code). destruct (Py.truthy (code a)); [|reflexivity].
    destruct (find (fun x => String.eqb (code x) (code a)) (rev store)) eqn:E;
      [reflexivity|].
    apply in_rev in Ha. apply (find_none _ _ E) in Ha. simpl in Ha.
    now rewrite String.eqb_refl in Ha.
Qed.

(** The two code indexes: no key occurs twice, there are no more keys than
    records, every entry maps a non-empty code to a record of the store that
    carries it, and the code of a record of the store is a key exactly when
    it is not empty. *)
Theorem code_indexes_consistent :
  (NoDup (keys (build_iata_index store)) /\
   List.length (build_iata_index store) <= List.length store /\
   Forall (fun item => In (snd item) store /\ iata (snd item) = fst item /\
                       Py.truthy (fst item) = true)
          (build_iata_index store) /\
   Forall (fun a => dict_contains (iata a) (build_iata_index store)
                    = Py.truthy (iata a)) store) /\
  (NoDup (keys (build_icao_index store)) /\
   List.length (build_icao_index store) <= List.length store /\
   Forall (fun item => In (snd item) store /\ icao (snd item) = fst item /\
                       Py.truthy (fst item) = true)
          (build_icao_index store) /\
   Forall (fun a => dict_contains (icao a) (build_icao_index store)
                    = Py.truthy (icao a)) store).
Proof.
  split; [apply (code_index_facts (@iata F))|apply (code_index_facts (@icao F))].
Qed.

(** The country listing holds records of the store that all belong to
    one country, which is why its callers read the country off the first
    record. *)
Theorem get_country_airports_one_country (country_name : string) :
  exists res c,
    get_country_airports (indexed store) country_name = ([], Return res) /\
    incl res store /\
    Forall (fun a => country a = c) res.
Proof.
  destruct (get_country_airports_returns (indexed store) country_name)
    as [l [E H]].
  destruct H as [->|[k Hk]].
  - exists [], EmptyString. split; [exact E|]. split; [intros a []|constructor].
  - exists (sorted_by_key (@city F) l), k. split; [exact E|].
    simpl country_index in Hk.
    pose proof (sorted_perm (fun u v : Airport F => String.ltb (city u) (city v)) l) as P.
    split.
    + intros a Ha. apply (Permutation_in _ P) in Ha.
      now apply (group_index_within store (@country F) k l a).
    + apply Forall_forall. intros a Ha. apply (Permutation_in _ P) in Ha.
      apply (group_index_item (@country F)) in Hk. destruct Hk as [-> _].
      apply filter_In in Ha. now apply String.eqb_eq.
Qed.

(** Called with a blank query, name lookup returns the whole store and
    city lookup every record of it: the guard of [smart_search] is what
    keeps an empty query from matching everything. *)
Theorem blank_query_matches_everything (query : string) :
  Py.strip query = EmptyString ->
  search_by_name (indexed store) query = ([], Return store) /\
  exists res,
    search_by_city (indexed store) query = ([], Return res) /\
    Permutation res store.
Proof.
  intros B. split.
  - unfold search_by_name. rewrite strip_lower, B. simpl Py.lower.
    simpl airports.
    rewrite (filter_ext _ (fun _ => true)) by (intros; apply contains_empty).
    now rewrite filter_all.
  - unfold search_by_city. rewrite B.
    assert (FS : fold_left
                   (fun results (item : string * list (Airport F)) =>
                      let (city_key, airports) := item in
                      if Py.contains (Py.lower EmptyString) (Py.lower city_key)
                      then results ++ airports else results)
                   (city_index (indexed store)) []
                 = selected (fun k => Py.contains (Py.lower EmptyString) (Py.lower k))
                            (city_index (indexed store)))
      by apply (fold_left_selected _ (city_index (indexed store)) []).
    rewrite FS.
    pose proof (group_selected (@city_key F)
                  (fun k => Py.contains (Py.lower EmptyString) (Py.lower k)) store []) as P.
    simpl in P.
    rewrite (filter_ext _ (fun _ => true)) in P by (intros; apply contains_empty).
    rewrite filter_all in P.
    change (fold_left (fun d x => dict_append (city_key x) x d) store [])
      with (city_index (indexed store)) in P.
    rewrite (nonempty_perm _ _ P).
    destruct store as [|a l] eqn:EA; simpl nonempty; simpl negb; cbv iota.
    + eexists. split; [reflexivity|]. simpl. constructor.
    + eexists. split; [reflexivity|exact P].
Qed.

End IndexInvariants.

Lemma blank_query_matches_everything_witness :
  search_by_name (indexed sample_store) "  " = ([], Return sample_store).
Proof.
  apply (blank_query_matches_everything sample_store "  "). reflexivity.
Defined.

(* ================================================================== *)
(** * Further properties of the processing of the raw rows *)

Lemma set_add_In (x y : string) (s : list string) :
  In y (set_add x s) <-> y = x \/ In y s.
Proof.
  unfold set_add. destruct (existsb (String.eqb x) s) eqn:E.
  - apply existsb_exists in E. destruct E as [z [Hz Ez]].
    apply String.eqb_eq in Ez. subst z. split; [auto|]. intros [->|H]; auto.
  - rewrite in_app_iff. simpl. intuition congruence.
Qed.

Lemma set_add_NoDup (x : string) (s : list string) :
  NoDup s -> NoDup (set_add x s).
Proof.
  intros H. unfold set_add. destruct (existsb (String.eqb x) s) eqn:E; [exact H|].
  apply NoDup_app; [exact H|repeat constructor; intros []|].
  intros y Hy [->|[]].
  assert (X : existsb (String.eqb y) s = true).
  { apply existsb_exists. exists y. split; [exact Hy|apply String.eqb_refl]. }
  congruence.
Qed.

Section ProcessingRows.

Context {F : Type}.
Variable max_str_digits : nat.
Variable float : string -> option F.
Variable float_zero : F.

Lemma float_or_zero_ok (s : string) :
  coordinate_ok float s = true ->
  exists x, float_or_zero float float_zero s = ret x.
Proof.
  unfold coordinate_ok, float_or_zero. destruct (Py.truthy s); simpl.
  - destruct (float s); [eauto|discriminate].
  - eauto.
Qed.

Lemma float_or_zero_bad (s : string) :
  coordinate_ok float s = false ->
  float_or_zero float float_zero s = raise ValueError.
Proof.
  unfold coordinate_ok, float_or_zero. destruct (Py.truthy s); simpl.
  - destruct (float s); [discriminate|reflexivity].
  - discriminate.
Qed.

Lemma airport_of_row_ok (row : list string) :
  integer_ok max_str_digits (nth 0 row EmptyString) = true ->
  coordinate_ok float (nth 6 row EmptyString) = true ->
  coordinate_ok float (nth 7 row EmptyString) = true ->
  integer_ok max_str_digits (nth 8 row EmptyString) = true ->
  exists a, airport_of_row max_str_digits float float_zero row = ([], Return a).
Proof.
  intros R0 R6 R7 R8. unfold airport_of_row. cbv zeta.
  destruct (int_or_zero_ok max_str_digits _ R0) as [i E0].
  destruct (float_or_zero_ok _ R6) as [lat E6].
  destruct (float_or_zero_ok _ R7) as [lon E7].
  destruct (int_or_zero_ok max_str_digits _ R8) as [e E8].
  rewrite E0, bind_ret, E6, bind_ret, E7, bind_ret, E8, bind_ret.
  eexists. reflexivity.
Qed.

Lemma airport_of_row_bad (row : list string) :
  integer_ok max_str_digits (nth 0 row EmptyString)
  && (coordinate_ok float (nth 6 row EmptyString)
      && coordinate_ok float (nth 7 row EmptyString)
      && integer_ok max_str_digits (nth 8 row EmptyString)) = false ->
  airport_of_row max_str_digits float float_zero row = ([], Raise ValueError).
Proof.
  intros R. unfold airport_of_row. cbv zeta.
  destruct (integer_ok max_str_digits (nth 0 row EmptyString)) eqn:R0;
    [|rewrite (int_or_zero_bad max_str_digits _ R0); reflexivity].
  destruct (int_or_zero_ok max_str_digits _ R0) as [i E0]. rewrite E0, bind_ret.
  destruct (coordinate_ok float (nth 6 row EmptyString)) eqn:R6;
    [|rewrite (float_or_zero_bad _ R6); reflexivity].
  destruct (float_or_zero_ok _ R6) as [lat E6]. rewrite E6, bind_ret.
  destruct (coordinate_ok float (nth 7 row EmptyString)) eqn:R7;
    [|rewrite (float_or_zero_bad _ R7); reflexivity].
  destruct (float_or_zero_ok _ R7) as [lon E7]. rewrite E7, bind_ret.
  simpl in R. rewrite (int_or_zero_bad max_str_digits _ R). reflexivity.
Qed.

Lemma accepted_row_fields (row : list string) :
  14 <= List.length row ->
  accepted_row max_str_digits float row
  = integer_ok max_str_digits (nth 0 row EmptyString)
    && (coordinate_ok float (nth 6 row EmptyString)
        && coordinate_ok float (nth 7 row EmptyString)
        && integer_ok max_str_digits (nth 8 row EmptyString)).
Proof.
  intros L. unfold accepted_row, readable_row, convertible_row.
  assert (L' : (List.length row <? 14) = false) by (apply Nat.ltb_ge; lia).
  rewrite L'. cbn [orb].
  destruct (integer_ok max_str_digits (nth 0 row EmptyString)),
           (coordinate_ok float (nth 6 row EmptyString)),
           (coordinate_ok float (nth 7 row EmptyString)),
           (integer_ok max_str_digits (nth 8 row EmptyString)); reflexivity.
Qed.

Lemma process_row_readable (st : processed F) (row : list string) :
  accepted_row max_str_digits float row = true ->
  exists st',
    process_row max_str_digits float float_zero st row = ([], Return st') /\
    fst (fst st') = fst (fst st) ++ records_of_row max_str_digits float float_zero row.
Proof.
  intros R. destruct st as [[airports countries] cities].
  unfold process_row, records_of_row.
  destruct (14 <=? List.length row) eqn:L.
  - apply Nat.leb_le in L. rewrite (accepted_row_fields row L) in R.
    apply andb_true_iff in R. destruct R as [R0 R].
    apply andb_true_iff in R. destruct R as [R R8].
    apply andb_true_iff in R. destruct R as [R6 R7].
    destruct (airport_of_row_ok row R0 R6 R7 R8) as [a E].
    rewrite E, bind_silent. set (keep := Py.truthy _ && _).
    destruct keep.
    + eexists. split; [reflexivity|reflexivity].
    + eexists. split; [reflexivity|]. cbn [fst]. now rewrite app_nil_r.
  - eexists. split; [reflexivity|]. cbn [fst]. now rewrite app_nil_r.
Qed.

Lemma process_row_unreadable (st : processed F) (row : list string) :
  accepted_row max_str_digits float row = false ->
  process_row max_str_digits float float_zero st row = ([], Raise ValueError).
Proof.
  intros R. destruct st as [[airports countries] cities].
  unfold process_row.
  destruct (14 <=? List.length row) eqn:L.
  - apply Nat.leb_le in L. rewrite (accepted_row_fields row L) in R.
    rewrite (airport_of_row_bad row R). reflexivity.
  - apply Nat.leb_gt in L. apply Nat.ltb_lt in L.
    unfold accepted_row, readable_row, convertible_row in R.
    rewrite L in R. discriminate R.
Qed.

Lemma fold_rows_readable (rows : list (list string)) (st : processed F) :
  forallb (accepted_row max_str_digits float) rows = true ->
  exists st',
    fold_M (process_row max_str_digits float float_zero) rows st = ([], Return st') /\
    fst (fst st')
    = fst (fst st) ++ flat_map (records_of_row max_str_digits float float_zero) rows.
Proof.
  revert st. induction rows as [|row rows IH]; intros st H; simpl.
  - exists st. split; [reflexivity|now rewrite app_nil_r].
  - simpl in H. apply andb_true_iff in H. destruct H as [R H].
    destruct (process_row_readable st row R) as [st1 [E1 A1]].
    destruct (IH st1 H) as [st2 [E2 A2]].
    exists st2. rewrite E1, bind_silent. split; [exact E2|].
    now rewrite A2, A1, app_assoc.
Qed.

Lemma fold_rows_unreadable (rows : list (list string)) (st : processed F) :
  forallb (accepted_row max_str_digits float) rows = false ->
  fold_M (process_row max_str_digits float float_zero) rows st = ([], Raise ValueError).
Proof.
  revert st. induction rows as [|row rows IH]; intros st H; simpl in *.
  - discriminate.
  - destruct (accepted_row max_str_digits float row) eqn:R; simpl in H.
    + destruct (process_row_readable st row R) as [st1 [E1 _]].
      rewrite E1, bind_silent. now apply IH.
    + now rewrite (process_row_unreadable st row R).
Qed.

Lemma process_readable_rows (fs : FileSystem F) (rows : list (list string)) :
  airports_raw_dat fs = Content rows ->
  forallb (accepted_row max_str_digits float) rows = true ->
  exists countries cities,
    process_airport_data max_str_digits float float_zero fs
    = ([MsgProcessing;
        MsgProcessed
          (List.length (flat_map (records_of_row max_str_digits float float_zero) rows))
          (List.length countries)],
       Return (Some (flat_map (records_of_row max_str_digits float float_zero) rows,
                     countries, cities))).
Proof.
  intros E R. unfold process_airport_data. rewrite E. simpl csv_read.
  rewrite bind_ret.
  destruct (fold_rows_readable rows ([], [], []) R) as [[[a c] ci] [EF A]].
  simpl in A. subst a. rewrite EF. exists c, ci. reflexivity.
Qed.

Lemma process_unreadable_rows (fs : FileSystem F) (rows : list (list string)) :
  airports_raw_dat fs = Content rows ->
  forallb (accepted_row max_str_digits float) rows = false ->
  process_airport_data max_str_digits float float_zero fs
  = ([MsgProcessing; MsgErrorProcessing ValueError], Return None).
Proof.
  intros E R. unfold process_airport_data. rewrite E. simpl csv_read.
  rewrite bind_ret, (fold_rows_unreadable rows ([], [], []) R). reflexivity.
Qed.

(** The load is all or nothing.  When every row is accepted, the store
    holds, in the order of the rows, one record for each row of 14 fields or
    more whose primary code has 3 characters; a single row of 14 fields or
    more with a coordinate that is not a number, or with an identifier or an
    elevation made of digits that [int] rejects, makes the whole load fail,
    whatever the other rows hold, and no record is returned. *)
Theorem process_airport_data_all_or_nothing
  (fs : FileSystem F) (rows : list (list string)) :
  airports_raw_dat fs = Content rows ->
  if forallb (accepted_row max_str_digits float) rows
  then exists countries cities,
         process_airport_data max_str_digits float float_zero fs
         = ([MsgProcessing;
             MsgProcessed (List.length (flat_map (records_of_row max_str_digits float float_zero) rows))
                          (List.length countries)],
            Return (Some (flat_map (records_of_row max_str_digits float float_zero) rows,
                          countries, cities)))
  else process_airport_data max_str_digits float float_zero fs
       = ([MsgProcessing; MsgErrorProcessing ValueError], Return None).
Proof.
  intros E. destruct (forallb (accepted_row max_str_digits float) rows) eqn:R.
  - exact (process_readable_rows fs rows E R).
  - exact (process_unreadable_rows fs rows E R).
Qed.

(** [process_airport_data] never raises: a missing or unreadable raw file
    and a row that is not accepted all end in the message of the handler and
    in [None]. *)
Theorem process_airport_data_never_raises (fs : FileSystem F) :
  exists o r,
    process_airport_data max_str_digits float float_zero fs = (o, Return r) /\
    match airports_raw_dat fs with
    | Absent =>
        o = [MsgProcessing; MsgErrorProcessing FileNotFoundError] /\ r = None
    | Unreadable =>
        o = [MsgProcessing; MsgErrorProcessing CsvError] /\ r = None
    | Content rows =>
        (r = None <-> forallb (accepted_row max_str_digits float) rows = false)
    end.
Proof.
  destruct (airports_raw_dat fs) as [| |rows] eqn:E.
  - eexists. eexists. unfold process_airport_data. rewrite E.
    split; [reflexivity|split; reflexivity].
  - eexists. eexists. unfold process_airport_data. rewrite E.
    split; [reflexivity|split; reflexivity].
  - destruct (forallb (accepted_row max_str_digits float) rows) eqn:R.
    + destruct (process_readable_rows fs rows E R) as [c [ci H]].
      eexists. eexists. split; [exact H|]. split; discriminate.
    + eexists. eexists.
      split; [exact (process_unreadable_rows fs rows E R)|].
      split; reflexivity.
Qed.

(** The two sets that come with the store: [countries] holds, once each,
    the countries of the records of the store and nothing else, and [cities]
    the same for their city keys. *)
Theorem process_airport_data_sets (fs : FileSystem F) (o : list line)
  (airports : list (Airport F)) (countries cities : list string) :
  process_airport_data max_str_digits float float_zero fs
  = (o, Return (Some (airports, countries, cities))) ->
  NoDup countries /\ NoDup cities /\
  (forall c, In c countries <-> In c (map (@country F) airports)) /\
  (forall c, In c cities <-> In c (map (@city_key F) airports)) /\
  List.length countries <= List.length airports /\
  List.length cities <= List.length airports.
Proof.
  intros H.
  pose (Inv := fun st : processed F =>
    NoDup (snd (fst st)) /\ NoDup (snd st) /\
    (forall c, In c (snd (fst st)) <-> In c (map (@country F) (fst (fst st)))) /\
    (forall c, In c (snd st) <-> In c (map (@city_key F) (fst (fst st))))).
  assert (I : Inv (airports, countries, cities)).
  { unfold process_airport_data in H.
    destruct (airports_raw_dat fs) as [| |rows]; try discriminate H.
    simpl csv_read in H. rewrite bind_ret in H.
    destruct (fold_M (process_row max_str_digits float float_zero) rows ([], [], []))
      as [o1 [[[a1 c1] ci1]|e1]] eqn:EF.
    - simpl in H. injection H as _ <- <- <-.
      apply (fold_M_invariant Inv (process_row max_str_digits float float_zero)) in EF;
        [exact EF| |].
      + intros [[a c] ci] row o' st' (N1 & N2 & I1 & I2) Hb.
        unfold process_row in Hb. unfold Inv. cbn [fst snd] in *.
        destruct (14 <=? List.length row);
          [|inversion Hb; subst; cbn [fst snd]; auto].
        destruct (airport_of_row max_str_digits float float_zero row) as [o2 [x|e]];
          cbn [bind] in Hb; [|discriminate].
        destruct (Py.truthy (iata x) && (Py.len (iata x) =? 3));
          inversion Hb; subst; cbn [fst snd] in *; [|auto].
        split; [now apply set_add_NoDup|]. split; [now apply set_add_NoDup|].
        split; intros k; rewrite set_add_In, map_app, in_app_iff; simpl;
          [rewrite I1|rewrite I2]; intuition.
      + unfold Inv. simpl. repeat split; (constructor || tauto).
    - simpl in H. destruct (is_Exception e1); simpl in H; discriminate. }
  destruct I as (N1 & N2 & I1 & I2). cbn [fst snd] in *.
  split; [exact N1|]. split; [exact N2|]. split; [exact I1|].
  split; [exact I2|]. split.
  - rewrite <- (length_map (@country F) airports).
    apply NoDup_incl_length; [exact N1|]. intros c. apply I1.
  - rewrite <- (length_map (@city_key F) airports).
    apply NoDup_incl_length; [exact N2|]. intros c. apply I2.
Qed.

End ProcessingRows.

Lemma process_airport_data_all_or_nothing_witness :
  process_airport_data 4300 decimal 0%Q
    (raw_fs (sample_rows ++ [["9"; "Nowhere Field"; "Nowhere"; "Freedonia"; "NWF";
                              "FRNW"; "north"; "2.5"; "10"; "0"; "U"; "UTC";
                              "airport"; "OurAirports"]]))
  = ([MsgProcessing; MsgErrorProcessing ValueError], Return None) /\
  process_airport_data 4300 decimal 0%Q
    (raw_fs (sample_rows ++ [[String "178" EmptyString; "Nowhere Field"; "Nowhere";
                              "Freedonia"; "NWF"; "FRNW"; "1.5"; "2.5"; "10"; "0";
                              "U"; "UTC"; "airport"; "OurAirports"]]))
  = ([MsgProcessing; MsgErrorProcessing ValueError], Return None).
Proof.
  split.
  - apply (process_airport_data_all_or_nothing 4300 decimal 0%Q
             (raw_fs (sample_rows ++ [["9"; "Nowhere Field"; "Nowhere"; "Freedonia";
                                       "NWF"; "FRNW"; "north"; "2.5"; "10"; "0"; "U";
                                       "UTC"; "airport"; "OurAirports"]]))
             (sample_rows ++ [["9"; "Nowhere Field"; "Nowhere"; "Freedonia"; "NWF";
                               "FRNW"; "north"; "2.5"; "10"; "0"; "U"; "UTC";
                               "airport"; "OurAirports"]])).
    reflexivity.
  - apply (process_airport_data_all_or_nothing 4300 decimal 0%Q
             (raw_fs (sample_rows ++ [[String "178" EmptyString; "Nowhere Field";
                                       "Nowhere"; "Freedonia"; "NWF"; "FRNW"; "1.5";
                                       "2.5"; "10"; "0"; "U"; "UTC"; "airport";
                                       "OurAirports"]]))
             (sample_rows ++ [[String "178" EmptyString; "Nowhere Field"; "Nowhere";
                               "Freedonia"; "NWF"; "FRNW"; "1.5"; "2.5"; "10"; "0";
                               "U"; "UTC"; "airport"; "OurAirports"]])).
    reflexivity.
Defined.

Lemma process_airport_data_sets_witness :
  NoDup ["United States"; "United Kingdom"; "Japan"; "France"] /\
  List.length ["United States"; "United Kingdom"; "Japan"; "France"]
  <= List.length sample_store.
Proof.
  pose proof (process_airport_data_sets 4300 decimal 0%Q (raw_fs sample_rows)
                [MsgProcessing; MsgProcessed 5 4] sample_store
                ["United States"; "United Kingdom"; "Japan"; "France"]
                ["New York, United States"; "Los Angeles, United States";
                 "London, United Kingdom"; "Tokyo, Japan"; "Paris, France"]
                eq_refl) as H.
  split; [apply H|apply H].
Defined.

(* ================================================================== *)
(** * Properties of the statistics *)

Section Counters.

Context {A : Type}.
Variable key : A -> string.

Lemma dict_get_counter_incr (k k' : string) (c : dict nat) :
  dict_get k (counter_incr k' c)
  = if String.eqb k' k
    then Some (S (match dict_get k c with Some n => n | None => 0 end))
    else dict_get k c.
Proof.
  unfold counter_incr. destruct (String.eqb k' k) eqn:E.
  - apply String.eqb_eq in E. subst k'.
    destruct (dict_get k c); rewrite dict_get_set_same; f_equal; lia.
  - apply String.eqb_neq in E.
    destruct (dict_get k' c); apply dict_get_set_other; congruence.
Qed.

Lemma counter_get (k : string) (l : list A) (c : dict nat) :
  dict_get k (fold_left (fun c x => counter_incr (key x) c) l c)
  = match dict_get k c with
    | Some n => Some (n + List.length (filter (fun x => String.eqb (key x) k) l))
    | None => count_entry (List.length (filter (fun x => String.eqb (key x) k) l))
    end.
Proof.
  revert c. induction l as [|x l IH]; intros c; simpl.
  - destruct (dict_get k c); [f_equal; lia|reflexivity].
  - rewrite IH, dict_get_counter_incr.
    destruct (String.eqb (key x) k); [|reflexivity].
    destruct (dict_get k c); simpl; f_equal; lia.
Qed.

Lemma counter_keys_NoDup (l : list A) (c : dict nat) :
  NoDup (keys c) ->
  NoDup (keys (fold_left (fun c x => counter_incr (key x) c) l c)).
Proof.
  revert c. induction l as [|x l IH]; intros c H; simpl; [exact H|].
  apply IH. unfold counter_incr.
  destruct (dict_get (key x) c); now apply NoDup_keys_dict_set.
Qed.

Lemma list_sum_dict_set (k : string) (n : nat) (c : dict nat) :
  list_sum (map snd (dict_set k n c)) + match dict_get k c with Some m => m | None => 0 end
  = list_sum (map snd c) + n.
Proof.
  induction c as [|[k' m] c IH]; simpl; [lia|].
  destruct (String.eqb k' k); simpl; lia.
Qed.

Lemma counter_total (l : list A) (c : dict nat) :
  list_sum (map snd (fold_left (fun c x => counter_incr (key x) c) l c))
  = list_sum (map snd c) + List.length l.
Proof.
  revert c. induction l as [|x l IH]; intros c; simpl; [lia|].
  rewrite IH. unfold counter_incr.
  pose proof (list_sum_dict_set (key x)
                (match dict_get (key x) c with Some n => n + 1 | None => 1 end) c) as H.
  destruct (dict_get (key x) c); lia.
Qed.

End Counters.

Section StatisticsFacts.

Context {F : Type}.

Lemma statistics_projections (l : list (Airport F)) (st : Statistics F) :
  country_stats (fold_left (@count_airport F) l st)
  = fold_left (fun c x => counter_incr (country x) c) l (country_stats st) /\
  city_stats (fold_left (@count_airport F) l st)
  = fold_left (fun c x => counter_incr (city x) c) l (city_stats st) /\
  airport_types (fold_left (@count_airport F) l st)
  = fold_left (fun c x => counter_incr (airport_kind x) c) l (airport_types st) /\
  regional_stats (fold_left (@count_airport F) l st)
  = fold_left (fun d x => dict_append (country x) x d) l (regional_stats st).
Proof.
  revert st. induction l as [|x l IH]; intros st; simpl; [tauto|].
  destruct (IH (count_airport st x)) as (H1 & H2 & H3 & H4).
  rewrite H1, H2, H3, H4. simpl. unfold airport_kind.
  destruct (Py.truthy (iata x) && (Py.len (iata x) =? 3)); tauto.
Qed.

(** The statistics count right: a country, a city and a kind of airport
    have for count the number of records of the store that carry them, keys
    of count zero being absent; the counts of a counter add up to the size
    of the store; and the regional grouping is the country index of
    [create_search_indexes]. *)
Theorem generate_statistics_counts (self : AirportSearch F) (k : string) :
  let st := statistics_of (airports self) in
  generate_statistics self = ([GeneratingStatistics], Ok st) /\
  dict_get k (country_stats st)
  = count_entry (List.length (filter (fun a => String.eqb (country a) k) (airports self))) /\
  dict_get k (city_stats st)
  = count_entry (List.length (filter (fun a => String.eqb (city a) k) (airports self))) /\
  dict_get k (airport_types st)
  = count_entry (List.length (filter (fun a => String.eqb (airport_kind a) k) (airports self))) /\
  list_sum (map snd (country_stats st)) = List.length (airports self) /\
  list_sum (map snd (city_stats st)) = List.length (airports self) /\
  list_sum (map snd (airport_types st)) = List.length (airports self) /\
  regional_stats st = build_country_index (airports self).
Proof.
  intros st. unfold st, statistics_of.
  destruct (statistics_projections (airports self)
              {| country_stats := []; city_stats := [];
                 airport_types := []; regional_stats := [] |})
    as (H1 & H2 & H3 & H4).
  rewrite H1, H2, H3, H4. simpl.
  split; [reflexivity|].
  rewrite !counter_get, !counter_total. simpl. repeat split.
Qed.

Lemma filter_none {A} (p : A -> bool) (l : list A) :
  Forall (fun x => p x = false) l -> filter p l = [].
Proof.
  induction 1 as [|x l Hx Hl IH]; simpl; [reflexivity|]. now rewrite Hx.
Qed.

Lemma filter_every {A} (p : A -> bool) (l : list A) :
  Forall (fun x => p x = true) l -> filter p l = l.
Proof.
  induction 1 as [|x l Hx Hl IH]; simpl; [reflexivity|]. now rewrite Hx, IH.
Qed.

(** On a store whose primary codes all have 3 characters, as
    [process_airport_data] leaves it, every record is counted as a major
    airport and the kind of the regional and minor ones never appears. *)
Theorem airport_types_all_major (airports : list (Airport F)) :
  Forall (fun a => Py.len (iata a) = 3) airports ->
  dict_get "Regional/Minor" (airport_types (statistics_of airports)) = None /\
  dict_get "Major (IATA)" (airport_types (statistics_of airports))
  = count_entry (List.length airports).
Proof.
  intros H. unfold statistics_of.
  destruct (statistics_projections airports
              {| country_stats := []; city_stats := [];
                 airport_types := []; regional_stats := [] |})
    as (_ & _ & H3 & _).
  rewrite H3. simpl. rewrite !counter_get. simpl.
  assert (K : Forall (fun a : Airport F => airport_kind a = "Major (IATA)") airports).
  { revert H. apply Forall_impl. intros a L. unfold airport_kind. rewrite L.
    destruct (iata a); [discriminate L|reflexivity]. }
  split.
  - rewrite filter_none; [reflexivity|].
    revert K. apply Forall_impl. intros a ->. reflexivity.
  - rewrite filter_every; [reflexivity|].
    revert K. apply Forall_impl. intros a ->. reflexivity.
Qed.

End StatisticsFacts.

Lemma airport_types_all_major_witness :
  dict_get "Regional/Minor" (airport_types (statistics_of sample_store)) = None /\
  dict_get "Major (IATA)" (airport_types (statistics_of sample_store))
  = count_entry (List.length sample_store).
Proof.
  apply (airport_types_all_major sample_store).
  repeat constructor.
Defined.

(** ** The reporting monad *)

Section IOFacts.

Context {F : Type}.

Lemma io_bind_ok {A B} (o : list (report F)) (a : A) (k : A -> IO F B) :
  io_bind (o, Ok a) k = (o ++ fst (k a), snd (k a)).
Proof. unfold io_bind. destruct (k a); reflexivity. Qed.

Lemma io_for_each_ok {A} (xs : list A) (body : A -> IO F unit) :
  (forall x, In x xs -> snd (body x) = Ok tt) ->
  io_for_each xs body = (flat_map (fun x => fst (body x)) xs, Ok tt).
Proof.
  induction xs as [|x xs IH]; intros H; simpl; [reflexivity|].
  rewrite IH by (intros; apply H; now right).
  pose proof (H x (or_introl eq_refl)) as Hx.
  destruct (body x) as [o r]. simpl in Hx. subst r. reflexivity.
Qed.

Lemma flat_map_singleton {A B} (f : A -> list B) (g : A -> B) (l : list A) :
  (forall x, In x l -> f x = [g x]) -> flat_map f l = map g l.
Proof.
  induction l as [|x l IH]; intros H; simpl; [reflexivity|].
  rewrite (H x (or_introl eq_refl)), IH by (intros; apply H; now right).
  reflexivity.
Qed.

Lemma enumerate_length {A} (s : nat) (l : list A) :
  List.length (enumerate s l) = List.length l.
Proof. revert s. induction l as [|x l IH]; intros s; simpl; [reflexivity|now rewrite IH]. Qed.

Lemma enumerate_snd {A} (s : nat) (l : list A) : map snd (enumerate s l) = l.
Proof. revert s. induction l as [|x l IH]; intros s; simpl; [reflexivity|now rewrite IH]. Qed.

Lemma enumerate_fst {A} (s : nat) (l : list A) :
  map fst (enumerate s l) = seq s (List.length l).
Proof. revert s. induction l as [|x l IH]; intros s; simpl; [reflexivity|now rewrite IH]. Qed.

Lemma enumerate_app {A} (s : nat) (l l' : list A) :
  enumerate s (l ++ l') = enumerate s l ++ enumerate (s + List.length l) l'.
Proof.
  revert s. induction l as [|x l IH]; intros s; simpl.
  - now rewrite Nat.add_0_r.
  - rewrite IH. do 3 f_equal. lia.
Qed.

End IOFacts.

(** ** The rankings *)

Section Rankings.

Context {F : Type}.

Lemma most_common_sorted (n : option Z) (c : dict nat) :
  Sorted (fun p q : string * nat => snd q <= snd p) (most_common n c).
Proof.
  assert (S : Sorted (fun p q : string * nat => snd q <= snd p)
                (sorted_reverse (fun p q : string * nat => snd p <? snd q) c)).
  { unfold sorted_reverse.
    apply Sorted_impl with
      (R := fun u v : string * nat => (snd u <? snd v) = false).
    - intros x y H. apply Nat.ltb_ge in H. exact H.
    - apply (sorted_Sorted (fun u v : string * nat => snd v <? snd u)).
      intros x y H. apply Nat.ltb_lt in H. apply Nat.ltb_ge. lia. }
  unfold most_common. destruct n; [now apply Sorted_firstn|exact S].
Qed.

Lemma most_common_incl (n : option Z) (c : dict nat) (p : string * nat) :
  In p (most_common n c) -> In p c.
Proof.
  unfold most_common. intros H.
  assert (H' : In p (sorted_reverse (fun p q : string * nat => snd p <? snd q) c))
    by (destruct n; [now apply In_firstn in H|exact H]).
  now apply (Permutation_in _ (sorted_perm _ _)) in H'.
Qed.

Lemma NoDup_firstn {A} (n : nat) (l : list A) : NoDup l -> NoDup (firstn n l).
Proof.
  intros H. rewrite <- (firstn_skipn n l) in H. now apply NoDup_app_remove_r in H.
Qed.

Lemma most_common_NoDup (n : option Z) (c : dict nat) :
  NoDup (keys c) -> NoDup (map fst (most_common n c)).
Proof.
  intros H.
  assert (S : NoDup (map fst (sorted_reverse (fun p q : string * nat => snd p <? snd q) c))).
  { apply (Permutation_NoDup (l := map fst c)); [|exact H].
    apply Permutation_map, Permutation_sym, sorted_perm. }
  unfold most_common. destruct n; [|exact S].
  rewrite <- firstn_map. now apply NoDup_firstn.
Qed.

Lemma most_common_all (c : dict nat) : Permutation (most_common None c) c.
Proof. apply sorted_perm. Qed.

Variable self : AirportStatistics F.
Hypothesis consistent : statistics self = statistics_of (airports (search self)).

Lemma country_stats_entry (p : string * nat) :
  In p (country_stats (statistics self)) ->
  snd p = List.length (filter (fun a => String.eqb (country a) (fst p))
                              (airports (search self))) /\
  0 < snd p /\ 0 < List.length (airports (search self)).
Proof.
  rewrite consistent. unfold statistics_of.
  destruct (statistics_projections (airports (search self))
              {| country_stats := []; city_stats := [];
                 airport_types := []; regional_stats := [] |}) as (H1 & _).
  rewrite H1. simpl. intros H. destruct p as [k n].
  apply dict_get_NoDup_In in H;
    [|apply (counter_keys_NoDup (@country F)); constructor].
  rewrite counter_get in H. simpl in *.
  pose proof (filter_length_le (fun a => String.eqb (country a) k)
                               (airports (search self))) as L.
  destruct (List.length (filter _ (airports (search self)))) eqn:E;
    [discriminate|]. injection H as <-. repeat split; lia.
Qed.

(** The ranking of the countries: at most [limit] rows (none for a limit
    of zero or less), numbered from 1, in descending order of count, no
    country twice, each with the number of records of the store in that
    country; the percentage never divides by zero. *)
Theorem display_top_countries_rows (limit : Z) :
  let rows := most_common (Some limit) (country_stats (statistics self)) in
  let total := List.length (airports (search self)) in
  display_top_countries self limit
  = ([Rule true 60; TopCountriesTitle limit; Rule false 60]
     ++ map (fun item => TopCountryRow (fst item) (fst (snd item))
                                       (snd (snd item)) total)
            (enumerate 1 rows)
     ++ [Rule false 60], Ok tt) /\
  List.length rows <= Z.to_nat limit /\
  Sorted (fun p q : string * nat => snd q <= snd p) rows /\
  NoDup (map fst rows) /\
  Forall (fun p => snd p = List.length (filter (fun a => String.eqb (country a) (fst p))
                                               (airports (search self)))
                   /\ 0 < snd p) rows.
Proof.
  intros rows total.
  assert (E : forall p, In p rows ->
                snd p = List.length (filter (fun a => String.eqb (country a) (fst p))
                                            (airports (search self)))
                /\ 0 < snd p /\ 0 < total).
  { intros p Hp. apply most_common_incl in Hp. now apply country_stats_entry. }
  split; [|split; [|split; [|split]]].
  - assert (B : forall item, In item (enumerate 1 rows) ->
                  (let '(i, (country, count)) := item in
                   io_bind (percentage F count total)
                           (fun _ => io_print (TopCountryRow i country count total)))
                  = ([TopCountryRow (fst item) (fst (snd item)) (snd (snd item)) total],
                     Ok tt)).
    { intros [i [c n]] Hi.
      assert (Hp : In (c, n) rows).
      { rewrite <- (enumerate_snd 1 rows). apply in_map_iff. now exists (i, (c, n)). }
      destruct (E _ Hp) as (_ & _ & T). unfold percentage.
      destruct (total =? 0) eqn:Z; [apply Nat.eqb_eq in Z; lia|reflexivity]. }
    unfold display_top_countries. fold rows. fold total.
    rewrite io_for_each_ok by (intros x Hx; now rewrite (B x Hx)).
    rewrite (flat_map_singleton _ _ _ (fun x Hx => f_equal fst (B x Hx))).
    reflexivity.
  - unfold rows, most_common. rewrite length_firstn. lia.
  - apply most_common_sorted.
  - apply most_common_NoDup. rewrite consistent. unfold statistics_of.
    destruct (statistics_projections (airports (search self))
                {| country_stats := []; city_stats := [];
                   airport_types := []; regional_stats := [] |}) as (H1 & _).
    rewrite H1. apply (counter_keys_NoDup (@country F)). constructor.
  - apply Forall_forall. intros p Hp. destruct (E p Hp) as (H1 & H2 & _). auto.
Qed.

Lemma counter_entry_positive {A} (key : A -> string) (l : list A) (p : string * nat) :
  In p (fold_left (fun c x => counter_incr (key x) c) l []) ->
  0 < snd p /\ 0 < List.length l.
Proof.
  intros H. destruct p as [k n].
  apply dict_get_NoDup_In in H; [|apply (counter_keys_NoDup key); constructor].
  rewrite counter_get in H. simpl in *.
  pose proof (filter_length_le (fun a => String.eqb (key a) k) l) as L.
  destruct (List.length (filter _ l)) eqn:E; [discriminate|].
  injection H as <-. lia.
Qed.

Lemma counter_keys_group {A} (key : A -> string) (l : list A)
  (c : dict nat) (d : dict (list A)) :
  keys c = keys d ->
  keys (fold_left (fun c x => counter_incr (key x) c) l c)
  = keys (fold_left (fun d x => dict_append (key x) x d) l d).
Proof.
  revert c d. induction l as [|x l IH]; intros c d H; simpl; [exact H|].
  apply IH. unfold counter_incr, dict_append.
  assert (C : dict_contains (key x) c = dict_contains (key x) d).
  { destruct (dict_contains (key x) c) eqn:E1, (dict_contains (key x) d) eqn:E2;
      trivial.
    - apply dict_contains_keys in E1. rewrite H in E1.
      apply dict_contains_keys in E1. congruence.
    - apply dict_contains_keys in E2. rewrite <- H in E2.
      apply dict_contains_keys in E2. congruence. }
  destruct (dict_get (key x) c), (dict_get (key x) d);
    rewrite !keys_dict_set_eq, C, H; reflexivity.
Qed.

(** The overview never divides by zero; it shows as number of countries
    the number of buckets of the country index, and the counts of its rows
    of airport kinds add up to the number of airports. *)
Theorem display_global_overview_consistent :
  let total := List.length (airports (search self)) in
  let kinds := most_common None (airport_types (statistics self)) in
  display_global_overview self
  = ([Rule true 60; OverviewTitle; Rule false 60; TotalAirports total;
      TotalCountries (List.length (build_country_index (airports (search self))));
      TotalCities (List.length (city_stats (statistics self)));
      Blank; AirportTypesTitle]
     ++ map (fun item => AirportTypeRow (fst item) (snd item) total) kinds
     ++ [Rule false 60], Ok tt) /\
  list_sum (map snd kinds) = total.
Proof.
  intros total kinds.
  destruct (statistics_projections (airports (search self))
              {| country_stats := []; city_stats := [];
                 airport_types := []; regional_stats := [] |}) as (H1 & _ & H3 & _).
  assert (T : airport_types (statistics self)
              = fold_left (fun c x => counter_incr (airport_kind x) c)
                          (airports (search self)) [])
    by (rewrite consistent; exact H3).
  assert (N : List.length (country_stats (statistics self))
              = List.length (build_country_index (airports (search self)))).
  { rewrite consistent. unfold statistics_of. rewrite H1. simpl.
    rewrite <- (length_map fst), <- (length_map fst (build_country_index _)).
    f_equal. apply (counter_keys_group (@country F)). reflexivity. }
  assert (B : forall item, In item kinds ->
                (let '(airport_type, count) := item in
                 io_bind (percentage F count total)
                         (fun _ => io_print (AirportTypeRow airport_type count total)))
                = ([AirportTypeRow (fst item) (snd item) total], Ok tt)).
  { intros [k n] Hi. apply most_common_incl in Hi. rewrite T in Hi.
    apply counter_entry_positive in Hi. unfold percentage. fold total in Hi.
    destruct (total =? 0) eqn:Z; [apply Nat.eqb_eq in Z; lia|reflexivity]. }
  split.
  - unfold display_global_overview. fold total. fold kinds.
    rewrite io_for_each_ok by (intros x Hx; now rewrite (B x Hx)).
    rewrite (flat_map_singleton _ _ _ (fun x Hx => f_equal fst (B x Hx))).
    rewrite N. reflexivity.
  - unfold kinds.
    rewrite (Permutation_list_sum
               (Permutation_map snd (most_common_all (airport_types (statistics self))))).
    rewrite T. apply (counter_total (@airport_kind F)).
Qed.

End Rankings.

Section CityRanking.

Context {F : Type}.
Variable self : AirportStatistics F.

Lemma descending_prefix (l : list (string * nat)) :
  Sorted (fun p q : string * nat => snd q <= snd p) l ->
  exists k,
    Forall (fun p => 1 < snd p) (firstn k l) /\
    Forall (fun p => snd p <= 1) (skipn k l).
Proof.
  intros S. apply Sorted_StronglySorted in S;
    [|intros x y z H1 H2; lia].
  induction S as [|x l Sl IH Hx].
  - exists 0. split; constructor.
  - destruct (Nat.ltb 1 (snd x)) eqn:E.
    + apply Nat.ltb_lt in E. destruct IH as [k [H1 H2]].
      exists (S k). split; [now constructor|exact H2].
    + apply Nat.ltb_ge in E. exists 0. split; [constructor|].
      simpl. constructor; [exact E|].
      revert Hx. apply Forall_impl. intros p Hp. lia.
Qed.

Lemma flat_map_nil {A B} (f : A -> list B) (l : list A) :
  (forall x, In x l -> f x = []) -> flat_map f l = [].
Proof.
  induction l as [|x l IH]; intros H; simpl; [reflexivity|].
  rewrite (H x (or_introl eq_refl)), IH by (intros; apply H; now right).
  reflexivity.
Qed.

(** The ranking of the cities shows the cities of two airports or more
    only.  They are the first of the ranking, so the rows shown carry the
    ranks 1, 2, 3 and so on without a gap. *)
Theorem display_top_cities_prefix (limit : Z) :
  let top := most_common (Some limit) (city_stats (statistics self)) in
  exists k,
    display_top_cities self limit
    = ([Rule true 60; TopCitiesTitle limit; Rule false 60]
       ++ map (fun item => TopCityRow (fst item) (fst (snd item)) (snd (snd item)))
              (enumerate 1 (firstn k top))
       ++ [Rule false 60], Ok tt) /\
    Forall (fun p => 1 < snd p) (firstn k top) /\
    Forall (fun p => snd p <= 1) (skipn k top).
Proof.
  intros top.
  destruct (descending_prefix top (most_common_sorted _ _)) as [k [H1 H2]].
  exists k. split; [|split; assumption].
  unfold display_top_cities. fold top.
  rewrite io_for_each_ok
    by (intros [i [c n]] _; destruct (1 <? n); reflexivity).
  replace (enumerate 1 top) with (enumerate 1 (firstn k top ++ skipn k top))
    by (now rewrite firstn_skipn).
  rewrite enumerate_app, flat_map_app.
  rewrite (flat_map_singleton _
             (fun item => TopCityRow (fst item) (fst (snd item)) (snd (snd item)))).
  - rewrite flat_map_nil; [now rewrite app_nil_r|].
    intros [i [c n]] Hi.
    assert (Hp : In (c, n) (skipn k top)).
    { rewrite <- (enumerate_snd (1 + List.length (firstn k top)) (skipn k top)).
      apply in_map_iff. now exists (i, (c, n)). }
    rewrite Forall_forall in H2. apply H2 in Hp. simpl in Hp.
    destruct (1 <? n) eqn:E; [apply Nat.ltb_lt in E; lia|reflexivity].
  - intros [i [c n]] Hi.
    assert (Hp : In (c, n) (firstn k top)).
    { rewrite <- (enumerate_snd 1 (firstn k top)).
      apply in_map_iff. now exists (i, (c, n)). }
    rewrite Forall_forall in H1. apply H1 in Hp. simpl in Hp.
    apply Nat.ltb_lt in Hp. now rewrite Hp.
Qed.

End CityRanking.

(* ================================================================== *)
(** * Properties of the displays *)



Section ResultDisplay.

Context {F : Type}.
Variable max_str_digits : nat.

Lemma display_airport_ok (airport : Airport F) :
  display_airport airport = (airport_lines airport, Ok tt).
Proof. reflexivity. Qed.

Lemma list_getitem_in_range {A} (xs : list A) (i : Z) :
  (0 <= i < Z.of_nat (List.length xs))%Z ->
  exists x, nth_error xs (Z.to_nat i) = Some x /\
            list_getitem (F := F) xs i = io_ret x.
Proof.
  intros H. unfold list_getitem.
  destruct (i <? 0)%Z eqn:E; [apply Z.ltb_lt in E; lia|]. rewrite E.
  destruct (nth_error xs (Z.to_nat i)) as [x|] eqn:N.
  - exists x. auto.
  - apply nth_error_None in N. lia.
Qed.

Lemma listing_ok (results : list (Airport F)) :
  io_for_each (enumerate 1 results)
    (fun item =>
       let airport := snd item in
       io_bind (io_print (ListEntry (fst item) (name airport) (iata airport)))
         (fun _ => io_bind (io_print (ListPlace (city airport) (country airport)))
         (fun _ => io_print (ListCoordinates (latitude airport) (longitude airport)))))
  = (flat_map listing_lines (enumerate 1 results), Ok tt).
Proof. now rewrite io_for_each_ok. Qed.


(** What the prompt of [display_results] leads to, for each answer. *)
Lemma choose_result_cases (results : list (Airport F)) (typed : keyboard) :
  let n := List.length results in
  exists tail,
    fst (choose_result max_str_digits results typed)
    = ShowingAll n :: PromptChoice n :: tail /\
    match typed with
    | Typed _ =>
        snd (choose_result max_str_digits results typed) = Ok tt \/
        snd (choose_result max_str_digits results typed) = Fail (Base ValueError)
    | CtrlC =>
        snd (choose_result max_str_digits results typed) = Fail KeyboardInterrupt
    | EndOfInput =>
        snd (choose_result max_str_digits results typed) = Fail EOFError
    end.
Proof.
  intros n. unfold choose_result. fold n.
  destruct typed as [choice| |]; simpl; [|eexists; split; reflexivity..].
  destruct (String.eqb (Py.lower choice) "all").
  - rewrite io_for_each_ok by reflexivity. simpl. eexists. split; [reflexivity|].
    now left.
  - destruct (Py.isdigit choice); [|simpl; eexists; split; [reflexivity|now left]].
    unfold io_int.
    destruct (int max_str_digits choice) as [k|];
      [|simpl; eexists; split; [reflexivity|now right]].
    cbn [io_bind io_ret app].
    destruct ((1 <=? k)%Z && (k <=? Z.of_nat n)%Z) eqn:G.
    + apply andb_true_iff in G. destruct G as [G1 G2].
      apply Z.leb_le in G1, G2.
      destruct (list_getitem_in_range results (k - 1)) as [a [_ E]];
        [fold n; lia|].
      rewrite E. simpl. eexists. split; [reflexivity|now left].
    + simpl. eexists. split; [reflexivity|now left].
Qed.

(** [display_results] never fails on an index: whatever is typed, it
    ends normally, an interrupt at the prompt included, unless the input
    ends at the prompt.  Nothing found gives the one message; one result is
    shown in full without a prompt; two results or more are all listed, each
    with its rank from 1, before the prompt. *)
Theorem display_results_outcomes (results : list (Airport F)) (query : string)
  (typed : keyboard) :
  let n := List.length results in
  snd (display_results max_str_digits results query typed)
  = (if (1 <? n) && match typed with EndOfInput => true | _ => false end
     then Fail EOFError else Ok tt) /\
  match results with
  | [] => fst (display_results max_str_digits results query typed) = [NoAirportsFound query]
  | [a] => fst (display_results max_str_digits results query typed)
           = FoundCount 1 query :: airport_lines a
  | _ :: _ :: _ =>
      exists tail,
        fst (display_results max_str_digits results query typed)
        = FoundCount n query :: flat_map listing_lines (enumerate 1 results)
          ++ ShowingAll n :: PromptChoice n :: tail
  end.
Proof.
  intros n. destruct results as [|a [|b l]].
  - split; reflexivity.
  - split; reflexivity.
  - unfold display_results. cbn [nonempty negb].
    change (List.length (a :: b :: l)) with n.
    assert (N1 : (n =? 1) = false) by reflexivity.
    assert (N2 : (1 <? n) = true) by reflexivity.
    rewrite N1, N2, listing_ok.
    destruct (choose_result_cases (a :: b :: l) typed) as [tail [E1 E2]].
    fold n in E1.
    destruct (choose_result max_str_digits (a :: b :: l) typed) as [o r].
    simpl in E1, E2. subst o.
    destruct typed; [destruct E2 as [E2|E2]| |]; subst r; simpl;
      (split; [reflexivity|]); eexists; rewrite ?app_nil_r; reflexivity.
Qed.


End ResultDisplay.


(** ** The order of strings is transitive *)

Lemma ascii_compare_lt_trans (a b c : ascii) :
  Ascii.compare a b = Lt -> Ascii.compare b c = Lt -> Ascii.compare a c = Lt.
Proof.
  unfold Ascii.compare. rewrite !N.compare_lt_iff. lia.
Qed.

Lemma string_compare_lt_trans (s t u : string) :
  String.compare s t = Lt -> String.compare t u = Lt -> String.compare s u = Lt.
Proof.
  revert t u. induction s as [|a s IH]; intros [|b t] [|c u]; simpl;
    try discriminate; trivial.
  destruct (Ascii.compare a b) eqn:E1; try discriminate.
  - apply Ascii.compare_eq_iff in E1. subst b.
    destruct (Ascii.compare a c); try discriminate; trivial. apply IH.
  - intros _. destruct (Ascii.compare b c) eqn:E2; try discriminate.
    + apply Ascii.compare_eq_iff in E2. subst c. now rewrite E1.
    + now rewrite (ascii_compare_lt_trans a b c E1 E2).
Qed.

Lemma string_leb_trans (s t u : string) :
  String.leb s t = true -> String.leb t u = true -> String.leb s u = true.
Proof.
  unfold String.leb.
  destruct (String.compare s t) eqn:E1; try discriminate;
    destruct (String.compare t u) eqn:E2; try discriminate; intros _ _.
  - apply String.compare_eq_iff in E1. subst t. now rewrite E2.
  - apply String.compare_eq_iff in E1. subst t. now rewrite E2.
  - apply String.compare_eq_iff in E2. subst u. now rewrite E1.
  - now rewrite (string_compare_lt_trans s t u E1 E2).
Qed.

(** ** The country listing announces every city once *)

Lemma announced_spec (l : list string) :
  StronglySorted (fun x y => String.leb x y = true) l ->
  forall current,
    (forall c0, current = Some c0 -> Forall (fun c => String.leb c0 c = true) l) ->
    NoDup (announced current l) /\
    (forall x, In x (announced current l) <-> In x l /\ current <> Some x).
Proof.
  induction 1 as [|c rest Hs IH Hc]; intros current Hcur; simpl.
  - split; [constructor|]. intros x. tauto.
  - destruct (IH (Some c)) as [N I].
    { intros c0 [= <-]. exact Hc. }
    destruct (match current with
              | Some c' => negb (String.eqb c c')
              | None => true
              end) eqn:E.
    + split.
      * constructor; [|exact N]. rewrite I. intros [_ H]. now apply H.
      * intros x. simpl. rewrite I. split.
        -- intros [<-|[Hx Hn]].
           ++ split; [now left|]. destruct current as [c'|]; [|discriminate].
              intros [= ->]. now rewrite String.eqb_refl in E.
           ++ split; [now right|]. destruct current as [c'|]; [|discriminate].
              intros [= ->]. apply Hn. f_equal.
              pose proof (Hcur x eq_refl) as Hx'. inversion Hx' as [|? ? H1 _]; subst.
              rewrite Forall_forall in Hc. apply String.leb_antisym; auto.
        -- intros [[<-|Hx] Hn]; [now left|].
           destruct (String.eqb c x) eqn:Ex.
           ++ apply String.eqb_eq in Ex. now left.
           ++ right. split; [exact Hx|]. apply String.eqb_neq in Ex. congruence.
    + destruct current as [c'|]; [|discriminate].
      apply negb_false_iff, String.eqb_eq in E. subst c'.
      destruct (IH (Some c)) as [N' I'].
      { intros c0 [= <-]. exact Hc. }
      split; [exact N'|]. intros x. rewrite I'. simpl. split.
      * intros [Hx Hn]. split; [now right|exact Hn].
      * intros [[<-|Hx] Hn]; [congruence|]. split; assumption.
Qed.

Lemma fold_set_add (l : list string) (s : list string) :
  NoDup s ->
  NoDup (fold_left (fun s c => set_add c s) l s) /\
  (forall x, In x (fold_left (fun s c => set_add c s) l s) <-> In x s \/ In x l).
Proof.
  revert s. induction l as [|c l IH]; intros s N; simpl.
  - split; [exact N|]. intros x. tauto.
  - destruct (IH (set_add c s) (set_add_NoDup c s N)) as [N' I'].
    split; [exact N'|]. intros x. rewrite I', set_add_In. intuition.
Qed.

Section CountryDisplay.

Context {F : Type}.

Lemma fold_left_map {A B S} (f : S -> B -> S) (g : A -> B) (l : list A) (s : S) :
  fold_left (fun s x => f s (g x)) l s = fold_left f (map g l) s.
Proof. revert s. induction l as [|x l IH]; intros s; simpl; [reflexivity|apply IH]. Qed.

Lemma count_cities_announced (l : list (Airport F)) :
  Sorted city_ascending l ->
  count_cities l = List.length (announced None (map (@city F) l)) /\
  NoDup (announced None (map (@city F) l)).
Proof.
  intros S.
  assert (SS : StronglySorted (fun x y => String.leb x y = true) (map (@city F) l)).
  { apply Sorted_StronglySorted.
    - intros x y z. apply string_leb_trans.
    - apply Sorted_map. exact S. }
  destruct (announced_spec _ SS None) as [N I]; [discriminate|].
  split; [|exact N].
  unfold count_cities.
  rewrite (fold_left_map (fun s c => set_add c s) (@city F) l []).
  destruct (fold_set_add (map (@city F) l) [] (NoDup_nil _)) as [N' I'].
  apply Permutation_length, NoDup_Permutation; trivial.
  intros x. rewrite I, I'. simpl.
  split; [intros [[]|H]; split; [exact H|discriminate]|intros [H _]; now right].
Qed.

Lemma country_entries (l : list (Airport F)) (s : nat) (current : option string) :
  exists o current',
    io_fold (@country_entry F) (enumerate s l) current = (o, Ok current') /\
    headings o = announced current (map (@city F) l) /\
    List.length o = 2 * List.length l + List.length (headings o) /\
    Forall (fun r => match r with CountrySummary _ _ => False | _ => True end) o.
Proof.
  revert s current. induction l as [|a l IH]; intros s current; simpl.
  - exists [], current. repeat split. constructor.
  - unfold country_entry at 1. cbn [fst snd].
    destruct (match current with
              | Some c => negb (String.eqb (city a) c)
              | None => true
              end) eqn:E.
    + destruct (IH (S s) (Some (city a))) as [o [c' [E1 [E2 [E3 E4]]]]].
      simpl. rewrite E1. eexists. eexists. split; [reflexivity|].
      rewrite E2 in E3. simpl. rewrite E2. split; [reflexivity|].
      split; [simpl in *; lia|]. repeat (constructor; trivial).
    + destruct (IH (S s) current) as [o [c' [E1 [E2 [E3 E4]]]]].
      simpl. rewrite E1. eexists. eexists. split; [reflexivity|].
      rewrite E2 in E3. simpl. rewrite E2. split; [reflexivity|].
      split; [simpl in *; lia|]. repeat (constructor; trivial).
Qed.

(** The country listing never fails, announces no city twice, and the
    number of cities of its summary is the number of its city headings: the
    list being sorted by city, the records of a city follow one another. *)
Theorem display_country_airports_headings (self : AirportSearch F)
  (country_name : string) :
  let o := fst (display_country_airports self country_name) in
  snd (display_country_airports self country_name) = Ok tt /\
  NoDup (headings o) /\
  Forall (fun r => match r with
                   | CountrySummary n m =>
                       m = List.length (headings o) /\
                       List.length o = 8 + 2 * n + m
                   | _ => True
                   end) o.
Proof.
  destruct (get_country_airports_returns self country_name) as [l [E _]].
  pose proof (sorted_by_city_ascending l) as S.
  set (res := sorted_by_key (@city F) l) in *.
  unfold display_country_airports. rewrite E. unfold lift. cbn [fst snd map io_bind].
  destruct res as [|a res'] eqn:R.
  - simpl. split; [reflexivity|]. split; [constructor|]. repeat constructor.
  - cbn [nonempty negb].
    set (full := a :: res') in *.
    assert (G : list_getitem (F := F) full 0 = io_ret a) by reflexivity.
    rewrite G.
    destruct (country_entries full 1 None) as [o [c' [E1 [E2 [E3 E4]]]]].
    destruct (count_cities_announced full S) as [C N].
    cbn [io_bind io_ret io_print]. rewrite E1.
    cbn [io_bind io_ret io_print app fst snd].
    assert (H : headings
                  (Rule true 60 :: CountryTitle (Py.upper (country a))
                   :: Rule false 60 :: CountryFound (List.length full) :: Blank
                   :: o ++ [Rule true 60;
                            CountrySummary (List.length full) (count_cities full);
                            Rule false 60])
                = headings o).
    { unfold headings. simpl. rewrite flat_map_app. simpl. now rewrite app_nil_r. }
    split; [reflexivity|]. rewrite H, E2. split; [exact N|].
    repeat (constructor; trivial).
    apply Forall_app. split.
    + eapply Forall_impl; [|exact E4]. intros []; simpl; tauto.
    + constructor; [exact I|].
      constructor; [|repeat (constructor; trivial)].
      split; [exact C|].
      cbn [List.length]. rewrite length_app. cbn [List.length].
      rewrite E3, E2, C. lia.
Qed.

End CountryDisplay.


(** ** Search by criteria *)

Lemma contains_in_empty (s : string) :
  Py.contains s EmptyString = true <-> s = EmptyString.
Proof. destruct s; simpl; split; (reflexivity || discriminate). Qed.

Lemma smap_empty (f : ascii -> ascii) (s : string) :
  Py.smap f s = EmptyString <-> s = EmptyString.
Proof. destruct s; simpl; split; (reflexivity || discriminate). Qed.

Lemma flat_map_none {A B} (l : list A) : flat_map (fun _ : A => @nil B) l = [].
Proof. induction l as [|x l IH]; simpl; trivial. Qed.

Section Criteria.

Context {F : Type}.
Variable float : string -> option F.
Variable float_of_int : Z -> option F.
Variable float_ge : F -> F -> bool.
Variable self : AirportSearch F.

(** The hits of a search by criteria are records of the store, in the
    order of the store and each at most once per occurrence; a hit carries
    an elevation exactly when the criterion is the elevation, and it is then
    the elevation of its record as a float. *)
Theorem search_airports_by_criteria_hits (criteria_type criteria_value : string) :
  let hits := search_airports_by_criteria float float_of_int float_ge self
    criteria_type criteria_value in
  (exists keep, map (@hit_airport F) hits = filter keep (airports self)) /\
  Forall (fun hit =>
            match hit with
            | WithElevation airport e =>
                Py.lower criteria_type = "elevation" /\
                float_of_int (elevation airport) = Some e
            | Plain _ => Py.lower criteria_type <> "elevation"
            end) hits.
Proof.
  cbv zeta. unfold search_airports_by_criteria.
  split.
  - exists (fun a => match criteria_hits float float_of_int float_ge
                             criteria_type criteria_value a with
                     | [] => false
                     | _ => true
                     end).
    induction (airports self) as [|a l IH]; [reflexivity|].
    simpl. rewrite map_app, IH.
    assert (H : criteria_hits float float_of_int float_ge
                  criteria_type criteria_value a = []
                \/ exists h, criteria_hits float float_of_int float_ge
                               criteria_type criteria_value a = [h]
                             /\ hit_airport h = a).
    { unfold criteria_hits.
      repeat match goal with
             | |- context [if ?b then _ else _] => destruct b
             | |- context [match ?x with Some _ => _ | None => _ end] => destruct x
             end; eauto. }
    destruct H as [->|[h [-> <-]]]; reflexivity.
  - apply Forall_flat_map, Forall_forall. intros a _.
    unfold criteria_hits.
    destruct (String.eqb (Py.lower criteria_type) "elevation") eqn:E.
    + apply String.eqb_eq in E.
      destruct (float_of_int (elevation a)) as [e|] eqn:Ee; [|constructor].
      destruct (float criteria_value) as [bound|]; [|constructor].
      destruct (float_ge e bound); repeat constructor; trivial.
    + apply String.eqb_neq in E.
      repeat match goal with
             | |- context [if ?b then _ else _] => destruct b
             end; repeat constructor; trivial.
Qed.

(** A record has no continent: the continent criterion returns the whole
    store for an empty value and nothing for any other value. *)
Theorem search_airports_by_criteria_continent (criteria_type criteria_value : string) :
  Py.lower criteria_type = "continent" ->
  search_airports_by_criteria float float_of_int float_ge self
    criteria_type criteria_value
  = if String.eqb criteria_value EmptyString
    then map (@Plain F) (airports self) else [].
Proof.
  intros E. unfold search_airports_by_criteria, criteria_hits.
  rewrite E. cbn [String.eqb Ascii.eqb Bool.eqb andb].
  destruct (String.eqb criteria_value EmptyString) eqn:V.
  - apply String.eqb_eq in V. subst. simpl.
    induction (airports self) as [|a l IH]; simpl; [reflexivity|now rewrite IH].
  - apply String.eqb_neq in V.
    assert (C : Py.contains (Py.lower criteria_value) (Py.lower EmptyString) = false).
    { destruct (Py.contains _ _) eqn:C; [|reflexivity].
      apply contains_in_empty, smap_empty in C. contradiction. }
    rewrite C. apply flat_map_none.
Qed.

(** An ASCII criterion is read without regard to case, and so is an ASCII
    value of the timezone criterion. *)
Theorem search_airports_by_criteria_any_case (criteria_type criteria_value : string) :
  Py.isascii criteria_type = true ->
  Py.isascii criteria_value = true ->
  search_airports_by_criteria float float_of_int float_ge self
    (Py.upper criteria_type) criteria_value
  = search_airports_by_criteria float float_of_int float_ge self
    criteria_type criteria_value /\
  search_airports_by_criteria float float_of_int float_ge self "timezone" (Py.upper criteria_value)
  = search_airports_by_criteria float float_of_int float_ge self "timezone" criteria_value.
Proof.
  intros _ _. unfold search_airports_by_criteria, criteria_hits.
  rewrite lower_upper. split; [reflexivity|].
  rewrite lower_upper. reflexivity.
Qed.

End Criteria.

Lemma search_airports_by_criteria_any_case_witness :
  search_airports_by_criteria decimal (fun n => Some (inject_Z n))
    (fun x y => Qle_bool y x) (indexed sample_store) "TIMEZONE" "Europe"
  = search_airports_by_criteria decimal (fun n => Some (inject_Z n))
      (fun x y => Qle_bool y x) (indexed sample_store) "TimeZone" "Europe" /\
  search_airports_by_criteria decimal (fun n => Some (inject_Z n))
    (fun x y => Qle_bool y x) (indexed sample_store) "timezone" "EUROPE"
  = [Plain LHR; Plain CDG].
Proof.
  destruct (search_airports_by_criteria_any_case decimal
              (fun n => Some (inject_Z n)) (fun x y => Qle_bool y x)
              (indexed sample_store) "TimeZone" "Europe" eq_refl eq_refl)
    as [T V].
  split; [exact T|]. etransitivity; [exact V|reflexivity].
Defined.

Lemma search_airports_by_criteria_continent_witness :
  search_airports_by_criteria decimal (fun n => Some (inject_Z n)) (fun x y => Qle_bool y x)
    (indexed sample_store) "Continent" "Europe" = [] /\
  search_airports_by_criteria decimal (fun n => Some (inject_Z n)) (fun x y => Qle_bool y x)
    (indexed sample_store) "CONTINENT" "" = map (@Plain Q) sample_store.
Proof.
  split;
    apply (search_airports_by_criteria_continent decimal
             (fun n => Some (inject_Z n)) (fun x y => Qle_bool y x) (indexed sample_store));
    reflexivity.
Defined.

(** ** The build script *)

Section Build.

Context {F : Type}.
Variable max_str_digits : nat.
Variable float : string -> option F.
Variable float_zero : F.

Lemma lift_value {A} (o : list line) (a : A) :
  lift (F := F) (o, Return a) = (map Old o, Ok a).
Proof. reflexivity. Qed.

Lemma process_never_raises (fs : FileSystem F) :
  exists o r,
    process_airport_data max_str_digits float float_zero fs = (o, Return r) /\
    match airports_raw_dat fs with
    | Content rows =>
        if forallb (accepted_row max_str_digits float) rows
        then exists countries cities,
               r = Some (flat_map (records_of_row max_str_digits float float_zero) rows,
                         countries, cities)
        else r = None
    | _ => r = None
    end.
Proof.
  destruct (airports_raw_dat fs) as [| |rows] eqn:E.
  - eexists. eexists. unfold process_airport_data. rewrite E.
    split; reflexivity.
  - eexists. eexists. unfold process_airport_data. rewrite E.
    split; reflexivity.
  - destruct (forallb (accepted_row max_str_digits float) rows) eqn:R.
    + destruct (process_readable_rows max_str_digits float float_zero fs rows E R)
        as [c [ci H]].
      eexists. eexists. split; [exact H|]. exists c, ci. reflexivity.
    + eexists. eexists.
      split; [exact (process_unreadable_rows max_str_digits float float_zero fs rows E R)|].
      reflexivity.
Qed.

Lemma download_leaves (net : download) (fs : FileSystem F) :
  exists o b,
    download_airport_data net fs
    = (o, Ok (b, write_raw match net with
                           | DownloadFailed => Content sample_data
                           | Downloaded (Some rows) => Content rows
                           | Downloaded None => Unreadable
                           end fs)).
Proof.
  unfold download_airport_data.
  destruct net as [|[rows|]]; eexists; eexists; reflexivity.
Qed.

Lemma main_processed (net : download) (fs : FileSystem F)
  (raw : file (list (list string))) (o : list (report F)) (b : bool)
  (o1 : list line) (airports : list (Airport F)) (countries cities : list string) :
  download_airport_data net fs = (o, Ok (b, write_raw raw fs)) ->
  process_airport_data max_str_digits float float_zero (write_raw raw fs)
  = (o1, Return (Some (airports, countries, cities))) ->
  exists fs',
    snd (main max_str_digits float float_zero net fs) = Ok fs' /\
    airports_raw_dat fs' = raw /\
    AirportSearch_init fs'
    = ([MsgLoaded (List.length airports)], Return (indexed airports)).
Proof.
  intros D P. unfold main. rewrite D. cbn [io_print io_bind snd].
  rewrite P, lift_value. cbn [io_bind].
  destruct (load_after_save airports countries cities (write_raw raw fs))
    as [fs' [S L]].
  pose proof S as S'. unfold save_processed_data in S'.
  exists fs'. rewrite S, lift_value.
  split; [reflexivity|]. split; [|exact L].
  cbn in S'. injection S' as <-. reflexivity.
Qed.

Lemma main_not_processed (net : download) (fs : FileSystem F)
  (raw : file (list (list string))) (o : list (report F)) (b : bool)
  (o1 : list line) :
  download_airport_data net fs = (o, Ok (b, write_raw raw fs)) ->
  process_airport_data max_str_digits float float_zero (write_raw raw fs) = (o1, Return None) ->
  snd (main max_str_digits float float_zero net fs) = Ok (write_raw raw fs).
Proof.
  intros D P. unfold main. rewrite D. cbn [io_print io_bind snd].
  rewrite P, lift_value. reflexivity.
Qed.

(** A row that enters the store: 14 fields or more, and a primary code of
    3 characters once its quotes are stripped. *)
Lemma records_of_row_map {B} (g : Airport F -> B) (g0 : list string -> B)
  (rows : list (list string)) :
  (forall row o a, airport_of_row max_str_digits float float_zero row = (o, Return a) ->
                   g a = g0 row /\
                   iata a = Py.strip_quotes (nth 4 row EmptyString)) ->
  forallb (accepted_row max_str_digits float) rows = true ->
  map g (flat_map (records_of_row max_str_digits float float_zero) rows)
  = map g0 (filter (fun row =>
                      (14 <=? List.length row)
                      && (Py.truthy (Py.strip_quotes (nth 4 row EmptyString))
                          && (Py.len (Py.strip_quotes (nth 4 row EmptyString)) =? 3)))
                   rows).
Proof.
  intros G. induction rows as [|row rows IH]; intros H; [reflexivity|].
  simpl in H. apply andb_true_iff in H. destruct H as [R H].
  cbn [flat_map filter]. rewrite map_app, (IH H). clear IH H.
  unfold records_of_row.
  destruct (14 <=? List.length row) eqn:L; [|reflexivity].
  cbn [andb].
  destruct (process_row_readable max_str_digits float float_zero ([], [], []) row R)
    as [st [P _]].
  unfold process_row in P. rewrite L in P.
  destruct (airport_of_row max_str_digits float float_zero row) as [o [a|e]] eqn:A;
    [|discriminate P].
  destruct (G row o a A) as [Gg Gi]. rewrite <- Gi.
  destruct (Py.truthy (iata a) && (Py.len (iata a) =? 3)); [|reflexivity].
  simpl. now rewrite Gg.
Qed.

Lemma int_or_zero_value (s : string) (o : list line) (n : Z) :
  int_or_zero max_str_digits s = (o, Return n) ->
  n = (if Py.isdigit s then int_digits 0 s else 0%Z).
Proof.
  unfold int_or_zero, int. destruct (Py.isdigit s); [|now intros [= _ <-]].
  destruct (Py.truthy s && Py.sall Py.char_isdecimal s && _);
    [now intros [= _ <-]|discriminate].
Qed.

Lemma airport_of_row_fields (row : list string) (o : list line) (a : Airport F) :
  airport_of_row max_str_digits float float_zero row = (o, Return a) ->
  id a = (if Py.isdigit (nth 0 row EmptyString)
          then int_digits 0 (nth 0 row EmptyString) else 0%Z) /\
  name a = Py.strip_quotes (nth 1 row EmptyString) /\
  city a = Py.strip_quotes (nth 2 row EmptyString) /\
  country a = Py.strip_quotes (nth 3 row EmptyString) /\
  iata a = Py.strip_quotes (nth 4 row EmptyString) /\
  icao a = Py.strip_quotes (nth 5 row EmptyString) /\
  elevation a = (if Py.isdigit (nth 8 row EmptyString)
                 then int_digits 0 (nth 8 row EmptyString) else 0%Z) /\
  timezone a = Py.strip_quotes (nth 11 row EmptyString) /\
  type_ a = Py.strip_quotes (nth 12 row EmptyString) /\
  source a = Py.strip_quotes (nth 13 row EmptyString).
Proof.
  unfold airport_of_row. cbv zeta.
  destruct (int_or_zero max_str_digits (nth 0 row EmptyString))
    as [o0 [i|e0]] eqn:E0; cbn [bind]; [|discriminate].
  destruct (float_or_zero float float_zero (nth 6 row EmptyString))
    as [o1 [lat|e1]]; cbn [bind]; [|discriminate].
  destruct (float_or_zero float float_zero (nth 7 row EmptyString))
    as [o2 [lon|e2]]; cbn [bind]; [|discriminate].
  destruct (int_or_zero max_str_digits (nth 8 row EmptyString))
    as [o3 [el|e3]] eqn:E8; cbn [bind ret]; [|discriminate].
  intros E. injection E as _ <-. cbn.
  apply int_or_zero_value in E0, E8. repeat split; assumption.
Qed.

Lemma forallb_andb {A} (f g : A -> bool) (l : list A) :
  forallb (fun x => f x && g x) l = forallb f l && forallb g l.
Proof.
  induction l as [|x l IH]; simpl; [reflexivity|]. rewrite IH.
  destruct (f x), (g x), (forallb f l); reflexivity.
Qed.

(** When the download fails, the build runs on the sample rows and leaves a
    database that loads: every sample row enters the store, in order, and the
    elevation below sea level of the eighth is stored as 0, its field not
    being made of digits. *)
Theorem main_offline_store (fs : FileSystem F) :
  forallb (readable_row float) sample_data = true ->
  exists fs' o s,
    snd (main max_str_digits float float_zero DownloadFailed fs) = Ok fs' /\
    AirportSearch_init fs' = (o, Return s) /\
    map (@iata F) (airports s)
    = ["JFK"; "LAX"; "LHR"; "HND"; "CDG"; "DXB"; "SIN"; "AMS"; "FRA"; "HKG";
       "SYD"; "YYZ"; "BOM"; "PEK"; "GRU"] /\
    map (@elevation F) (airports s)
    = [13; 125; 83; 35; 392; 62; 22; 0; 364; 28; 21; 569; 39; 116; 2459]%Z.
Proof.
  intros H0.
  assert (H : forallb (accepted_row max_str_digits float) sample_data = true).
  { unfold accepted_row. rewrite forallb_andb, H0. reflexivity. }
  destruct (download_leaves DownloadFailed fs) as [o0 [b D]].
  destruct (process_readable_rows max_str_digits float float_zero
              (write_raw (Content sample_data) fs) sample_data eq_refl H)
    as [c [ci P]].
  destruct (main_processed _ _ _ _ _ _ _ _ _ D P) as [fs' [E [_ L]]].
  exists fs'. eexists. eexists. split; [exact E|]. split; [exact L|].
  cbn [airports indexed]. split.
  - rewrite (records_of_row_map (@iata F)
               (fun row => Py.strip_quotes (nth 4 row EmptyString))
               sample_data); [reflexivity| |exact H].
    intros row o a A. destruct (airport_of_row_fields row o a A) as (_&_&_&_&I&_).
    split; exact I.
  - rewrite (records_of_row_map (@elevation F)
               (fun row => if Py.isdigit (nth 8 row EmptyString)
                           then int_digits 0 (nth 8 row EmptyString) else 0%Z)
               sample_data); [reflexivity| |exact H].
    intros row o a A.
    destruct (airport_of_row_fields row o a A) as (_&_&_&_&I&_&El&_).
    split; [exact El|exact I].
Qed.


Lemma int_digits_nonnegative (s : string) (acc : Z) :
  (0 <= acc)%Z -> (0 <= int_digits acc s)%Z.
Proof.
  revert acc. induction s as [|c s IH]; intros acc H; cbn [int_digits];
    [exact H|].
  apply IH. pose proof (N2Z.is_nonneg (Py.ord c - 48)). lia.
Qed.

Lemma digits_or_zero_nonnegative (s : string) :
  (0 <= (if Py.isdigit s then int_digits 0 s else 0))%Z.
Proof.
  destruct (Py.isdigit s); [|lia]. apply int_digits_nonnegative. lia.
Qed.

(** The fields of the records of the store: an identifier and an elevation
    are never negative, a field that is not made of digits being stored as
    0, and no text field starts or ends with a double quote. *)
Theorem process_airport_data_record_fields (fs : FileSystem F) (o : list line)
  (airports : list (Airport F)) (countries cities : list string) :
  process_airport_data max_str_digits float float_zero fs
  = (o, Return (Some (airports, countries, cities))) ->
  Forall (fun a =>
            (0 <= id a)%Z /\ (0 <= elevation a)%Z /\
            Forall (fun s => Py.strip_quotes s = s)
                   [name a; city a; country a; iata a; icao a;
                    timezone a; type_ a; source a])
         airports.
Proof.
  intros H.
  assert (R : exists rows, airports = flat_map (records_of_row max_str_digits float float_zero) rows).
  { destruct (airports_raw_dat fs) as [| |rows] eqn:E;
      try (unfold process_airport_data in H; rewrite E in H; discriminate H).
    destruct (forallb (accepted_row max_str_digits float) rows) eqn:R.
    - destruct (process_readable_rows max_str_digits float float_zero fs rows E R)
        as [c [ci P]].
      rewrite P in H. injection H as _ <- _ _. now exists rows.
    - rewrite (process_unreadable_rows max_str_digits float float_zero fs rows E R) in H.
      discriminate H. }
  destruct R as [rows ->].
  apply Forall_flat_map, Forall_forall. intros row _.
  unfold records_of_row.
  destruct (14 <=? List.length row); [|constructor].
  destruct (airport_of_row max_str_digits float float_zero row) as [o1 [a|e]] eqn:A;
    [|constructor].
  destruct (Py.truthy (iata a) && (Py.len (iata a) =? 3)); [|constructor].
  constructor; [|constructor].
  destruct (airport_of_row_fields row o1 a A)
    as (-> & -> & -> & -> & -> & -> & -> & -> & -> & ->).
  split; [apply digits_or_zero_nonnegative|].
  split; [apply digits_or_zero_nonnegative|].
  repeat (constructor; [apply strip_with_idem|]). constructor.
Qed.

(** The build never fails.  The raw file it leaves is the download, or the
    sample rows when the download failed.  When every row of that file is
    accepted (coordinates that [float] reads, an identifier and an elevation
    that [int] reads where they are made of digits), the files it leaves load
    into the store of these rows and the indexes built from it; otherwise the
    processed files are left as they were. *)
Theorem main_outcome (net : download) (fs : FileSystem F) :
  let raw := match net with
             | DownloadFailed => Content sample_data
             | Downloaded (Some rows) => Content rows
             | Downloaded None => Unreadable
             end in
  exists fs',
    snd (main max_str_digits float float_zero net fs) = Ok fs' /\
    airports_raw_dat fs' = raw /\
    match raw with
    | Content rows =>
        if forallb (accepted_row max_str_digits float) rows
        then AirportSearch_init fs'
             = ([MsgLoaded (List.length
                              (flat_map (records_of_row max_str_digits float float_zero) rows))],
                Return (indexed (flat_map (records_of_row max_str_digits float float_zero) rows)))
        else fs' = write_raw raw fs
    | _ => fs' = write_raw raw fs
    end.
Proof.
  cbv zeta. destruct (download_leaves net fs) as [o [b D]].
  set (raw := match net with
              | DownloadFailed => Content sample_data
              | Downloaded (Some rows) => Content rows
              | Downloaded None => Unreadable
              end) in *.
  destruct (process_never_raises (write_raw raw fs)) as [o1 [r [P C]]].
  cbn [write_raw airports_raw_dat] in C.
  destruct r as [[[a c] ci]|].
  - destruct (main_processed _ _ _ _ _ _ _ _ _ D P) as [fs' [E [A L]]].
    exists fs'. split; [exact E|]. split; [exact A|].
    destruct raw as [| |rows]; try discriminate C.
    destruct (forallb (accepted_row max_str_digits float) rows); [|discriminate C].
    destruct C as [c' [ci' C]]. injection C as -> _ _. exact L.
  - exists (write_raw raw fs).
    split; [exact (main_not_processed _ _ _ _ _ _ D P)|].
    split; [reflexivity|].
    destruct raw as [| |rows]; trivial.
    destruct (forallb (accepted_row max_str_digits float) rows); trivial.
    destruct C as [c' [ci' C]]. discriminate C.
Qed.

End Build.

Lemma main_offline_store_witness :
  exists fs' o s,
    snd (main 4300 decimal 0%Q DownloadFailed empty_fs) = Ok fs' /\
    AirportSearch_init fs' = (o, Return s) /\
    map (@iata Q) (airports s)
    = ["JFK"; "LAX"; "LHR"; "HND"; "CDG"; "DXB"; "SIN"; "AMS"; "FRA"; "HKG";
       "SYD"; "YYZ"; "BOM"; "PEK"; "GRU"] /\
    map (@elevation Q) (airports s)
    = [13; 125; 83; 35; 392; 62; 22; 0; 364; 28; 21; 569; 39; 116; 2459]%Z.
Proof. apply (main_offline_store 4300 decimal 0%Q empty_fs). reflexivity. Defined.

Lemma process_airport_data_record_fields_witness :
  Forall (fun a : Airport Q =>
            (0 <= id a)%Z /\ (0 <= elevation a)%Z /\
            Forall (fun s => Py.strip_quotes s = s)
                   [name a; city a; country a; iata a; icao a;
                    timezone a; type_ a; source a])
         sample_store.
Proof.
  apply (process_airport_data_record_fields 4300 decimal 0%Q (raw_fs sample_rows)
           [MsgProcessing; MsgProcessed 5 4] sample_store
           ["United States"; "United Kingdom"; "Japan"; "France"]
           ["New York, United States"; "Los Angeles, United States";
            "London, United Kingdom"; "Tokyo, Japan"; "Paris, France"]).
  vm_compute. reflexivity.
Defined.

Lemma display_top_countries_rows_witness :
  let self := {| search := indexed sample_store;
                 statistics := statistics_of sample_store |} in
  List.length (most_common (Some 1%Z) (country_stats (statistics self))) <= 1 /\
  fst (display_top_countries self 1)
  = [Rule true 60; TopCountriesTitle 1; Rule false 60;
     TopCountryRow 1 "United States" 2 5; Rule false 60].
Proof.
  intros self.
  destruct (display_top_countries_rows self eq_refl 1%Z) as [E [L _]].
  split; [exact L|]. rewrite E. reflexivity.
Defined.

Lemma display_global_overview_consistent_witness :
  let self := {| search := indexed sample_store;
                 statistics := statistics_of sample_store |} in
  list_sum (map snd (most_common None (airport_types (statistics self)))) = 5.
Proof.
  intros self.
  destruct (display_global_overview_consistent self eq_refl) as [_ T].
  exact T.
Defined.
